(** * ICBO-Cloud-Scheduling: the plotting and reporting scripts

    A shallow embedding of [scripts/plot_convergence.py],
    [scripts/plot_sensitivity.py] and [scripts/plot_sensitivity_simple.py].

    - Python [float] / numpy [float64] values are IEEE-754 binary64 numbers,
      modelled with the Standard Library's [spec_float] at precision 53 and
      maximal exponent 1024, so arithmetic, comparison and division by zero
      behave as they do at run time (no exception: infinities and NaN).
    - Python [int] is [Z]; a [str] is the [string] of its UTF-8 bytes.  The
      interpreter is CPython 3.11 with its Unicode database (14.0.0) and its
      default limit on the digits of an integer literal.
    - A script is a computation in a writer-and-exception monad [M]: it
      emits the events a run makes observable (printed lines, plotted
      artists, saved figures, written reports) and either returns a value or
      raises an exception.
    - Everything outside the scripts (the file system, the clock, pandas'
      floating-point reductions) is read from an environment [Env]. *)

From Stdlib Require Import ZArith List String Ascii Bool Lia.
From Stdlib Require Import Permutation Sorted SpecFloat DecimalString DecimalPos.
Import ListNotations.

Open Scope string_scope.
Open Scope Z_scope.

(* ================================================================== *)
(** * Python run-time fragments *)
(* ================================================================== *)

Module Py.

(** Exceptions.  [KeyboardInterrupt] derives from [BaseException] only;
    every other class below derives from [Exception], and
    [FileNotFoundError] is a subclass of [OSError]. *)
Inductive exn : Type :=
| FileNotFoundError (msg : string)
| ValueError (msg : string)
| IndexError (msg : string)
| KeyError (msg : string)
| OSError (msg : string)
| KeyboardInterrupt.

(** [str(e)]. *)
Definition str_of_exn (e : exn) : string :=
  match e with
  | FileNotFoundError msg | ValueError msg | IndexError msg
  | KeyError msg | OSError msg => msg
  | KeyboardInterrupt => ""
  end.

Definition isinstance_FileNotFoundError (e : exn) : bool :=
  match e with FileNotFoundError _ => true | _ => false end.

Definition isinstance_ValueError (e : exn) : bool :=
  match e with ValueError _ => true | _ => false end.

Definition isinstance_KeyError (e : exn) : bool :=
  match e with KeyError _ => true | _ => false end.

Definition isinstance_Exception (e : exn) : bool :=
  match e with KeyboardInterrupt => false | _ => true end.

(** ** Strings *)

(** [s.split(sep)] for a non-empty [sep]: a left-to-right scan that cuts at
    every occurrence of [sep] not overlapping an earlier cut.  [skip]
    counts the characters of a matched separator still to be passed over,
    [cur] is the piece being accumulated. *)
Fixpoint split_go (sep : string) (skip : nat) (cur s : string) : list string :=
  match s with
  | EmptyString => [cur]
  | String c rest =>
      match skip with
      | S n => split_go sep n cur rest
      | O =>
          if String.prefix sep s
          then cur :: split_go sep (Nat.pred (String.length sep)) "" rest
          else split_go sep 0 (cur ++ String c "") rest
      end
  end.

Definition split (sep s : string) : list string := split_go sep 0 "" s.

(** [l[-1]] on a non-empty list (the lists indexed this way are results of
    [split], never empty). *)
Definition last_piece (l : list string) : string := List.last l "".

(** [name.rfind('.')]: the index of the last dot, counting from [pos]. *)
Fixpoint rfind_dot (s : string) (pos : nat) : option nat :=
  match s with
  | EmptyString => None
  | String c rest =>
      match rfind_dot rest (S pos) with
      | Some i => Some i
      | None => if Ascii.eqb c "."%char then Some pos else None
      end
  end.

(** [PurePath.stem] of a final path component:
    [i = name.rfind('.')], and [name[:i]] when [0 < i < len(name) - 1]. *)
Definition stem (name : string) : string :=
  match rfind_dot name 0 with
  | Some i =>
      if (Nat.ltb 0 i && Nat.ltb i (Nat.pred (String.length name)))%bool
      then String.substring 0 i name
      else name
  | None => name
  end.

(** ** Text

    A [str] is held as the bytes of its UTF-8 encoding, one [ascii] per
    byte; this is also how the string literals of this file are stored.  A
    file name is the bytes the file system holds: Python decodes them as
    UTF-8 and turns every byte that is not part of a well-formed sequence
    into the lone surrogate U+DC00 + byte ([surrogateescape]).  [decode]
    gives the code points of the [str], [encode] the bytes back. *)

Definition byte (c : ascii) : Z := Z.of_nat (nat_of_ascii c).

Definition char_of (b : Z) : ascii := ascii_of_nat (Z.to_nat b).

Definition between (lo hi x : Z) : bool := ((lo <=? x) && (x <=? hi))%bool.

Definition continuation (b : Z) : bool := between 128 191 b.

(** The code point that starts with byte [b0], the bytes after it being
    [rest], and the number of bytes it takes (Unicode, table 3-7). *)
Definition decode_one (b0 : Z) (rest : list Z) : Z * nat :=
  let b1 := nth 0 rest 0 in
  let b2 := nth 1 rest 0 in
  let b3 := nth 2 rest 0 in
  if b0 <? 128 then (b0, 1%nat)
  else if (between 194 223 b0 && continuation b1)%bool
  then ((b0 - 192) * 64 + (b1 - 128), 2%nat)
  else if (((Z.eqb b0 224 && between 160 191 b1)
            || ((between 225 236 b0 || between 238 239 b0) && continuation b1)
            || (Z.eqb b0 237 && between 128 159 b1))
           && continuation b2)%bool
  then ((b0 - 224) * 4096 + (b1 - 128) * 64 + (b2 - 128), 3%nat)
  else if (((Z.eqb b0 240 && between 144 191 b1)
            || (between 241 243 b0 && continuation b1)
            || (Z.eqb b0 244 && between 128 143 b1))
           && continuation b2 && continuation b3)%bool
  then ((b0 - 240) * 262144 + (b1 - 128) * 4096 + (b2 - 128) * 64 + (b3 - 128),
        4%nat)
  else (56320 + b0, 1%nat).

(** [skip] counts the bytes of the current sequence still to be passed
    over. *)
Fixpoint decode_go (skip : nat) (s : list Z) : list Z :=
  match s with
  | [] => []
  | b :: rest =>
      match skip with
      | S n => decode_go n rest
      | O =>
          let '(c, len) := decode_one b rest in
          c :: decode_go (Nat.pred len) rest
      end
  end.

Definition decode (s : string) : list Z :=
  decode_go 0 (map byte (list_ascii_of_string s)).

Definition encode_one (c : Z) : list Z :=
  if c <? 128 then [c]
  else if c <? 2048 then [192 + c / 64; 128 + c mod 64]
  else if between 56448 56575 c then [c - 56320]
  else if c <? 65536
  then [224 + c / 4096; 128 + (c / 64) mod 64; 128 + c mod 64]
  else [240 + c / 262144; 128 + (c / 4096) mod 64; 128 + (c / 64) mod 64;
        128 + c mod 64].

Definition encode (cs : list Z) : string :=
  string_of_list_ascii (map char_of (flat_map encode_one cs)).

(** *** The Unicode database (version 14.0.0, that of CPython 3.11) *)

(** [Py_UNICODE_ISSPACE] above U+007F. *)
Definition unicode_isspace (c : Z) : bool :=
  (Z.eqb c 133 || Z.eqb c 160 || Z.eqb c 5760 || between 8192 8202 c
   || Z.eqb c 8232 || Z.eqb c 8233 || Z.eqb c 8239 || Z.eqb c 8287
   || Z.eqb c 12288)%bool.

(** The code points of the digit zero of every run of decimal digits above
    U+007F; the nine code points after each are its digits one to nine. *)
Definition decimal_zeros : list Z :=
  [
    1632; 1776; 1984; 2406; 2534; 2662; 2790; 2918; 3046; 3174; 3302; 3430;
    3558; 3664; 3792; 3872; 4160; 4240; 6112; 6160; 6470; 6608; 6784; 6800;
    6992; 7088; 7232; 7248; 42528; 43216; 43264; 43472; 43504; 43600;
    44016; 65296; 66720; 68912; 69734; 69872; 69942; 70096; 70384; 70736;
    70864; 71248; 71360; 71472; 71904; 72016; 72784; 73040; 73120; 92768;
    92864; 93008; 120782; 120792; 120802; 120812; 120822; 123200; 123632;
    125264; 130032
  ].

(** [Py_UNICODE_TODECIMAL] above U+007F. *)
Definition unicode_decimal (c : Z) : option Z :=
  match find (fun z => between z (z + 9) c) decimal_zeros with
  | Some z => Some (c - z)
  | None => None
  end.

(** The ranges of code points above U+007F that [str.isprintable]
    rejects. *)
Definition nonprintable : list (Z * Z) :=
  [
    (128, 160); (173, 173); (888, 889); (896, 899); (907, 907); (909, 909);
    (930, 930); (1328, 1328); (1367, 1368); (1419, 1420); (1424, 1424);
    (1480, 1487); (1515, 1518); (1525, 1541); (1564, 1564); (1757, 1757);
    (1806, 1807); (1867, 1868); (1970, 1983); (2043, 2044); (2094, 2095);
    (2111, 2111); (2140, 2141); (2143, 2143); (2155, 2159); (2191, 2199);
    (2274, 2274); (2436, 2436); (2445, 2446); (2449, 2450); (2473, 2473);
    (2481, 2481); (2483, 2485); (2490, 2491); (2501, 2502); (2505, 2506);
    (2511, 2518); (2520, 2523); (2526, 2526); (2532, 2533); (2559, 2560);
    (2564, 2564); (2571, 2574); (2577, 2578); (2601, 2601); (2609, 2609);
    (2612, 2612); (2615, 2615); (2618, 2619); (2621, 2621); (2627, 2630);
    (2633, 2634); (2638, 2640); (2642, 2648); (2653, 2653); (2655, 2661);
    (2679, 2688); (2692, 2692); (2702, 2702); (2706, 2706); (2729, 2729);
    (2737, 2737); (2740, 2740); (2746, 2747); (2758, 2758); (2762, 2762);
    (2766, 2767); (2769, 2783); (2788, 2789); (2802, 2808); (2816, 2816);
    (2820, 2820); (2829, 2830); (2833, 2834); (2857, 2857); (2865, 2865);
    (2868, 2868); (2874, 2875); (2885, 2886); (2889, 2890); (2894, 2900);
    (2904, 2907); (2910, 2910); (2916, 2917); (2936, 2945); (2948, 2948);
    (2955, 2957); (2961, 2961); (2966, 2968); (2971, 2971); (2973, 2973);
    (2976, 2978); (2981, 2983); (2987, 2989); (3002, 3005); (3011, 3013);
    (3017, 3017); (3022, 3023); (3025, 3030); (3032, 3045); (3067, 3071);
    (3085, 3085); (3089, 3089); (3113, 3113); (3130, 3131); (3141, 3141);
    (3145, 3145); (3150, 3156); (3159, 3159); (3163, 3164); (3166, 3167);
    (3172, 3173); (3184, 3190); (3213, 3213); (3217, 3217); (3241, 3241);
    (3252, 3252); (3258, 3259); (3269, 3269); (3273, 3273); (3278, 3284);
    (3287, 3292); (3295, 3295); (3300, 3301); (3312, 3312); (3315, 3327);
    (3341, 3341); (3345, 3345); (3397, 3397); (3401, 3401); (3408, 3411);
    (3428, 3429); (3456, 3456); (3460, 3460); (3479, 3481); (3506, 3506);
    (3516, 3516); (3518, 3519); (3527, 3529); (3531, 3534); (3541, 3541);
    (3543, 3543); (3552, 3557); (3568, 3569); (3573, 3584); (3643, 3646);
    (3676, 3712); (3715, 3715); (3717, 3717); (3723, 3723); (3748, 3748);
    (3750, 3750); (3774, 3775); (3781, 3781); (3783, 3783); (3790, 3791);
    (3802, 3803); (3808, 3839); (3912, 3912); (3949, 3952); (3992, 3992);
    (4029, 4029); (4045, 4045); (4059, 4095); (4294, 4294); (4296, 4300);
    (4302, 4303); (4681, 4681); (4686, 4687); (4695, 4695); (4697, 4697);
    (4702, 4703); (4745, 4745); (4750, 4751); (4785, 4785); (4790, 4791);
    (4799, 4799); (4801, 4801); (4806, 4807); (4823, 4823); (4881, 4881);
    (4886, 4887); (4955, 4956); (4989, 4991); (5018, 5023); (5110, 5111);
    (5118, 5119); (5760, 5760); (5789, 5791); (5881, 5887); (5910, 5918);
    (5943, 5951); (5972, 5983); (5997, 5997); (6001, 6001); (6004, 6015);
    (6110, 6111); (6122, 6127); (6138, 6143); (6158, 6158); (6170, 6175);
    (6265, 6271); (6315, 6319); (6390, 6399); (6431, 6431); (6444, 6447);
    (6460, 6463); (6465, 6467); (6510, 6511); (6517, 6527); (6572, 6575);
    (6602, 6607); (6619, 6621); (6684, 6685); (6751, 6751); (6781, 6782);
    (6794, 6799); (6810, 6815); (6830, 6831); (6863, 6911); (6989, 6991);
    (7039, 7039); (7156, 7163); (7224, 7226); (7242, 7244); (7305, 7311);
    (7355, 7356); (7368, 7375); (7419, 7423); (7958, 7959); (7966, 7967);
    (8006, 8007); (8014, 8015); (8024, 8024); (8026, 8026); (8028, 8028);
    (8030, 8030); (8062, 8063); (8117, 8117); (8133, 8133); (8148, 8149);
    (8156, 8156); (8176, 8177); (8181, 8181); (8191, 8207); (8232, 8239);
    (8287, 8303); (8306, 8307); (8335, 8335); (8349, 8351); (8385, 8399);
    (8433, 8447); (8588, 8591); (9255, 9279); (9291, 9311); (11124, 11125);
    (11158, 11158); (11508, 11512); (11558, 11558); (11560, 11564);
    (11566, 11567); (11624, 11630); (11633, 11646); (11671, 11679);
    (11687, 11687); (11695, 11695); (11703, 11703); (11711, 11711);
    (11719, 11719); (11727, 11727); (11735, 11735); (11743, 11743);
    (11870, 11903); (11930, 11930); (12020, 12031); (12246, 12271);
    (12284, 12288); (12352, 12352); (12439, 12440); (12544, 12548);
    (12592, 12592); (12687, 12687); (12772, 12783); (12831, 12831);
    (42125, 42127); (42183, 42191); (42540, 42559); (42744, 42751);
    (42955, 42959); (42962, 42962); (42964, 42964); (42970, 42993);
    (43053, 43055); (43066, 43071); (43128, 43135); (43206, 43213);
    (43226, 43231); (43348, 43358); (43389, 43391); (43470, 43470);
    (43482, 43485); (43519, 43519); (43575, 43583); (43598, 43599);
    (43610, 43611); (43715, 43738); (43767, 43776); (43783, 43784);
    (43791, 43792); (43799, 43807); (43815, 43815); (43823, 43823);
    (43884, 43887); (44014, 44015); (44026, 44031); (55204, 55215);
    (55239, 55242); (55292, 63743); (64110, 64111); (64218, 64255);
    (64263, 64274); (64280, 64284); (64311, 64311); (64317, 64317);
    (64319, 64319); (64322, 64322); (64325, 64325); (64451, 64466);
    (64912, 64913); (64968, 64974); (64976, 65007); (65050, 65055);
    (65107, 65107); (65127, 65127); (65132, 65135); (65141, 65141);
    (65277, 65280); (65471, 65473); (65480, 65481); (65488, 65489);
    (65496, 65497); (65501, 65503); (65511, 65511); (65519, 65531);
    (65534, 65535); (65548, 65548); (65575, 65575); (65595, 65595);
    (65598, 65598); (65614, 65615); (65630, 65663); (65787, 65791);
    (65795, 65798); (65844, 65846); (65935, 65935); (65949, 65951);
    (65953, 65999); (66046, 66175); (66205, 66207); (66257, 66271);
    (66300, 66303); (66340, 66348); (66379, 66383); (66427, 66431);
    (66462, 66462); (66500, 66503); (66518, 66559); (66718, 66719);
    (66730, 66735); (66772, 66775); (66812, 66815); (66856, 66863);
    (66916, 66926); (66939, 66939); (66955, 66955); (66963, 66963);
    (66966, 66966); (66978, 66978); (66994, 66994); (67002, 67002);
    (67005, 67071); (67383, 67391); (67414, 67423); (67432, 67455);
    (67462, 67462); (67505, 67505); (67515, 67583); (67590, 67591);
    (67593, 67593); (67638, 67638); (67641, 67643); (67645, 67646);
    (67670, 67670); (67743, 67750); (67760, 67807); (67827, 67827);
    (67830, 67834); (67868, 67870); (67898, 67902); (67904, 67967);
    (68024, 68027); (68048, 68049); (68100, 68100); (68103, 68107);
    (68116, 68116); (68120, 68120); (68150, 68151); (68155, 68158);
    (68169, 68175); (68185, 68191); (68256, 68287); (68327, 68330);
    (68343, 68351); (68406, 68408); (68438, 68439); (68467, 68471);
    (68498, 68504); (68509, 68520); (68528, 68607); (68681, 68735);
    (68787, 68799); (68851, 68857); (68904, 68911); (68922, 69215);
    (69247, 69247); (69290, 69290); (69294, 69295); (69298, 69375);
    (69416, 69423); (69466, 69487); (69514, 69551); (69580, 69599);
    (69623, 69631); (69710, 69713); (69750, 69758); (69821, 69821);
    (69827, 69839); (69865, 69871); (69882, 69887); (69941, 69941);
    (69960, 69967); (70007, 70015); (70112, 70112); (70133, 70143);
    (70162, 70162); (70207, 70271); (70279, 70279); (70281, 70281);
    (70286, 70286); (70302, 70302); (70314, 70319); (70379, 70383);
    (70394, 70399); (70404, 70404); (70413, 70414); (70417, 70418);
    (70441, 70441); (70449, 70449); (70452, 70452); (70458, 70458);
    (70469, 70470); (70473, 70474); (70478, 70479); (70481, 70486);
    (70488, 70492); (70500, 70501); (70509, 70511); (70517, 70655);
    (70748, 70748); (70754, 70783); (70856, 70863); (70874, 71039);
    (71094, 71095); (71134, 71167); (71237, 71247); (71258, 71263);
    (71277, 71295); (71354, 71359); (71370, 71423); (71451, 71452);
    (71468, 71471); (71495, 71679); (71740, 71839); (71923, 71934);
    (71943, 71944); (71946, 71947); (71956, 71956); (71959, 71959);
    (71990, 71990); (71993, 71994); (72007, 72015); (72026, 72095);
    (72104, 72105); (72152, 72153); (72165, 72191); (72264, 72271);
    (72355, 72367); (72441, 72703); (72713, 72713); (72759, 72759);
    (72774, 72783); (72813, 72815); (72848, 72849); (72872, 72872);
    (72887, 72959); (72967, 72967); (72970, 72970); (73015, 73017);
    (73019, 73019); (73022, 73022); (73032, 73039); (73050, 73055);
    (73062, 73062); (73065, 73065); (73103, 73103); (73106, 73106);
    (73113, 73119); (73130, 73439); (73465, 73647); (73649, 73663);
    (73714, 73726); (74650, 74751); (74863, 74863); (74869, 74879);
    (75076, 77711); (77811, 77823); (78895, 82943); (83527, 92159);
    (92729, 92735); (92767, 92767); (92778, 92781); (92863, 92863);
    (92874, 92879); (92910, 92911); (92918, 92927); (92998, 93007);
    (93018, 93018); (93026, 93026); (93048, 93052); (93072, 93759);
    (93851, 93951); (94027, 94030); (94088, 94094); (94112, 94175);
    (94181, 94191); (94194, 94207); (100344, 100351); (101590, 101631);
    (101641, 110575); (110580, 110580); (110588, 110588); (110591, 110591);
    (110883, 110927); (110931, 110947); (110952, 110959); (111356, 113663);
    (113771, 113775); (113789, 113791); (113801, 113807); (113818, 113819);
    (113824, 118527); (118574, 118575); (118599, 118607); (118724, 118783);
    (119030, 119039); (119079, 119080); (119155, 119162); (119275, 119295);
    (119366, 119519); (119540, 119551); (119639, 119647); (119673, 119807);
    (119893, 119893); (119965, 119965); (119968, 119969); (119971, 119972);
    (119975, 119976); (119981, 119981); (119994, 119994); (119996, 119996);
    (120004, 120004); (120070, 120070); (120075, 120076); (120085, 120085);
    (120093, 120093); (120122, 120122); (120127, 120127); (120133, 120133);
    (120135, 120137); (120145, 120145); (120486, 120487); (120780, 120781);
    (121484, 121498); (121504, 121504); (121520, 122623); (122655, 122879);
    (122887, 122887); (122905, 122906); (122914, 122914); (122917, 122917);
    (122923, 123135); (123181, 123183); (123198, 123199); (123210, 123213);
    (123216, 123535); (123567, 123583); (123642, 123646); (123648, 124895);
    (124903, 124903); (124908, 124908); (124911, 124911); (124927, 124927);
    (125125, 125126); (125143, 125183); (125260, 125263); (125274, 125277);
    (125280, 126064); (126133, 126208); (126270, 126463); (126468, 126468);
    (126496, 126496); (126499, 126499); (126501, 126502); (126504, 126504);
    (126515, 126515); (126520, 126520); (126522, 126522); (126524, 126529);
    (126531, 126534); (126536, 126536); (126538, 126538); (126540, 126540);
    (126544, 126544); (126547, 126547); (126549, 126550); (126552, 126552);
    (126554, 126554); (126556, 126556); (126558, 126558); (126560, 126560);
    (126563, 126563); (126565, 126566); (126571, 126571); (126579, 126579);
    (126584, 126584); (126589, 126589); (126591, 126591); (126602, 126602);
    (126620, 126624); (126628, 126628); (126634, 126634); (126652, 126703);
    (126706, 126975); (127020, 127023); (127124, 127135); (127151, 127152);
    (127168, 127168); (127184, 127184); (127222, 127231); (127406, 127461);
    (127491, 127503); (127548, 127551); (127561, 127567); (127570, 127583);
    (127590, 127743); (128728, 128732); (128749, 128751); (128765, 128767);
    (128884, 128895); (128985, 128991); (129004, 129007); (129009, 129023);
    (129036, 129039); (129096, 129103); (129114, 129119); (129160, 129167);
    (129198, 129199); (129202, 129279); (129620, 129631); (129646, 129647);
    (129653, 129655); (129661, 129663); (129671, 129679); (129709, 129711);
    (129723, 129727); (129734, 129743); (129754, 129759); (129768, 129775);
    (129783, 129791); (129939, 129939); (129995, 130031); (130042, 131071);
    (173792, 173823); (177977, 177983); (178206, 178207); (183970, 183983);
    (191457, 194559); (195102, 196607); (201547, 917759); (918000, 1114111)
  ].

Definition unicode_isprintable (c : Z) : bool :=
  negb (existsb (fun r => between (fst r) (snd r) c) nonprintable).

(** ** [repr(s)] of a [str] *)

Definition hex_digit (d : Z) : Z := if d <? 10 then 48 + d else 87 + d.

(** The last [n] hexadecimal digits of [c]. *)
Fixpoint hex (n : nat) (c : Z) : list Z :=
  match n with
  | O => []
  | S n' => (hex n' (c / 16) ++ [hex_digit (c mod 16)])%list
  end.

Definition repr_char (quote c : Z) : list Z :=
  if (Z.eqb c quote || Z.eqb c 92)%bool then [92; c]
  else if Z.eqb c 9 then [92; 116]
  else if Z.eqb c 10 then [92; 110]
  else if Z.eqb c 13 then [92; 114]
  else if ((c <? 32) || Z.eqb c 127)%bool then (92 :: 120 :: hex 2 c)
  else if c <? 127 then [c]
  else if unicode_isprintable c then [c]
  else if c <=? 255 then (92 :: 120 :: hex 2 c)
  else if c <=? 65535 then (92 :: 117 :: hex 4 c)
  else (92 :: 85 :: hex 8 c).

(** The code points of [repr(s)]: double quotes when [s] holds a single
    quote and no double quote, single quotes otherwise. *)
Definition repr_chars (cs : list Z) : list Z :=
  let quote :=
    if (existsb (Z.eqb 39) cs && negb (existsb (Z.eqb 34) cs))%bool
    then 34 else 39 in
  (quote :: flat_map (repr_char quote) cs ++ [quote])%list.

(** ** [int(s)] in base 10 *)

(** [Py_ISSPACE]. *)
Definition is_space (c : Z) : bool := (between 9 13 c || Z.eqb c 32)%bool.

Definition is_digit (c : Z) : bool := between 48 57 c.

(** What [int] parses: ASCII characters stay, a space or a decimal digit
    of another script becomes the ASCII one, anything else becomes a
    question mark ([_PyUnicode_TransformDecimalAndSpaceToASCII], which
    leaves a text of ASCII characters as it is). *)
Definition to_ascii (c : Z) : Z :=
  if c <? 127 then c
  else if unicode_isspace c then 32
  else match unicode_decimal c with
       | Some d => 48 + d
       | None => 63
       end.

Definition transform (cs : list Z) : list Z :=
  if forallb (fun c => c <? 128) cs then cs else map to_ascii cs.

Fixpoint lstrip (s : list Z) : list Z :=
  match s with
  | c :: rest => if is_space c then lstrip rest else s
  | [] => []
  end.

(** The digits, with single underscores between them: the value, the
    number of digits and what follows them; [None] for two underscores in
    a row or an underscore at the end.  [prev] tells whether the previous
    character was an underscore. *)
Fixpoint scan_digits (acc digits : Z) (prev : bool) (s : list Z)
    : option (Z * Z * list Z) :=
  match s with
  | c :: rest =>
      if is_digit c then scan_digits (10 * acc + (c - 48)) (digits + 1) false rest
      else if Z.eqb c 95 then
        if prev then None else scan_digits acc digits true rest
      else if prev then None else Some (acc, digits, s)
  | [] => if prev then None else Some (acc, digits, [])
  end.

(** [sys.get_int_max_str_digits()], at its default. *)
Definition int_max_str_digits : Z := 4300.

Inductive int_result : Type :=
| Parsed (n : Z)
| Invalid
| TooLong (digits : Z).

(** [PyLong_FromString]: white space, a sign, the digits, white space. *)
Definition parse_ascii (s : list Z) : int_result :=
  let s := lstrip s in
  let '(negative, s) :=
    match s with
    | c :: rest =>
        if Z.eqb c 43 then (false, rest)
        else if Z.eqb c 45 then (true, rest)
        else (false, s)
    | [] => (false, s)
    end in
  match s with
  | c :: _ =>
      if Z.eqb c 95 then Invalid
      else
        match scan_digits 0 0 false s with
        | None => Invalid
        | Some (n, digits, rest) =>
            if int_max_str_digits <? digits then TooLong digits
            else if Z.eqb digits 0 then Invalid
            else match lstrip rest with
                 | [] => Parsed (if negative then - n else n)
                 | _ => Invalid
                 end
        end
  | [] => Invalid
  end.

Definition int_result_of (s : string) : int_result :=
  parse_ascii (transform (decode s)).

(** The integer [int(s)] returns; [None] when it raises [ValueError]. *)
Definition parse_int (s : string) : option Z :=
  match int_result_of s with
  | Parsed n => Some n
  | _ => None
  end.

(** [str(n)] for an [int]. *)
Definition str_of_Z (z : Z) : string :=
  match z with
  | Z0 => "0"
  | Zpos p => NilZero.string_of_uint (Pos.to_uint p)
  | Zneg p => "-" ++ NilZero.string_of_uint (Pos.to_uint p)
  end.

Definition str_of_nat (n : nat) : string := str_of_Z (Z.of_nat n).

(** [int(s)]: the integer, or the [ValueError] with its message, which
    shows the first 200 characters of [repr(s)]. *)
Definition int (s : string) : exn + Z :=
  match int_result_of s with
  | Parsed n => inr n
  | Invalid =>
      inl (ValueError
             ("invalid literal for int() with base 10: "
              ++ encode (firstn 200 (repr_chars (decode s)))))
  | TooLong digits =>
      inl (ValueError
             ("Exceeds the limit (4300 digits) for integer string conversion: "
              ++ "value has " ++ str_of_Z digits
              ++ " digits; use sys.set_int_max_str_digits() to increase the limit"))
  end.

(** [os.name]. *)
Inductive os_name : Type := posix | nt.

(** The line feed of the report lines. *)
Definition nl : string := String (ascii_of_nat 10) "".

(** [s.lower()] on ASCII letters. *)
Definition lower_char (c : ascii) : ascii :=
  let n := nat_of_ascii c in
  if (Nat.leb 65 n && Nat.leb n 90)%bool then ascii_of_nat (n + 32) else c.

Fixpoint lower (s : string) : string :=
  match s with
  | EmptyString => EmptyString
  | String c rest => String (lower_char c) (lower rest)
  end.

(** [s.replace(old, '')]. *)
Definition remove_all (old s : string) : string :=
  String.concat "" (split old s).

(** [l.index(x)] with the equality test [eqb]; [None] stands for the
    [ValueError] of a missing element. *)
Fixpoint list_index {A} (eqb : A -> A -> bool) (x : A) (l : list A) : option nat :=
  match l with
  | [] => None
  | y :: rest =>
      if eqb y x then Some O else option_map S (list_index eqb x rest)
  end.

End Py.

(* ================================================================== *)
(** * Floating-point numbers *)
(* ================================================================== *)

Definition float : Type := spec_float.

Module F.

Definition prec : Z := 53.
Definition emax : Z := 1024.

Definition add : float -> float -> float := SFadd prec emax.
Definition sub : float -> float -> float := SFsub prec emax.
Definition mul : float -> float -> float := SFmul prec emax.
Definition div : float -> float -> float := SFdiv prec emax.
Definition leb : float -> float -> bool := SFleb.
Definition eqb : float -> float -> bool := SFeqb.

Definition nan : float := S754_nan.

Definition is_nan (x : float) : bool :=
  match x with S754_nan => true | _ => false end.

Definition is_finite (x : float) : bool :=
  match x with S754_zero _ | S754_finite _ _ _ => true | _ => false end.

(** The float nearest to an integer. *)
Definition of_Z (z : Z) : float := binary_normalize prec emax z 0 false.

(** [int(x)] for a finite [x]: the integer part, towards zero.  The floats
    converted here are made from a column of integers and are finite. *)
Definition trunc (x : float) : Z :=
  match x with
  | S754_finite s m e =>
      let magnitude :=
        match e with
        | Zneg p => Zpos m / 2 ^ Zpos p
        | _ => Zpos m * 2 ^ e
        end in
      if s then - magnitude else magnitude
  | _ => 0
  end.

(** The decimal literal [m / 10^e], for [|m| < 2^53] and [e <= 22]: both
    operands are exact and the division rounds to nearest, which is the
    float the literal denotes. *)
Definition dec (m : Z) (e : nat) : float :=
  div (of_Z m) (of_Z (10 ^ Z.of_nat e)).

(** Hash-table equality of pandas' [unique], [factorize] and index
    look-ups: [a == b], with all NaN equal to each other. *)
Definition key_eqb (a b : float) : bool :=
  (eqb a b || (is_nan a && is_nan b))%bool.

(** ** [format(x, '.<d>f')] *)

(** [|m * 2^e| * 10^d] rounded to the nearest integer, ties to even. *)
Definition scaled_round (d : nat) (m : positive) (e : Z) : Z :=
  let num := Zpos m * 10 ^ Z.of_nat d in
  match e with
  | Zneg p =>
      let den := 2 ^ Zpos p in
      let q := num / den in
      let r := num mod den in
      match 2 * r ?= den with
      | Lt => q
      | Gt => q + 1
      | Eq => if Z.even q then q else q + 1
      end
  | _ => num * 2 ^ e
  end.

Fixpoint zeros (n : nat) : string :=
  match n with O => "" | S n' => "0" ++ zeros n' end.

(** The digits of [n / 10^d], with [d] digits after the point. *)
Definition fixed (d : nat) (n : Z) : string :=
  let p := 10 ^ Z.of_nat d in
  let frac := Py.str_of_Z (n mod p) in
  match d with
  | O => Py.str_of_Z n
  | _ => Py.str_of_Z (n / p) ++ "." ++
         zeros (d - String.length frac) ++ frac
  end.

Definition sign_str (s : bool) : string := if s then "-" else "".

Definition format_f (d : nat) (x : float) : string :=
  match x with
  | S754_nan => "nan"
  | S754_infinity s => sign_str s ++ "inf"
  | S754_zero s => sign_str s ++ fixed d 0
  | S754_finite s m e => sign_str s ++ fixed d (scaled_round d m e)
  end.

End F.

(* ================================================================== *)
(** * Observable events and the script monad *)
(* ================================================================== *)

(** A pivoted table: row labels, column labels and the matrix of cells
    (one list per row label, one cell per column label). *)
Record Pivot : Type := {
  index : list float;
  columns : list Z;
  values : list (list float)
}.

(** Lines of text, printed or written to a report.  [Text] is a rendered
    line.  The two other forms stand for the f-strings that interpolate
    numpy integers or floats through [repr], whose output depends on the
    numpy version; they carry the text before the values and the values
    themselves. *)
Inductive line : Type :=
| Text (s : string)
| Repr_Z (before : string) (ks : list Z)
| Repr_float (before : string) (ls : list float).

Inductive event : Type :=
| Print (l : line)
| Mkdir (path : string)
| PlotZ (label : option string) (xs : list Z) (ys : list float)
| PlotF (label : option string) (xs : list float) (ys : list float)
| FillBetween (xs : list Z) (lo hi : list float)
| Heatmap (title : string) (p : Pivot)
| Marker (x y : nat)
| SaveFig (path : string)
| WriteLines (path : string) (ls : list line)
| PrintExc (e : Py.exn).

(** The events emitted so far, and an exception or a value. *)
Definition M (A : Type) : Type := (list event * (Py.exn + A))%type.

Definition ret {A} (a : A) : M A := ([], inr a).

Definition raise {A} (e : Py.exn) : M A := ([], inl e).

Definition emit (ev : event) : M unit := ([ev], inr tt).

Definition bind {A B} (m : M A) (k : A -> M B) : M B :=
  match m with
  | (out, inl e) => (out, inl e)
  | (out, inr a) => let '(out', r) := k a in ((out ++ out')%list, r)
  end.

Notation "x <- m ;; k" := (bind m (fun x => k))
  (at level 61, m at next level, right associativity).
Notation "m ;; k" := (bind m (fun _ => k))
  (at level 61, right associativity).

(** [for x in l: body x]. *)
Fixpoint for_each {A} (l : list A) (body : A -> M unit) : M unit :=
  match l with
  | [] => ret tt
  | x :: rest => body x ;; for_each rest body
  end.

(** [[f x for x in l]], evaluated left to right. *)
Fixpoint map_M {A B} (f : A -> M B) (l : list A) : M (list B) :=
  match l with
  | [] => ret []
  | x :: rest => y <- f x ;; ys <- map_M f rest ;; ret (y :: ys)
  end.

(** [try: body  except C1 as e: h1  except C2 as e: h2 ...]: the first
    clause whose class test accepts the exception handles it; an exception
    no clause accepts, or one raised by a handler, propagates. *)
Definition clause (A : Type) : Type := ((Py.exn -> bool) * (Py.exn -> M A))%type.

Fixpoint select_clause {A} (clauses : list (clause A)) (e : Py.exn)
    : option (Py.exn -> M A) :=
  match clauses with
  | [] => None
  | (accepts, handler) :: rest =>
      if accepts e then Some handler else select_clause rest e
  end.

Definition try_except {A} (body : M A) (clauses : list (clause A)) : M A :=
  match body with
  | (out, inl e) =>
      match select_clause clauses e with
      | Some handler => let '(out', r) := handler e in ((out ++ out')%list, r)
      | None => (out, inl e)
      end
  | done => done
  end.

Definition output {A} (m : M A) : list event := fst m.
Definition outcome {A} (m : M A) : Py.exn + A := snd m.

(** The exit status of the interpreter after running a script's top level:
    0 after normal completion, 1 after an uncaught exception, and the
    status of a process ended by SIGINT (130) after [KeyboardInterrupt]. *)
Definition exit_status {A} (m : M A) : Z :=
  match outcome m with
  | inr _ => 0
  | inl Py.KeyboardInterrupt => 130
  | inl _ => 1
  end.

(** [print(text)]. *)
Definition print (s : string) : M unit := emit (Print (Text s)).

(* ================================================================== *)
(** * The environment of a run *)
(* ================================================================== *)

(** A row of a convergence CSV file as [pd.read_csv] returns it. *)
Record CsvRow : Type := {
  csv_Iteration : Z;
  csv_BestFitness : float
}.

(** A row of the table [load_convergence_data] builds. *)
Record ConvRow : Type := {
  Iteration : Z;
  BestFitness : float;
  Seed : Z
}.

(** A row of a sensitivity CSV file. *)
Record SensRow : Type := {
  k : Z;
  lambda : float;
  MeanMakespan : float;
  StdMakespan : float;
  CV : float;
  MinMakespan : float;
  MaxMakespan : float
}.

(** A sensitivity [DataFrame]: rows with their index labels.  [read_csv]
    labels the rows 0, 1, 2, ...; selections and sorts keep the labels. *)
Definition DataFrame : Type := list (Z * SensRow).

(** The two times of an entry of the file system that [os.stat] can report
    as [st_ctime]: when the entry was created, and when its metadata (owner,
    permissions, link count, size, ...) last changed.  Times are counted in
    clock ticks; they are only compared with each other. *)
Record FileTimes : Type := {
  created : Z;
  changed : Z
}.

(** The environment is a snapshot taken when the script starts.  The
    convergence files [glob] yields hold well-formed CSV with the expected
    columns, so [pd.read_csv] succeeds on them. *)
Record Env : Type := {
  (** [Path(dir).glob(pattern)] and [glob.glob(pattern)] (with [dir] the
      working directory): the names of the matching entries, in the order
      they are yielded. *)
  glob : string -> string -> list string;
  (** [os.name]. *)
  os : Py.os_name;
  (** [os.stat(path)]: the times of the entry, or the exception raised
      when the entry cannot be examined ([FileNotFoundError] for a symbolic
      link to nothing, though [glob] lists it). *)
  stat : string -> Py.exn + FileTimes;
  (** The content of a convergence file found by [glob]. *)
  read_convergence_csv : string -> string -> list CsvRow;
  (** The content of a sensitivity file; [None] when the path does not
      exist. *)
  read_sensitivity_csv : string -> option (list SensRow);
  (** What creating an output file ([savefig], [open(path, 'w')]) does:
      [None] when it succeeds, the exception it raises otherwise. *)
  write_outcome : string -> option Py.exn;
  (** [pd.Timestamp.now().strftime('%Y-%m-%d %H:%M:%S')]. *)
  now : string;
  (** pandas' floating-point reductions: [GroupBy.mean], [GroupBy.std] and
      [Series.mean] of the values of one group or column. *)
  groupby_mean : list float -> float;
  groupby_std : list float -> float;
  series_mean : list float -> float;
  (** numpy's [a.argsort(kind='quicksort')] on floats none of which is NaN:
      the positions of [a] in an order that makes the values ascend.  The
      sort is not stable: the order of the positions of equal values is
      numpy's choice. *)
  argsort : list float -> list nat
}.

(** [os.path.getctime(path)]: [os.stat(path).st_ctime], which is the time
    of the last metadata change on Unix and the creation time on
    Windows. *)
Definition getctime (env : Env) (path : string) : M Z :=
  match stat env path with
  | inl e => raise e
  | inr times =>
      ret (match os env with
           | Py.posix => changed times
           | Py.nt => created times
           end)
  end.

(** [plt.savefig(path)]. *)
Definition savefig (env : Env) (path : string) : M unit :=
  match write_outcome env path with
  | Some e => raise e
  | None => emit (SaveFig path)
  end.

(** [with open(path, 'w') as f: f.writelines(ls)]. *)
Definition writelines (env : Env) (path : string) (ls : list line) : M unit :=
  match write_outcome env path with
  | Some e => raise e
  | None => emit (WriteLines path ls)
  end.

(** [Path(dir) / name]. *)
Definition joinpath (dir name : string) : string := dir ++ "/" ++ name.

(* ================================================================== *)
(** * pandas fragments *)
(* ================================================================== *)

Module Pandas.

Fixpoint insert_by {A} (leb : A -> A -> bool) (x : A) (l : list A) : list A :=
  match l with
  | [] => [x]
  | y :: rest => if leb x y then x :: l else y :: insert_by leb x rest
  end.

(** Sorting by insertion.  Equal keys stay in input order; pandas' default
    sort promises no order among them. *)
Definition sort_by {A} (leb : A -> A -> bool) (l : list A) : list A :=
  fold_right (insert_by leb) [] l.

(** [Series.unique()]: the distinct values in order of first appearance. *)
Fixpoint unique_by {A} (eqb : A -> A -> bool) (l : list A) : list A :=
  match l with
  | [] => []
  | x :: rest => x :: filter (fun y => negb (eqb x y)) (unique_by eqb rest)
  end.

(** Ascending order with NaN last. *)
Definition sort_floats_by {A} (key : A -> float) (l : list A) : list A :=
  (sort_by (fun a b => F.leb (key a) (key b))
           (filter (fun a => negb (F.is_nan (key a))) l)
   ++ filter (fun a => F.is_nan (key a)) l)%list.

(** [sorted(s.unique())] for an integer and for a float column. *)
Definition sorted_unique_Z (l : list Z) : list Z :=
  sort_by Z.leb (unique_by Z.eqb l).

Definition sorted_unique_float (l : list float) : list float :=
  sort_floats_by (fun x => x) (unique_by F.key_eqb l).

(** [data.groupby('Iteration')['BestFitness'].agg(f)]: one entry per
    distinct [Iteration], in ascending order of [Iteration], holding the
    reduction of that iteration's [BestFitness] values in row order. *)
Definition groupby_Iteration (f : list float -> float) (data : list ConvRow)
    : list (Z * float) :=
  map (fun it =>
         (it, f (map BestFitness
                     (filter (fun r => Z.eqb (Iteration r) it) data))))
      (sorted_unique_Z (map Iteration data)).

(** [pd.read_csv]: the rows labelled by a [RangeIndex]. *)
Definition range_index {A} (rows : list A) : list (Z * A) :=
  combine (map Z.of_nat (seq 0 (List.length rows))) rows.

(** The named float column of a sensitivity table; [None] for a name that
    is not a float column ([KeyError]). *)
Definition column (name : string) : option (SensRow -> float) :=
  if String.eqb name "MeanMakespan" then Some MeanMakespan
  else if String.eqb name "StdMakespan" then Some StdMakespan
  else if String.eqb name "CV" then Some CV
  else if String.eqb name "MinMakespan" then Some MinMakespan
  else if String.eqb name "MaxMakespan" then Some MaxMakespan
  else if String.eqb name "lambda" then Some lambda
  else None.

Definition same_pair (a b : SensRow) : bool :=
  (F.key_eqb (lambda a) (lambda b) && Z.eqb (k a) (k b))%bool.

(** Does some (lambda, k) pair occur in two rows? *)
Fixpoint has_duplicates (rows : list SensRow) : bool :=
  match rows with
  | [] => false
  | r :: rest => (existsb (same_pair r) rest || has_duplicates rest)%bool
  end.

(** The cell of the pivot at ([l], [c]): the metric of the row holding that
    pair, NaN when no row holds it. *)
Definition cell (metric : SensRow -> float) (rows : list SensRow)
    (l : float) (c : Z) : float :=
  match find (fun r => (F.key_eqb (lambda r) l && Z.eqb (k r) c)%bool) rows with
  | Some r => metric r
  | None => F.nan
  end.

(** [df.pivot(index='lambda', columns='k', values=metric)]: raises
    [ValueError] when a (lambda, k) pair is duplicated; otherwise the
    row labels are the sorted distinct lambda, the column labels the
    sorted distinct k. *)
Definition pivot (metric : string) (df : DataFrame) : M Pivot :=
  match column metric with
  | None => raise (Py.KeyError metric)
  | Some m =>
      let rows := map snd df in
      if has_duplicates rows
      then raise (Py.ValueError "Index contains duplicate entries, cannot reshape")
      else
        let idx := sorted_unique_float (map lambda rows) in
        let cols := sorted_unique_Z (map k rows) in
        ret {| index := idx;
               columns := cols;
               values := map (fun l => map (cell m rows l) cols) idx |}
  end.

(** [a[indexer]]: the elements at the listed positions (the positions
    [argsort] returns are positions of the array). *)
Definition take {A} (l : list A) (indexer : list nat) : list A :=
  flat_map (fun i => match nth_error l i with
                     | Some x => [x]
                     | None => []
                     end) indexer.

(** [df.sort_values('MeanMakespan')], that is [nargsort] with
    [kind='quicksort'] and [na_position='last']: the rows that have a mean,
    in the order [argsort] gives their means, then the rows whose mean is
    NaN in table order.  The rows keep their labels. *)
Definition sort_values_MeanMakespan (env : Env) (df : DataFrame) : DataFrame :=
  let non_nans :=
    filter (fun r => negb (F.is_nan (MeanMakespan (snd r)))) df in
  (take non_nans (argsort env (map (fun r => MeanMakespan (snd r)) non_nans))
   ++ filter (fun r => F.is_nan (MeanMakespan (snd r))) df)%list.

(** [df.head(n)]. *)
Definition head {A} (n : nat) (l : list A) : list A := firstn n l.

(** [s.between(lo, hi)] on one value: both bounds included. *)
Definition between (lo hi x : float) : bool :=
  (F.leb lo x && F.leb x hi)%bool.

(** [pivot.stack().idxmin()]: the labels of the smallest non-NaN cell, the
    first one in row-major order among equals; [None] when every cell is
    NaN. *)
Definition stack (p : Pivot) : list ((float * Z) * float) :=
  filter (fun e => negb (F.is_nan (snd e)))
    (List.concat (map (fun lr =>
                    map (fun cv => ((fst lr, fst cv), snd cv))
                        (combine (columns p) (snd lr)))
                 (combine (index p) (values p)))).

Fixpoint idxmin_from (best : (float * Z) * float)
    (l : list ((float * Z) * float)) : (float * Z) * float :=
  match l with
  | [] => best
  | e :: rest =>
      if SFltb (snd e) (snd best) then idxmin_from e rest
      else idxmin_from best rest
  end.

Definition idxmin (l : list ((float * Z) * float)) : option ((float * Z) * float) :=
  match l with
  | [] => None
  | e :: rest => Some (idxmin_from e rest)
  end.

End Pandas.

(** [int(s)]. *)
Definition int_of_str (s : string) : M Z :=
  match Py.int s with
  | inr n => ret n
  | inl e => raise e
  end.

(** [s.iloc[i]] on a Series of floats: a negative [i] counts from the end,
    an [i] out of range raises [IndexError]. *)
Definition iloc (s : list float) (i : Z) : M float :=
  let n := Z.of_nat (List.length s) in
  let j := if i <? 0 then n + i else i in
  if ((0 <=? j) && (j <? n))%bool
  then ret (nth (Z.to_nat j) s F.nan)
  else raise (Py.IndexError "single positional indexer is out-of-bounds").

(** A loop that threads a local variable through its iterations. *)
Fixpoint fold_M {A S} (body : S -> A -> M S) (l : list A) (s : S) : M S :=
  match l with
  | [] => ret s
  | x :: rest => s' <- body s x ;; fold_M body rest s'
  end.

Fixpoint repeat_str (s : string) (n : nat) : string :=
  match n with O => "" | S n' => s ++ repeat_str s n' end.

(** The banner printed around a run: [title.center(70)] between two rules,
    [left] and [right] being the padding [center] computes. *)
Definition banner (left : nat) (title : string) (right : nat) : M unit :=
  print (Py.nl ++ repeat_str "=" 70) ;;
  print (repeat_str " " left ++ title ++ repeat_str " " right) ;;
  print (repeat_str "=" 70 ++ Py.nl).

(* ================================================================== *)
(** * scripts/plot_convergence.py *)
(* ================================================================== *)

Module plot_convergence.

Record ConvergencePlotter : Type := {
  data_dir : string;
  output_dir : string
}.

(** [ConvergencePlotter.__init__]. *)
Definition init (data_dir output_dir : string) : M ConvergencePlotter :=
  emit (Mkdir output_dir) ;;
  ret {| data_dir := data_dir; output_dir := output_dir |}.

(** [df['Seed'] = seed] on the rows read from one file. *)
Definition with_seed (seed : Z) (r : CsvRow) : ConvRow :=
  {| Iteration := csv_Iteration r;
     BestFitness := csv_BestFitness r;
     Seed := seed |}.

(** The text [int] is applied to: [file.stem.split('seed')[-1]]. *)
Definition seed_suffix (file : string) : string :=
  Py.last_piece (Py.split "seed" (Py.stem file)).

(** The body of the loop over the files: one file's rows with its seed. *)
Definition load_file (env : Env) (self : ConvergencePlotter) (file : string)
    : M (list ConvRow) :=
  seed <- int_of_str (seed_suffix file) ;;
  let df := read_convergence_csv env (data_dir self) file in
  ret (map (with_seed seed) df).

Definition pattern_of (algorithm scale : string) : string :=
  "convergence_" ++ algorithm ++ "_" ++ scale ++ "_seed*.csv".

Definition load_convergence_data (env : Env) (self : ConvergencePlotter)
    (algorithm scale : string) : M (option (list ConvRow)) :=
  let pattern := pattern_of algorithm scale in
  let files := glob env (data_dir self) pattern in
  match files with
  | [] =>
      print ("⚠️  未找到文件: " ++ pattern) ;;
      ret None
  | _ =>
      all_data <- map_M (load_file env self) files ;;
      let combined := List.concat all_data in
      print ("✓ 加载 " ++ algorithm ++ "-" ++ scale ++ ": "
             ++ Py.str_of_nat (List.length files) ++ " seeds, "
             ++ Py.str_of_nat (List.length combined) ++ " 数据点") ;;
      ret (Some combined)
  end.

(** [mean_data - std_data] and [mean_data + std_data] on two Series with
    the same index. *)
Definition series_op (op : float -> float -> float)
    (a b : list (Z * float)) : list float :=
  map (fun p => op (snd (fst p)) (snd (snd p))) (combine a b).

Definition plot_single_algorithm (env : Env) (self : ConvergencePlotter)
    (algorithm scale : string) : M unit :=
  data <- load_convergence_data env self algorithm scale ;;
  match data with
  | None => ret tt
  | Some data =>
      for_each (Pandas.unique_by Z.eqb (map Seed data))
        (fun seed =>
           let seed_data := filter (fun r => Z.eqb (Seed r) seed) data in
           emit (PlotZ None (map Iteration seed_data)
                       (map BestFitness seed_data))) ;;
      let mean_data := Pandas.groupby_Iteration (groupby_mean env) data in
      let std_data := Pandas.groupby_Iteration (groupby_std env) data in
      emit (PlotZ (Some (algorithm ++ " Mean"))
                  (map fst mean_data) (map snd mean_data)) ;;
      emit (FillBetween (map fst mean_data)
                        (series_op F.sub mean_data std_data)
                        (series_op F.add mean_data std_data)) ;;
      let output_file :=
        joinpath (output_dir self)
          ("convergence_individual_" ++ algorithm ++ "_" ++ scale ++ ".png") in
      savefig env output_file ;;
      print ("✓ 生成单算法图: " ++ output_file)
  end.

(** The body of the loop of [plot_comparison]. *)
Definition compare_one (env : Env) (self : ConvergencePlotter)
    (scale algorithm : string) : M unit :=
  data <- load_convergence_data env self algorithm scale ;;
  match data with
  | None => ret tt
  | Some data =>
      let mean_data := Pandas.groupby_Iteration (groupby_mean env) data in
      let std_data := Pandas.groupby_Iteration (groupby_std env) data in
      emit (PlotZ (Some algorithm) (map fst mean_data) (map snd mean_data)) ;;
      emit (FillBetween (map fst mean_data)
                        (series_op F.sub mean_data std_data)
                        (series_op F.add mean_data std_data))
  end.

Definition plot_comparison (env : Env) (self : ConvergencePlotter)
    (algorithms : list string) (scale : string) : M unit :=
  for_each algorithms (compare_one env self scale) ;;
  let output_file :=
    joinpath (output_dir self) ("convergence_comparison_" ++ scale ++ ".png") in
  savefig env output_file ;;
  print ("✓ 生成对比图: " ++ output_file).

(** The statistics of one report row, from the per-iteration means. *)
Definition improvement (initial final : float) : float :=
  F.mul (F.div (F.sub initial final) initial) (F.of_Z 100).

Definition half_improvement (initial mid final : float) : float :=
  F.mul (F.div (F.sub initial mid) (F.sub initial final)) (F.of_Z 100).

Definition report_row (algorithm : string)
    (initial final improvement half_improvement : float) : line :=
  Text ("| " ++ algorithm ++ " | " ++ F.format_f 2 initial ++ " | "
        ++ F.format_f 2 final ++ " | "
        ++ F.format_f 2 improvement ++ "% | "
        ++ F.format_f 2 half_improvement ++ "% |" ++ Py.nl).

(** The body of the loop of [generate_convergence_report]: the report
    lines so far, extended by the row of one algorithm. *)
Definition report_one (env : Env) (self : ConvergencePlotter)
    (scale : string) (report_lines : list line) (algorithm : string)
    : M (list line) :=
  data <- load_convergence_data env self algorithm scale ;;
  match data with
  | None => ret report_lines
  | Some data =>
      let mean_data :=
        map snd (Pandas.groupby_Iteration (groupby_mean env) data) in
      initial <- iloc mean_data 0 ;;
      final <- iloc mean_data (-1) ;;
      let half_point := Z.of_nat (List.length mean_data) / 2 in
      mid <- iloc mean_data half_point ;;
      ret (report_lines ++
           [report_row algorithm initial final
              (improvement initial final)
              (half_improvement initial mid final)])%list
  end.

Definition report_header (env : Env) (scale : string) : list line :=
  [ Text ("# 收敛曲线分析报告 - " ++ scale ++ Py.nl);
    Text ("生成时间: " ++ now env ++ Py.nl);
    Text (Py.nl ++ "## 算法收敛性能对比" ++ Py.nl);
    Text ("| 算法 | 初始Makespan | 最终Makespan | 总改进率 | 收敛速度(50%) |" ++ Py.nl);
    Text ("|------|-------------|-------------|---------|---------------|" ++ Py.nl) ].

Definition report_footer : list line :=
  [ Text (Py.nl ++ "## 图表说明" ++ Py.nl);
    Text ("- 实线：算法平均收敛曲线" ++ Py.nl);
    Text ("- 阴影区域：±1标准差置信区间" ++ Py.nl);
    Text ("- 迭代次数：100次（MAX_ITERATIONS）" ++ Py.nl) ].

Definition generate_convergence_report (env : Env) (self : ConvergencePlotter)
    (algorithms : list string) (scale : string) : M unit :=
  report_lines <-
    fold_M (report_one env self scale) algorithms (report_header env scale) ;;
  let report_lines := (report_lines ++ report_footer)%list in
  let report_file :=
    joinpath (output_dir self) ("convergence_report_" ++ scale ++ ".md") in
  writelines env report_file report_lines ;;
  print ("✓ 生成分析报告: " ++ report_file).

Definition algorithms : list string :=
  ["Random"; "GWO"; "WOA"; "CBO"; "ICBO-Enhanced"].

Definition scale : string := "M100".

Definition main (env : Env) : M unit :=
  banner 31 "收敛曲线绘图工具" 31 ;;
  plotter <- init "." "results" ;;
  print ("目标规模: " ++ scale) ;;
  print ("对比算法: " ++ String.concat ", " algorithms ++ Py.nl) ;;
  print "步骤1: 生成单算法收敛曲线..." ;;
  for_each algorithms (fun algorithm =>
    plot_single_algorithm env plotter algorithm scale) ;;
  print (Py.nl ++ "步骤2: 生成算法对比图...") ;;
  plot_comparison env plotter algorithms scale ;;
  print (Py.nl ++ "步骤3: 生成收敛分析报告...") ;;
  generate_convergence_report env plotter algorithms scale ;;
  banner 31 "✅ 全部完成！" 32.

End plot_convergence.

(** [max(l, key=key)] on the non-empty list [first :: l]: the key of every
    element is computed, in order, and the result is the first element
    whose key no other element exceeds.  [best] is the greatest element so
    far and [best_key] its key. *)
Fixpoint max_by_key {A} (key : A -> M Z) (best : A) (best_key : Z)
    (l : list A) : M A :=
  match l with
  | [] => ret best
  | x :: rest =>
      x_key <- key x ;;
      if best_key <? x_key then max_by_key key x x_key rest
      else max_by_key key best best_key rest
  end.

Definition max_with_key {A} (key : A -> M Z) (first : A) (l : list A) : M A :=
  first_key <- key first ;;
  max_by_key key first first_key l.

(** [l.index(x)], raising [ValueError] when [x] is not in [l]. *)
Definition index_of {A} (eqb : A -> A -> bool) (x : A) (l : list A) : M nat :=
  match Py.list_index eqb x l with
  | Some i => ret i
  | None => raise (Py.ValueError "value is not in list")
  end.

(** [read_csv] on a sensitivity file. *)
Definition read_csv (env : Env) (path : string) : M DataFrame :=
  match read_sensitivity_csv env path with
  | Some rows => ret (Pandas.range_index rows)
  | None =>
      raise (Py.FileNotFoundError
               ("[Errno 2] No such file or directory: '" ++ path ++ "'"))
  end.

(* ================================================================== *)
(** * scripts/plot_sensitivity.py *)
(* ================================================================== *)

Module plot_sensitivity.

Record SensitivityPlotter : Type := {
  output_dir : string;
  data_file : string;
  data : option DataFrame
}.

(** [SensitivityPlotter.__init__]. *)
Definition init (env : Env) (data_file : option string) (output_dir : string)
    : M SensitivityPlotter :=
  emit (Mkdir output_dir) ;;
  data_file <-
    match data_file with
    | None =>
        let files := glob env "." "sensitivity_results_*.csv" in
        match files with
        | [] =>
            raise (Py.FileNotFoundError "未找到sensitivity_results_*.csv文件")
        | first :: rest =>
            data_file <- max_with_key (getctime env) first rest ;;
            print ("✓ 自动选择文件: " ++ data_file) ;;
            ret data_file
        end
    | Some f => ret f
    end ;;
  ret {| output_dir := output_dir; data_file := data_file; data := None |}.

Definition set_data (self : SensitivityPlotter) (df : DataFrame)
    : SensitivityPlotter :=
  {| output_dir := output_dir self;
     data_file := data_file self;
     data := Some df |}.

(** [load_data]: the plotter with its [data] set, and the table. *)
Definition load_data (env : Env) (self : SensitivityPlotter)
    : M (SensitivityPlotter * DataFrame) :=
  df <- read_csv env (data_file self) ;;
  print ("✓ 加载数据: " ++ Py.str_of_nat (List.length df) ++ " 条记录") ;;
  emit (Print (Repr_Z "  k范围: " (Pandas.unique_by Z.eqb (map k (map snd df))))) ;;
  emit (Print (Repr_float "  λ范围: "
                 (Pandas.unique_by F.key_eqb (map lambda (map snd df))))) ;;
  ret (set_data self df, df).

(** [if self.data is None: self.load_data()]. *)
Definition ensure_data (env : Env) (self : SensitivityPlotter)
    : M (SensitivityPlotter * DataFrame) :=
  match data self with
  | Some df => ret (self, df)
  | None => load_data env self
  end.

(** [_mark_default_config]: the marker on the cell of k=3, lambda=0.4;
    nothing when either label is missing. *)
Definition _mark_default_config (pivot_table : Pivot) : M unit :=
  try_except
    (k_index <- index_of Z.eqb 3 (columns pivot_table) ;;
     lambda_index <- index_of F.eqb (F.dec 4 1) (index pivot_table) ;;
     emit (Marker k_index lambda_index))
    [ (fun e => (Py.isinstance_ValueError e || Py.isinstance_KeyError e)%bool,
       fun _ => ret tt) ].

Definition plot_heatmap (env : Env) (self : SensitivityPlotter)
    (metric : string) (title filename : option string) : M SensitivityPlotter :=
  sd <- ensure_data env self ;;
  let '(self, df) := sd in
  pivot_table <- Pandas.pivot metric df ;;
  let title :=
    match title with
    | None => "Parameter Sensitivity Analysis - " ++ metric
    | Some t => t
    end in
  emit (Heatmap title pivot_table) ;;
  _mark_default_config pivot_table ;;
  let filename :=
    match filename with
    | None =>
        let metric_name := Py.remove_all "makespan" (Py.lower metric) in
        "sensitivity_heatmap_" ++ metric_name ++ ".png"
    | Some f => f
    end in
  let output_path := joinpath (output_dir self) filename in
  savefig env output_path ;;
  print ("✓ 生成热力图: " ++ output_path) ;;
  ret self.

Definition plot_all_metrics (env : Env) (self : SensitivityPlotter)
    : M SensitivityPlotter :=
  banner 30 "生成参数敏感性热力图" 30 ;;
  sd <- ensure_data env self ;;
  let self := fst sd in
  print "步骤1: 生成平均Makespan热力图..." ;;
  self <- plot_heatmap env self "MeanMakespan"
            (Some "Parameter Sensitivity: Mean Makespan (Lower is Better)")
            (Some "sensitivity_heatmap_mean.png") ;;
  print (Py.nl ++ "步骤2: 生成标准差热力图...") ;;
  self <- plot_heatmap env self "StdMakespan"
            (Some "Parameter Sensitivity: Std Makespan (Lower is Better)")
            (Some "sensitivity_heatmap_std.png") ;;
  print (Py.nl ++ "步骤3: 生成变异系数热力图...") ;;
  plot_heatmap env self "CV"
    (Some "Parameter Sensitivity: Coefficient of Variation (Lower is Better)")
    (Some "sensitivity_heatmap_cv.png").

(** One row of the table of best configurations; [i] is the index label
    [iterrows] yields with the row.  [iterrows] yields the row as a Series
    of float64 values, which is why the source converts [row['k']] back
    with [int]. *)
Definition top_row (i : Z) (row : SensRow) : line :=
  Text ("| " ++ Py.str_of_Z (i + 1) ++ " | "
        ++ Py.str_of_Z (F.trunc (F.of_Z (k row))) ++ " | "
        ++ F.format_f 1 (lambda row) ++ " | "
        ++ F.format_f 2 (MeanMakespan row) ++ " | "
        ++ F.format_f 2 (StdMakespan row) ++ " | "
        ++ F.format_f 2 (CV row) ++ "% |" ++ Py.nl).

(** [self.data[(self.data['k'] == 3) &
               (self.data['lambda'].between(0.39, 0.41))]]. *)
Definition is_default (row : SensRow) : bool :=
  (Z.eqb (k row) 3
   && Pandas.between (F.dec 39 2) (F.dec 41 2) (lambda row))%bool.

Definition default_config (df : DataFrame) : DataFrame :=
  filter (fun r => is_default (snd r)) df.

(** [(sorted_data.index == label).argmax() + 1]. *)
Definition rank_of (label : Z) (sorted_data : DataFrame) : Z :=
  match Py.list_index Z.eqb label (map fst sorted_data) with
  | Some p => Z.of_nat p + 1
  | None => 1
  end.

(** The lines of the section on the default configuration, for the
    selected row, its rank and the number of configurations. *)
Definition default_lines (rank : Z) (n : nat) (row : SensRow) : list line :=
  [ Text (Py.nl ++ "## 3. 默认配置 (k=3, λ=0.4) 分析" ++ Py.nl);
    Text ("- 排名: " ++ Py.str_of_Z rank ++ "/" ++ Py.str_of_nat n ++ Py.nl);
    Text ("- Mean Makespan: " ++ F.format_f 2 (MeanMakespan row) ++ Py.nl);
    Text ("- Std Makespan: " ++ F.format_f 2 (StdMakespan row) ++ Py.nl);
    Text ("- CV: " ++ F.format_f 2 (CV row) ++ "%" ++ Py.nl);
    Text ("- Min: " ++ F.format_f 2 (MinMakespan row) ++ Py.nl);
    Text ("- Max: " ++ F.format_f 2 (MaxMakespan row) ++ Py.nl ++ Py.nl) ].

(** [if not default_config.empty: row = default_config.iloc[0] ...]: no
    line when no row is selected, otherwise the section of the first
    selected row. *)
Definition default_section (df sorted_data : DataFrame) : list line :=
  match default_config df with
  | [] => []
  | (label, row) :: _ =>
      default_lines (rank_of label sorted_data) (List.length df) row
  end.

Definition k_effect (env : Env) (rows : list SensRow) (k_val : Z) : line :=
  let k_data := filter (fun r => Z.eqb (k r) k_val) rows in
  let mean_perf := series_mean env (map MeanMakespan k_data) in
  Text ("- k=" ++ Py.str_of_Z k_val ++ ": 平均Makespan="
        ++ F.format_f 2 mean_perf ++ Py.nl).

Definition lambda_effect (env : Env) (rows : list SensRow) (lambda_val : float)
    : line :=
  let lambda_data := filter (fun r => F.eqb (lambda r) lambda_val) rows in
  let mean_perf := series_mean env (map MeanMakespan lambda_data) in
  Text ("- λ=" ++ F.format_f 1 lambda_val ++ ": 平均Makespan="
        ++ F.format_f 2 mean_perf ++ Py.nl).

(** The lines of the report, in the order they are appended. *)
Definition report_lines (env : Env) (self : SensitivityPlotter) (df : DataFrame)
    : list line :=
  let rows := map snd df in
  let sorted_data := Pandas.sort_values_MeanMakespan env df in
  ([ Text ("# 参数敏感性分析报告" ++ Py.nl);
     Text ("生成时间: " ++ now env ++ Py.nl);
     Text ("数据文件: " ++ data_file self ++ Py.nl ++ Py.nl);
     Text ("## 1. 参数配置" ++ Py.nl);
     Repr_Z "- k（动态权重衰减指数）: " (Pandas.sorted_unique_Z (map k rows));
     Repr_float "- λ（Bernoulli混沌参数）: "
       (Pandas.sorted_unique_float (map lambda rows));
     Text ("- 总配置数: " ++ Py.str_of_nat (List.length df) ++ Py.nl ++ Py.nl);
     Text ("## 2. 最佳配置（按平均Makespan排序）" ++ Py.nl);
     Text ("| 排名 | k | λ | Mean Makespan | Std | CV% |" ++ Py.nl);
     Text ("|------|---|---|---------------|-----|-----|" ++ Py.nl) ]
   ++ map (fun r => top_row (fst r) (snd r)) (Pandas.head 5 sorted_data)
   ++ default_section df sorted_data
   ++ [ Text ("## 4. 参数影响分析" ++ Py.nl ++ Py.nl);
        Text ("### 4.1 k参数影响" ++ Py.nl) ]
   ++ map (k_effect env rows) (Pandas.sorted_unique_Z (map k rows))
   ++ [ Text (Py.nl ++ "### 4.2 λ参数影响" ++ Py.nl) ]
   ++ map (lambda_effect env rows)
          (Pandas.sorted_unique_float (map lambda rows)))%list.

Definition generate_analysis_report (env : Env) (self : SensitivityPlotter)
    : M SensitivityPlotter :=
  sd <- ensure_data env self ;;
  let '(self, df) := sd in
  let report_file := joinpath (output_dir self) "sensitivity_analysis_report.md" in
  writelines env report_file (report_lines env self df) ;;
  print (Py.nl ++ "✓ 生成分析报告: " ++ report_file) ;;
  ret self.

Definition plot_parameter_trends (env : Env) (self : SensitivityPlotter)
    : M SensitivityPlotter :=
  sd <- ensure_data env self ;;
  let '(self, df) := sd in
  let rows := map snd df in
  for_each (Pandas.sorted_unique_float (map lambda rows))
    (fun lambda_val =>
       let lambda_data := filter (fun r => F.eqb (lambda r) lambda_val) rows in
       emit (PlotZ (Some ("λ=" ++ F.format_f 1 lambda_val))
                   (map k lambda_data) (map MeanMakespan lambda_data))) ;;
  for_each (Pandas.sorted_unique_Z (map k rows))
    (fun k_val =>
       let k_data := filter (fun r => Z.eqb (k r) k_val) rows in
       emit (PlotF (Some ("k=" ++ Py.str_of_Z k_val))
                   (map lambda k_data) (map MeanMakespan k_data))) ;;
  let output_path := joinpath (output_dir self) "sensitivity_trends.png" in
  savefig env output_path ;;
  print ("✓ 生成趋势图: " ++ output_path) ;;
  ret self.

(** The statements of the [try] block of [main]. *)
Definition main_body (env : Env) : M unit :=
  plotter <- init env None "results" ;;
  sd <- load_data env plotter ;;
  let plotter := fst sd in
  plotter <- plot_all_metrics env plotter ;;
  print (Py.nl ++ "步骤4: 生成参数趋势图...") ;;
  plotter <- plot_parameter_trends env plotter ;;
  print (Py.nl ++ "步骤5: 生成敏感性分析报告...") ;;
  _ <- generate_analysis_report env plotter ;;
  banner 31 "✅ 全部完成！" 32.

(** [except FileNotFoundError as e]. *)
Definition on_missing_file (e : Py.exn) : M unit :=
  print ("❌ 错误: " ++ Py.str_of_exn e) ;;
  print "请先运行ParameterSensitivityTest.java生成数据文件".

(** [except Exception as e]: the message, then [traceback.print_exc()]. *)
Definition on_exception (e : Py.exn) : M unit :=
  print ("❌ 发生错误: " ++ Py.str_of_exn e) ;;
  emit (PrintExc e).

Definition main (env : Env) : M unit :=
  banner 29 "参数敏感性热力图绘制工具" 29 ;;
  try_except (main_body env)
    [ (Py.isinstance_FileNotFoundError, on_missing_file);
      (Py.isinstance_Exception, on_exception) ].

End plot_sensitivity.

(* ================================================================== *)
(** * scripts/plot_sensitivity_simple.py *)
(* ================================================================== *)

Module plot_sensitivity_simple.

Definition plot_sensitivity_heatmap (env : Env) (csv_file lang : string)
    : M unit :=
  df <- read_csv env csv_file ;;
  let rows := map snd df in
  print ("Loaded data: " ++ Py.str_of_nat (List.length df) ++ " records") ;;
  emit (Print (Repr_Z "k range: " (Pandas.sorted_unique_Z (map k rows)))) ;;
  emit (Print (Repr_float "lambda range: "
                 (Pandas.sorted_unique_float (map lambda rows)))) ;;
  pivot <- Pandas.pivot "MeanMakespan" df ;;
  let title :=
    if String.eqb lang "zh"
    then "ICBO-Enhanced 参数敏感性分析（k × λ）"
    else "ICBO-Enhanced Parameter Sensitivity Analysis (k × λ)" in
  emit (Heatmap title pivot) ;;
  match Pandas.idxmin (Pandas.stack pivot) with
  | None => raise (Py.ValueError "attempt to get argmin of an empty sequence")
  | Some (best_lambda, best_k, best) =>
      emit (Print (Repr_float
                     (Py.nl ++ "Best configuration: k=" ++ Py.str_of_Z best_k
                      ++ ", lambda=")
                     [best_lambda])) ;;
      print ("Best Makespan: " ++ F.format_f 2 best) ;;
      let output_file :=
        "results/parameter_sensitivity_heatmap_" ++ lang ++ ".png" in
      savefig env output_file ;;
      print ("Saved: " ++ output_file)
  end.

Definition csv_file : string :=
  "results/sensitivity_results_20251210_223839.csv".

(** The statements run when the file is executed as a script. *)
Definition script (env : Env) : M unit :=
  print (repeat_str "=" 70) ;;
  print (repeat_str " " 15 ++ "Parameter Sensitivity Heatmap Generator"
         ++ repeat_str " " 16) ;;
  print (repeat_str "=" 70 ++ Py.nl) ;;
  try_except
    (print "[1/2] Generating English version..." ;;
     plot_sensitivity_heatmap env csv_file "en" ;;
     print (Py.nl ++ "[2/2] Generating Chinese version...") ;;
     plot_sensitivity_heatmap env csv_file "zh" ;;
     print (Py.nl ++ repeat_str "=" 70) ;;
     print (repeat_str " " 30 ++ "All Done!" ++ repeat_str " " 31) ;;
     print (repeat_str "=" 70))
    [ (Py.isinstance_FileNotFoundError,
       fun e =>
         print ("Error: " ++ Py.str_of_exn e) ;;
         print "Please ensure sensitivity_results_*.csv exists in results/ directory");
      (Py.isinstance_Exception,
       fun e => print ("Error: " ++ Py.str_of_exn e) ;; emit (PrintExc e)) ].

End plot_sensitivity_simple.

(* ================================================================== *)
(** * Notions used by the statements, and example environments *)
(* ================================================================== *)

(** What a run leaves behind apart from the text it prints. *)
Definition is_print (ev : event) : bool :=
  match ev with Print _ => true | _ => false end.

Definition artifacts (out : list event) : list event :=
  filter (fun ev => negb (is_print ev)) out.

(** The seed [load_file] gives a file's rows (0 for a suffix [int]
    rejects, where no row is produced). *)
Definition seed_or_zero (file : string) : Z :=
  match Py.parse_int (plot_convergence.seed_suffix file) with
  | Some s => s
  | None => 0
  end.

Definition rows_of env self (file : string) : list ConvRow :=
  map (plot_convergence.with_seed (seed_or_zero file))
      (read_convergence_csv env (plot_convergence.data_dir self) file).

(** Two runs that end the same way and leave the same artifacts. *)
Definition same_run {A} (m1 m2 : M A) : Prop :=
  outcome m1 = outcome m2 /\ artifacts (output m1) = artifacts (output m2).

(** A text made of decimal digits only. *)
Definition purely_numeric (s : string) : bool :=
  (negb (String.eqb s "")
   && forallb Py.is_digit (map Py.byte (list_ascii_of_string s)))%bool.

(** The warning [load_convergence_data] prints when no file matches. *)
Definition no_file_warning (algorithm scale : string) : event :=
  Print (Text ("⚠️  未找到文件: " ++ plot_convergence.pattern_of algorithm scale)).

(** The position of a float in the order of [<=]: its class (from minus
    infinity to plus infinity, NaN apart), then its exponent and its
    mantissa, negated for negative numbers.  The two zeros share one
    position. *)
Definition frank (x : float) : Z * Z * Z :=
  match x with
  | S754_infinity true => (-2, 0, 0)
  | S754_finite true m e => (-1, - e, - Zpos m)
  | S754_zero _ => (0, 0, 0)
  | S754_finite false m e => (1, e, Zpos m)
  | S754_infinity false => (2, 0, 0)
  | S754_nan => (3, 0, 0)
  end.

Definition lex_le (a b : Z * Z * Z) : Prop :=
  let '(a1, a2, a3) := a in
  let '(b1, b2, b3) := b in
  a1 < b1 \/ (a1 = b1 /\ (a2 < b2 \/ (a2 = b2 /\ a3 <= b3))).

(** Every (k, lambda) pair appears at most once: no two positions of the
    table hold the same k and, as floats, the same lambda. *)
Definition pairs_distinct (rows : list SensRow) : Prop :=
  forall i j r r',
    nth_error rows i = Some r -> nth_error rows j = Some r' ->
    k r = k r' -> F.key_eqb (lambda r) (lambda r') = true -> i = j.

(** [sep] occurs somewhere in [s]. *)
Definition occurs (sep s : string) : Prop :=
  exists a b, s = a ++ sep ++ b.

(** The per-iteration means [generate_convergence_report] works on. *)
Definition mean_series (env : Env) (data : list ConvRow) : list float :=
  map snd (Pandas.groupby_Iteration (groupby_mean env) data).

(** The mean of the [BestFitness] values recorded for iteration [it]. *)
Definition mean_at (env : Env) (data : list ConvRow) (it : Z) : float :=
  groupby_mean env
    (map BestFitness (filter (fun r => Z.eqb (Iteration r) it) data)).

(** The row of the convergence report for one algorithm: none without
    data, otherwise the row computed from the per-iteration means. *)
Definition report_rows (env : Env) (self : plot_convergence.ConvergencePlotter)
    (scale algorithm : string) : list line :=
  match outcome (plot_convergence.load_convergence_data env self algorithm scale)
  with
  | inr (Some data) =>
      let means := mean_series env data in
      let initial := nth 0 means F.nan in
      let final := List.last means F.nan in
      let mid := nth (List.length means / 2) means F.nan in
      [plot_convergence.report_row algorithm initial final
         (plot_convergence.improvement initial final)
         (plot_convergence.half_improvement initial mid final)]
  | _ => []
  end.

(** The two half-open readings of a window from 0.39 to 0.41. *)
Definition in_window_right_open (x : float) : bool :=
  (F.leb (F.dec 39 2) x && SFltb x (F.dec 41 2))%bool.

Definition in_window_left_open (x : float) : bool :=
  (SFltb (F.dec 39 2) x && F.leb x (F.dec 41 2))%bool.

(** Is a table in ascending order of [MeanMakespan]? *)
Fixpoint is_ascending (df : DataFrame) : bool :=
  match df with
  | [] => true
  | r :: rest =>
      (match rest with
       | [] => true
       | r' :: _ => F.leb (MeanMakespan (snd r)) (MeanMakespan (snd r'))
       end && is_ascending rest)%bool
  end.

(** Is a table in strictly ascending order of [MeanMakespan]? *)
Fixpoint is_strictly_ascending (df : DataFrame) : bool :=
  match df with
  | [] => true
  | r :: rest =>
      (match rest with
       | [] => negb (F.is_nan (MeanMakespan (snd r)))
       | r' :: _ => SFltb (MeanMakespan (snd r)) (MeanMakespan (snd r'))
       end && is_strictly_ascending rest)%bool
  end.

(** The positions [indexer] lists put the values [l] in ascending order. *)
Definition sorts (l : list float) (indexer : list nat) : Prop :=
  Permutation indexer (seq 0 (List.length l)) /\
  StronglySorted
    (fun i j => F.leb (nth i l F.nan) (nth j l F.nan) = true) indexer.

(** What numpy promises of [argsort]. *)
Definition argsort_sorts (env : Env) : Prop :=
  forall l, (forall x, In x l -> F.is_nan x = false) -> sorts l (argsort env l).

(** An [argsort] by insertion, which keeps equal values in input order. *)
Definition insertion_argsort (l : list float) : list nat :=
  map fst (Pandas.sort_by (fun a b => F.leb (snd a) (snd b))
             (combine (seq 0 (List.length l)) l)).

(** Does a file match the pattern of an algorithm? *)
Definition has_files (env : Env) (self : plot_convergence.ConvergencePlotter)
    (scale algorithm : string) : bool :=
  match glob env (plot_convergence.data_dir self)
          (plot_convergence.pattern_of algorithm scale) with
  | [] => false
  | _ => true
  end.

(** Shell-style matching with [*] as the only wildcard. *)
Fixpoint fnmatch (pattern : string) : string -> bool :=
  match pattern with
  | EmptyString => fun name => String.eqb name ""
  | String c pattern' =>
      if Ascii.eqb c "*"%char then
        fix star (name : string) : bool :=
          (fnmatch pattern' name
           || match name with
              | EmptyString => false
              | String _ name' => star name'
              end)%bool
      else
        fun name =>
          match name with
          | EmptyString => false
          | String d name' => (Ascii.eqb c d && fnmatch pattern' name')%bool
          end
  end.

(** Textbook mean and sample standard deviation, summing left to right. *)
Definition naive_mean (l : list float) : float :=
  F.div (fold_left F.add l (F.of_Z 0)) (F.of_Z (Z.of_nat (List.length l))).

Definition naive_std (l : list float) : float :=
  let m := naive_mean l in
  let sq := fold_left (fun acc x => F.add acc (F.mul (F.sub x m) (F.sub x m)))
                      l (F.of_Z 0) in
  SFsqrt F.prec F.emax
    (F.div sq (F.of_Z (Z.of_nat (List.length l) - 1))).

(** An environment over a directory listing on a Unix system: convergence
    files with their rows, sensitivity files with their time (of creation
    and of last change) and rows, and the output paths that cannot be
    written. *)
Definition example_env
    (conv : list (string * list CsvRow))
    (sens : list (string * (Z * list SensRow)))
    (unwritable : list (string * Py.exn)) : Env :=
  {| glob := fun _ pattern =>
       filter (fnmatch pattern) (map fst conv ++ map fst sens)%list;
     os := Py.posix;
     stat := fun path =>
       match find (fun f => String.eqb (fst f) path) sens with
       | Some f => inr {| created := fst (snd f); changed := fst (snd f) |}
       | None =>
           inl (Py.FileNotFoundError
                  ("[Errno 2] No such file or directory: '" ++ path ++ "'"))
       end;
     read_convergence_csv := fun _ name =>
       match find (fun f => String.eqb (fst f) name) conv with
       | Some f => snd f
       | None => []
       end;
     read_sensitivity_csv := fun path =>
       option_map (fun f => snd (snd f))
                  (find (fun f => String.eqb (fst f) path) sens);
     write_outcome := fun path =>
       option_map snd (find (fun f => String.eqb (fst f) path) unwritable);
     now := "2025-12-10 22:38:39";
     groupby_mean := naive_mean;
     groupby_std := naive_std;
     series_mean := naive_mean;
     argsort := insertion_argsort |}.

(** The same environment on another system or with other file times. *)
Definition with_stat (env : Env) (os_name : Py.os_name)
    (stat_of : string -> Py.exn + FileTimes) : Env :=
  {| glob := glob env;
     os := os_name;
     stat := stat_of;
     read_convergence_csv := read_convergence_csv env;
     read_sensitivity_csv := read_sensitivity_csv env;
     write_outcome := write_outcome env;
     now := now env;
     groupby_mean := groupby_mean env;
     groupby_std := groupby_std env;
     series_mean := series_mean env;
     argsort := argsort env |}.

Definition csv_row (it fitness : Z) : CsvRow :=
  {| csv_Iteration := it; csv_BestFitness := F.of_Z fitness |}.

(** A sensitivity row with the given k, lambda (in hundredths) and mean
    (an integer); the other statistics are 1.0. *)
Definition sens_row (k_val lambda_cents mean : Z) : SensRow :=
  {| k := k_val;
     lambda := F.dec lambda_cents 2;
     MeanMakespan := F.of_Z mean;
     StdMakespan := F.of_Z 1;
     CV := F.of_Z 1;
     MinMakespan := F.of_Z 1;
     MaxMakespan := F.of_Z 1 |}.

Definition cbo_plotter : plot_convergence.ConvergencePlotter :=
  {| plot_convergence.data_dir := ".";
     plot_convergence.output_dir := "results" |}.

(** Two seeds of CBO at M100 with three iterations each: the means are
    100, 92 and 80. *)
Definition env_two_seeds : Env :=
  example_env
    [ ("convergence_CBO_M100_seed1.csv",
       [csv_row 0 100; csv_row 1 90; csv_row 2 80]);
      ("convergence_CBO_M100_seed2.csv",
       [csv_row 0 100; csv_row 1 94; csv_row 2 80]) ]
    [] [].

(** One seed that never improves. *)
Definition env_flat : Env :=
  example_env
    [ ("convergence_CBO_M100_seed1.csv", [csv_row 0 50; csv_row 1 50]) ]
    [] [].

(** A file whose suffix carries a sign. *)
Definition env_signed_seed : Env :=
  example_env
    [ ("convergence_CBO_M100_seed-3.csv", [csv_row 0 100; csv_row 1 80]) ]
    [] [].

(** A file whose suffix is not a number, after one that is. *)
Definition env_bad_seed : Env :=
  example_env
    [ ("convergence_CBO_M100_seed1.csv", [csv_row 0 100; csv_row 1 80]);
      ("convergence_CBO_M100_seed_final.csv", [csv_row 0 100; csv_row 1 80]) ]
    [] [].

(** Files whose suffixes are not purely numeric and that [int] accepts: a
    plus sign, an underscore between digits, a leading space, and a
    full-width digit three (U+FF13). *)
Definition env_odd_seeds : Env :=
  example_env
    [ ("convergence_CBO_M100_seed+3.csv", [csv_row 0 100]);
      ("convergence_CBO_M100_seed1_0.csv", [csv_row 0 90]);
      ("convergence_CBO_M100_seed 3.csv", [csv_row 0 80]);
      ("convergence_CBO_M100_seed３.csv", [csv_row 0 70]) ]
    [] [].

(** A 2 x 2 grid of configurations, complete and without repetition. *)
Definition grid_rows : list SensRow :=
  [ sens_row 3 40 120; sens_row 1 40 130; sens_row 3 20 110; sens_row 1 20 140 ].

Definition env_grid : Env :=
  example_env [] [ ("sensitivity_results_1.csv", (10, grid_rows)) ] [].

(** The pair (k=3, lambda=0.40) recorded twice. *)
Definition duplicated_rows : list SensRow :=
  [ sens_row 3 40 120; sens_row 1 40 130; sens_row 3 40 125 ].

Definition env_duplicated : Env :=
  example_env [] [ ("sensitivity_results_1.csv", (10, duplicated_rows)) ] [].

(** Both ends of the window, and nothing at 0.40. *)
Definition window_ends : DataFrame :=
  Pandas.range_index [ sens_row 3 39 100; sens_row 3 41 101 ].

(** k=3 at lambda 0.41 and 0.50 only. *)
Definition only_41 : DataFrame :=
  Pandas.range_index [ sens_row 1 40 90; sens_row 3 41 101; sens_row 3 50 95 ].

(** Seven configurations whose first five are the best five, in order, and
    whose last two are out of order. *)
Definition seven_rows : DataFrame :=
  Pandas.range_index
    [ sens_row 1 10 1; sens_row 1 20 2; sens_row 1 30 3; sens_row 1 40 4;
      sens_row 1 50 5; sens_row 1 60 7; sens_row 1 70 6 ].

(** Six configurations in descending order of their mean. *)
Definition descending_rows : DataFrame :=
  Pandas.range_index
    [ sens_row 1 10 60; sens_row 1 20 50; sens_row 1 30 40; sens_row 1 40 30;
      sens_row 1 50 20; sens_row 1 60 10 ].

(** Three configurations in ascending order of their mean. *)
Definition ascending_rows : list SensRow :=
  [ sens_row 3 40 100; sens_row 1 40 101; sens_row 3 20 102 ].

(** A plotter on the file of the environments below, its table not yet
    loaded. *)
Definition plotter_1 : plot_sensitivity.SensitivityPlotter :=
  {| plot_sensitivity.output_dir := "results";
     plot_sensitivity.data_file := "sensitivity_results_1.csv";
     plot_sensitivity.data := None |}.

Definition env_only_41 : Env :=
  example_env [] [ ("sensitivity_results_1.csv", (10, map snd only_41)) ] [].

Definition env_window_ends : Env :=
  example_env [] [ ("sensitivity_results_1.csv", (10, map snd window_ends)) ] [].

Definition env_seven : Env :=
  example_env [] [ ("sensitivity_results_1.csv", (10, map snd seven_rows)) ] [].

Definition env_descending : Env :=
  example_env []
    [ ("sensitivity_results_1.csv", (10, map snd descending_rows)) ] [].



Definition no_such_file (path : string) : Py.exn :=
  Py.FileNotFoundError ("[Errno 2] No such file or directory: '" ++ path ++ "'").



(** One matching entry, a symbolic link to a file that is gone. *)
Definition env_dangling : Env :=
  with_stat
    (example_env [] [ ("sensitivity_results_link.csv", (1, [])) ] [])
    Py.posix
    (fun path => inl (no_such_file path)).

(** The curves drawn without a label: the per-seed curves of
    [plot_single_algorithm]. *)
Definition seed_curves (out : list event) : list (list Z * list float) :=
  flat_map (fun ev =>
              match ev with
              | PlotZ None xs ys => [(xs, ys)]
              | _ => []
              end) out.

(** The rows of one seed, as [data[data['Seed'] == seed]] selects them. *)
Definition rows_of_seed (data : list ConvRow) (seed : Z) : list ConvRow :=
  filter (fun r => Z.eqb (Seed r) seed) data.



(** Two files whose names give the same seed. *)
Definition env_same_seed : Env :=
  example_env
    [ ("convergence_CBO_M100_seed7.csv", [csv_row 0 100; csv_row 1 80]);
      ("convergence_CBO_M100_seed07.csv", [csv_row 0 90; csv_row 1 70]) ]
    [] [].


(** k=3 and lambda=0.4 on two different rows. *)
Definition split_default_rows : list SensRow :=
  [ sens_row 3 50 100; sens_row 1 40 110 ].


(* ================================================================== *)
(** * Properties *)
(* ================================================================== *)

(** ** The script monad *)

Lemma outcome_bind_ok {A B} (m : M A) (k : A -> M B) (a : A) :
  outcome m = inr a -> outcome (bind m k) = outcome (k a).
Proof.
  destruct m as [out [e | a']]; simpl; intros H; inversion H; subst.
  destruct (k a); reflexivity.
Qed.

Lemma outcome_bind_raise {A B} (m : M A) (k : A -> M B) (e : Py.exn) :
  outcome m = inl e -> outcome (bind m k) = inl e.
Proof.
  destruct m as [out [e' | a]]; simpl; intros H; inversion H; reflexivity.
Qed.

Lemma output_bind_ok {A B} (m : M A) (k : A -> M B) (a : A) :
  outcome m = inr a -> output (bind m k) = (output m ++ output (k a))%list.
Proof.
  destruct m as [out [e | a']]; simpl; intros H; inversion H; subst.
  destruct (k a); reflexivity.
Qed.

Lemma output_bind_raise {A B} (m : M A) (k : A -> M B) (e : Py.exn) :
  outcome m = inl e -> output (bind m k) = output m.
Proof.
  destruct m as [out [e' | a]]; simpl; intros H; inversion H; reflexivity.
Qed.

Lemma outcome_bind_inv {A B} (m : M A) (k : A -> M B) (b : B) :
  outcome (bind m k) = inr b ->
  exists a, outcome m = inr a /\ outcome (k a) = inr b.
Proof.
  destruct m as [out [e | a]]; simpl; intros H.
  - discriminate.
  - exists a. split; [reflexivity|]. destruct (k a); exact H.
Qed.

Lemma map_M_ok {A B} (f : A -> M B) (g : A -> B) (l : list A) :
  (forall x, In x l -> outcome (f x) = inr (g x)) ->
  outcome (map_M f l) = inr (map g l).
Proof.
  induction l as [|x l IH]; intros H; simpl.
  - reflexivity.
  - rewrite (outcome_bind_ok _ _ (g x)) by (apply H; left; reflexivity).
    rewrite (outcome_bind_ok _ _ (map g l)).
    + reflexivity.
    + apply IH. intros y Hy. apply H. right. exact Hy.
Qed.

(** The loop stops at the first element on which the body raises. *)
Lemma map_M_raise {A B} (f : A -> M B) (P : Py.exn -> Prop) (l : list A) :
  (forall x e, In x l -> outcome (f x) = inl e -> P e) ->
  (exists x, In x l /\ exists e, outcome (f x) = inl e) ->
  exists e, outcome (map_M f l) = inl e /\ P e.
Proof.
  induction l as [|x l IH]; intros HP [y [Hy [e He]]].
  - destruct Hy.
  - simpl. destruct (outcome (f x)) as [e' | b] eqn:Hx.
    + exists e'. split.
      * apply outcome_bind_raise. exact Hx.
      * apply (HP x); [left; reflexivity | exact Hx].
    + destruct Hy as [-> | Hy]; [congruence|].
      destruct IH as [e' [He' HPe']].
      * intros z e0 Hz. apply HP. right. exact Hz.
      * exists y. split; [exact Hy | exists e; exact He].
      * exists e'. split; [|exact HPe'].
        rewrite (outcome_bind_ok _ _ b) by exact Hx.
        apply outcome_bind_raise. exact He'.
Qed.

(** ** Lists of equally long lists *)

Lemma length_concat_uniform {A} (ll : list (list A)) (K : nat) :
  (forall l, In l ll -> List.length l = K) ->
  List.length (List.concat ll) = (List.length ll * K)%nat.
Proof.
  induction ll as [|l ll IH]; intros H; simpl.
  - reflexivity.
  - rewrite List.length_app, IH, (H l).
    + reflexivity.
    + left; reflexivity.
    + intros l' Hl'. apply H. right. exact Hl'.
Qed.

Lemma nth_error_concat_uniform {A} (ll : list (list A)) (K i j : nat)
    (l : list A) (x : A) :
  (forall l', In l' ll -> List.length l' = K) ->
  nth_error ll i = Some l ->
  nth_error l j = Some x ->
  nth_error (List.concat ll) (i * K + j) = Some x.
Proof.
  revert i. induction ll as [|l0 ll IH]; intros i H Hi Hj.
  - destruct i; discriminate.
  - destruct i as [|i]; simpl in *.
    + inversion Hi; subst l0.
      rewrite nth_error_app1; [exact Hj|].
      apply nth_error_Some. congruence.
    + assert (H0 : List.length l0 = K) by (apply H; left; reflexivity).
      rewrite nth_error_app2 by lia.
      replace (K + i * K + j - List.length l0)%nat with (i * K + j)%nat by lia.
      apply IH; auto.
Qed.

(** ** Loading the convergence files *)

Lemma load_file_ok env self file seed :
  Py.parse_int (plot_convergence.seed_suffix file) = Some seed ->
  plot_convergence.load_file env self file =
  ([], inr (map (plot_convergence.with_seed seed)
                (read_convergence_csv env (plot_convergence.data_dir self) file))).
Proof.
  intros H. unfold plot_convergence.load_file, int_of_str, Py.int.
  unfold Py.parse_int in H.
  destruct (Py.int_result_of (plot_convergence.seed_suffix file));
    try discriminate.
  injection H as ->. reflexivity.
Qed.

Lemma load_file_bad env self file :
  Py.parse_int (plot_convergence.seed_suffix file) = None ->
  exists msg,
    plot_convergence.load_file env self file = ([], inl (Py.ValueError msg)).
Proof.
  intros H. unfold plot_convergence.load_file, int_of_str, Py.int.
  unfold Py.parse_int in H.
  destruct (Py.int_result_of (plot_convergence.seed_suffix file));
    try discriminate; eexists; reflexivity.
Qed.

(** With files present and every suffix accepted by [int], the table is
    the concatenation of the files' rows, each with its file's seed, and
    one line is printed. *)
Lemma load_convergence_data_ok env self algorithm scale :
  let files := glob env (plot_convergence.data_dir self)
                 (plot_convergence.pattern_of algorithm scale) in
  files <> [] ->
  (forall f, In f files ->
     Py.parse_int (plot_convergence.seed_suffix f) <> None) ->
  outcome (plot_convergence.load_convergence_data env self algorithm scale)
  = inr (Some (List.concat (map (rows_of env self) files))).
Proof.
  intros files Hne Hparse.
  unfold plot_convergence.load_convergence_data. fold files.
  destruct files as [|f0 fs] eqn:Hfiles; [congruence|].
  rewrite <- Hfiles in *.
  assert (Hmap : outcome (map_M (plot_convergence.load_file env self) files)
                 = inr (map (rows_of env self) files)).
  { apply map_M_ok. intros f Hf. specialize (Hparse f Hf).
    unfold rows_of, seed_or_zero.
    destruct (Py.parse_int (plot_convergence.seed_suffix f)) as [s|] eqn:Hs;
      [|congruence].
    rewrite (load_file_ok env self f s Hs). reflexivity. }
  rewrite (outcome_bind_ok _ _ _ Hmap).
  reflexivity.
Qed.

(** C1, as the code has it.  When N >= 1 files match
    [convergence_<Algorithm>_<Scale>_seed*.csv], each suffix after 'seed'
    is an integer for [int] and each file holds K rows,
    [load_convergence_data] returns a table of exactly N * K rows; row
    [i * K + j] of the table is row [j] of the [i]-th file, and its [Seed]
    is the integer parsed from that file's suffix.  When no file matches,
    the result is [None]; when [int] rejects the suffix of a matched file,
    [ValueError] is raised. *)
Theorem load_convergence_data_table env self algorithm scale (K : nat) :
  let files := glob env (plot_convergence.data_dir self)
                 (plot_convergence.pattern_of algorithm scale) in
  (files <> [] ->
   (forall f, In f files ->
      Py.parse_int (plot_convergence.seed_suffix f) <> None) ->
   (forall f, In f files ->
      List.length (read_convergence_csv env (plot_convergence.data_dir self) f)
      = K) ->
   exists table,
     outcome (plot_convergence.load_convergence_data env self algorithm scale)
     = inr (Some table) /\
     List.length table = (List.length files * K)%nat /\
     forall i j file row,
       nth_error files i = Some file ->
       nth_error (read_convergence_csv env (plot_convergence.data_dir self) file) j
       = Some row ->
       exists r,
         nth_error table (i * K + j) = Some r /\
         Py.parse_int (plot_convergence.seed_suffix file) = Some (Seed r) /\
         Iteration r = csv_Iteration row /\
         BestFitness r = csv_BestFitness row) /\
  (files = [] ->
   outcome (plot_convergence.load_convergence_data env self algorithm scale)
   = inr None) /\
  ((exists f, In f files /\
              Py.parse_int (plot_convergence.seed_suffix f) = None) ->
   exists msg,
     outcome (plot_convergence.load_convergence_data env self algorithm scale)
     = inl (Py.ValueError msg)).
Proof.
  intros files. split; [|split].
  - intros Hne Hparse HK.
    exists (List.concat (map (rows_of env self) files)).
    assert (Hlen : forall l, In l (map (rows_of env self) files) ->
                             List.length l = K).
    { intros l Hl. apply in_map_iff in Hl. destruct Hl as [f [<- Hf]].
      unfold rows_of. rewrite List.length_map. apply HK. exact Hf. }
    split; [|split].
    + apply load_convergence_data_ok; assumption.
    + rewrite (length_concat_uniform _ K Hlen), List.length_map. reflexivity.
    + intros i j file row Hi Hj.
      exists (plot_convergence.with_seed (seed_or_zero file) row).
      split; [|split; [|split; reflexivity]].
      * apply (nth_error_concat_uniform _ K i j (rows_of env self file)).
        -- exact Hlen.
        -- rewrite nth_error_map, Hi. reflexivity.
        -- unfold rows_of. rewrite nth_error_map, Hj. reflexivity.
      * simpl. unfold seed_or_zero.
        assert (Hf : In file files) by (eapply nth_error_In; exact Hi).
        specialize (Hparse file Hf).
        destruct (Py.parse_int (plot_convergence.seed_suffix file));
          [reflexivity | congruence].
  - intros Hnil. unfold plot_convergence.load_convergence_data.
    fold files. rewrite Hnil. reflexivity.
  - intros [f [Hf Hbad]].
    unfold plot_convergence.load_convergence_data. fold files.
    destruct files as [|f0 fs] eqn:Hfiles; [destruct Hf|].
    destruct (map_M_raise (plot_convergence.load_file env self)
                (fun e => exists msg, e = Py.ValueError msg) (f0 :: fs))
      as [e [He [msg ->]]].
    + intros x e _ Hx.
      destruct (Py.parse_int (plot_convergence.seed_suffix x)) as [n|] eqn:Hs.
      * rewrite (load_file_ok env self x n Hs) in Hx. discriminate.
      * destruct (load_file_bad env self x Hs) as [msg Hmsg].
        rewrite Hmsg in Hx. simpl in Hx.
        injection Hx as <-. exists msg. reflexivity.
    + exists f. split; [exact Hf|].
      destruct (load_file_bad env self f Hbad) as [msg Hmsg].
      rewrite Hmsg. eexists. reflexivity.
    + exists msg. apply outcome_bind_raise. exact He.
Qed.

Lemma load_convergence_data_table_witness :
  (exists table,
     outcome (plot_convergence.load_convergence_data
                env_two_seeds cbo_plotter "CBO" "M100") = inr (Some table) /\
     List.length table = 6%nat) /\
  outcome (plot_convergence.load_convergence_data
             env_two_seeds cbo_plotter "Random" "M100") = inr None /\
  exists msg,
    outcome (plot_convergence.load_convergence_data
               env_bad_seed cbo_plotter "CBO" "M100") = inl (Py.ValueError msg).
Proof.
  split; [|split].
  - destruct (proj1 (load_convergence_data_table env_two_seeds cbo_plotter
                       "CBO" "M100" 3))
      as [table [H1 [H2 _]]].
    + vm_compute. discriminate.
    + intros f Hf. vm_compute in Hf.
      destruct Hf as [<- | [<- | []]]; vm_compute; discriminate.
    + intros f Hf. vm_compute in Hf.
      destruct Hf as [<- | [<- | []]]; reflexivity.
    + exists table. split; [exact H1 | exact H2].
  - apply (proj1 (proj2 (load_convergence_data_table env_two_seeds cbo_plotter
                           "Random" "M100" 0))).
    reflexivity.
  - apply (proj2 (proj2 (load_convergence_data_table env_bad_seed cbo_plotter
                           "CBO" "M100" 2))).
    exists "convergence_CBO_M100_seed_final.csv". split.
    + vm_compute. right. left. reflexivity.
    + vm_compute. reflexivity.
Defined.

(** C1, as stated, fails.  Two files match, each with two rows, and no
    table is returned: [int] rejects the suffix [_final] of the second
    file and [load_convergence_data] raises [ValueError].  And for an
    algorithm without any matching file the result is [None], not a table
    without rows. *)
Lemma matching_files_without_table :
  glob env_bad_seed "." (plot_convergence.pattern_of "CBO" "M100")
  = ["convergence_CBO_M100_seed1.csv"; "convergence_CBO_M100_seed_final.csv"] /\
  read_convergence_csv env_bad_seed "." "convergence_CBO_M100_seed1.csv"
  = [csv_row 0 100; csv_row 1 80] /\
  read_convergence_csv env_bad_seed "." "convergence_CBO_M100_seed_final.csv"
  = [csv_row 0 100; csv_row 1 80] /\
  plot_convergence.seed_suffix "convergence_CBO_M100_seed_final.csv" = "_final" /\
  outcome (plot_convergence.load_convergence_data env_bad_seed cbo_plotter
             "CBO" "M100")
  = inl (Py.ValueError "invalid literal for int() with base 10: '_final'") /\
  ~ (exists table,
       outcome (plot_convergence.load_convergence_data env_bad_seed cbo_plotter
                  "CBO" "M100") = inr (Some table) /\
       List.length table = 4%nat) /\
  glob env_two_seeds "." (plot_convergence.pattern_of "Random" "M100") = [] /\
  outcome (plot_convergence.load_convergence_data env_two_seeds cbo_plotter
             "Random" "M100") = inr None.
Proof.
  split; [vm_compute; reflexivity|]. split; [vm_compute; reflexivity|].
  split; [vm_compute; reflexivity|]. split; [vm_compute; reflexivity|].
  split; [vm_compute; reflexivity|]. split.
  - intros [table [H _]]. vm_compute in H. discriminate.
  - split; vm_compute; reflexivity.
Qed.

(** ** Runs that differ by printed text only *)

Lemma same_run_refl {A} (m : M A) : same_run m m.
Proof. split; reflexivity. Qed.

Lemma artifacts_app (o1 o2 : list event) :
  artifacts (o1 ++ o2) = (artifacts o1 ++ artifacts o2)%list.
Proof. apply filter_app. Qed.

Lemma same_run_bind {A B} (m1 m2 : M A) (k : A -> M B) :
  same_run m1 m2 -> same_run (bind m1 k) (bind m2 k).
Proof.
  destruct m1 as [o1 [e1 | a1]], m2 as [o2 [e2 | a2]];
    intros [Ho Ha]; simpl in *; try discriminate.
  - injection Ho as ->. split; simpl; [reflexivity | assumption].
  - inversion Ho; subst a2. destruct (k a1) as [o r]. split; simpl.
    + reflexivity.
    + rewrite !artifacts_app. congruence.
Qed.

Lemma same_run_bind_cont {A B} (m : M A) (k1 k2 : A -> M B) :
  (forall a, same_run (k1 a) (k2 a)) -> same_run (bind m k1) (bind m k2).
Proof.
  intros H. destruct m as [o [e | a]]; simpl.
  - apply same_run_refl.
  - destruct (H a) as [Ho Ha].
    destruct (k1 a) as [o1 r1], (k2 a) as [o2 r2]. simpl in *.
    split; simpl; [assumption|]. rewrite !artifacts_app. congruence.
Qed.

(** An iteration that only prints can be dropped from a loop. *)
Lemma for_each_skip {A} (body : A -> M unit) (before after : list A)
    (a : A) (w : line) :
  body a = ([Print w], inr tt) ->
  same_run (for_each (before ++ a :: after) body)
           (for_each (before ++ after) body).
Proof.
  intros Ha. induction before as [|x before IH]; simpl.
  - rewrite Ha. simpl. destruct (for_each after body) as [o r].
    split; reflexivity.
  - apply same_run_bind_cont. intros _. exact IH.
Qed.

Lemma fold_M_skip {A S} (body : S -> A -> M S) (before after : list A)
    (a : A) (w : line) :
  (forall s, body s a = ([Print w], inr s)) ->
  forall s, same_run (fold_M body (before ++ a :: after) s)
                     (fold_M body (before ++ after) s).
Proof.
  intros Ha. induction before as [|x before IH]; intros s; simpl.
  - rewrite Ha. simpl. destruct (fold_M body after s) as [o r].
    split; reflexivity.
  - apply same_run_bind_cont. intros s'. apply IH.
Qed.

Lemma load_convergence_data_absent env self algorithm scale :
  glob env (plot_convergence.data_dir self)
       (plot_convergence.pattern_of algorithm scale) = [] ->
  plot_convergence.load_convergence_data env self algorithm scale
  = ([no_file_warning algorithm scale], inr None).
Proof.
  intros H. unfold plot_convergence.load_convergence_data. rewrite H.
  reflexivity.
Qed.

(** C7. When no file matches an algorithm's pattern,
    [load_convergence_data] prints its warning and returns [None] without
    raising; the single-algorithm plot returns having emitted nothing
    else; and the comparison plot, the report and the loop over the
    single-algorithm plots end the same way and leave the same artifacts
    (lines, bands, figures, report rows) as if the algorithm were not in
    the list. *)
Theorem absent_algorithm_is_skipped env self algorithm scale :
  glob env (plot_convergence.data_dir self)
       (plot_convergence.pattern_of algorithm scale) = [] ->
  plot_convergence.load_convergence_data env self algorithm scale
  = ([no_file_warning algorithm scale], inr None) /\
  plot_convergence.plot_single_algorithm env self algorithm scale
  = ([no_file_warning algorithm scale], inr tt) /\
  (forall before after,
     same_run
       (for_each (before ++ algorithm :: after)
          (fun a => plot_convergence.plot_single_algorithm env self a scale))
       (for_each (before ++ after)
          (fun a => plot_convergence.plot_single_algorithm env self a scale))) /\
  (forall before after,
     same_run
       (plot_convergence.plot_comparison env self
          (before ++ algorithm :: after) scale)
       (plot_convergence.plot_comparison env self (before ++ after) scale)) /\
  (forall before after,
     same_run
       (plot_convergence.generate_convergence_report env self
          (before ++ algorithm :: after) scale)
       (plot_convergence.generate_convergence_report env self
          (before ++ after) scale)).
Proof.
  intros H.
  pose proof (load_convergence_data_absent env self algorithm scale H) as Hload.
  assert (Hsingle :
            plot_convergence.plot_single_algorithm env self algorithm scale
            = ([no_file_warning algorithm scale], inr tt)).
  { unfold plot_convergence.plot_single_algorithm. rewrite Hload. reflexivity. }
  split; [exact Hload|]. split; [exact Hsingle|]. split; [|split].
  - intros before after.
    apply (for_each_skip _ before after algorithm
             (Text ("⚠️  未找到文件: "
                    ++ plot_convergence.pattern_of algorithm scale))).
    exact Hsingle.
  - intros before after. unfold plot_convergence.plot_comparison.
    apply same_run_bind.
    apply (for_each_skip _ before after algorithm
             (Text ("⚠️  未找到文件: "
                    ++ plot_convergence.pattern_of algorithm scale))).
    unfold plot_convergence.compare_one. rewrite Hload. reflexivity.
  - intros before after.
    unfold plot_convergence.generate_convergence_report.
    apply same_run_bind.
    apply (fold_M_skip _ before after algorithm
             (Text ("⚠️  未找到文件: "
                    ++ plot_convergence.pattern_of algorithm scale))).
    intros s. unfold plot_convergence.report_one. rewrite Hload. reflexivity.
Qed.

Lemma absent_algorithm_is_skipped_witness :
  plot_convergence.plot_single_algorithm env_two_seeds cbo_plotter "Random" "M100"
  = ([no_file_warning "Random" "M100"], inr tt) /\
  same_run
    (plot_convergence.generate_convergence_report env_two_seeds cbo_plotter
       ["Random"; "CBO"] "M100")
    (plot_convergence.generate_convergence_report env_two_seeds cbo_plotter
       ["CBO"] "M100").
Proof.
  destruct (absent_algorithm_is_skipped env_two_seeds cbo_plotter "Random" "M100")
    as [_ [H1 [_ [_ H2]]]].
  - reflexivity.
  - split; [exact H1 | exact (H2 [] ["CBO"])].
Defined.

(** ** The text after the last 'seed' *)

Lemma append_nil_r (s : string) : s ++ "" = s.
Proof. induction s as [|c s IH]; simpl; [reflexivity | rewrite IH; reflexivity]. Qed.

Lemma append_assoc (a b c : string) : (a ++ b) ++ c = a ++ b ++ c.
Proof. induction a as [|x a IH]; simpl; [reflexivity | rewrite IH; reflexivity]. Qed.

Lemma prefix_seed (s : string) :
  String.prefix "seed" s = true -> exists t, s = "seed" ++ t.
Proof.
  destruct s as [|c0 [|c1 [|c2 [|c3 t]]]]; cbn [String.prefix];
    repeat match goal with
           | |- context [ascii_dec ?a ?b] => destruct (ascii_dec a b)
           end; try discriminate.
  intros _. subst. exists t. reflexivity.
Qed.

Lemma split_go_nonempty (sep : string) (skip : nat) (cur s : string) :
  Py.split_go sep skip cur s <> [].
Proof.
  revert skip cur. induction s as [|c s IH]; intros skip cur;
    cbn [Py.split_go].
  - discriminate.
  - destruct skip; [|apply IH].
    destruct (String.prefix sep (String c s)); [discriminate | apply IH].
Qed.

Lemma last_piece_cons (x : string) (l : list string) :
  l <> [] -> Py.last_piece (x :: l) = Py.last_piece l.
Proof. destruct l; [congruence | reflexivity]. Qed.

(** Without an occurrence of 'seed' there is one piece. *)
Lemma split_without_seed (s cur : string) :
  ~ occurs "seed" s -> Py.split_go "seed" 0 cur s = [cur ++ s].
Proof.
  revert cur. induction s as [|c s IH]; intros cur Hno.
  - simpl. rewrite append_nil_r. reflexivity.
  - cbn [Py.split_go].
    destruct (String.prefix "seed" (String c s)) eqn:Hp.
    + exfalso. apply Hno. destruct (prefix_seed _ Hp) as [t Ht].
      exists "", t. exact Ht.
    + rewrite IH.
      * rewrite append_assoc. reflexivity.
      * intros [a [b Hab]]. apply Hno. exists (String c a), b.
        simpl. rewrite Hab. reflexivity.
Qed.

Lemma prefix_seed_true (t : string) :
  String.prefix "seed" (String "s" (String "e" (String "e" (String "d" t))))
  = true.
Proof.
  cbn [String.prefix].
  repeat match goal with
         | |- context [ascii_dec ?a ?b] =>
             destruct (ascii_dec a b); [|congruence]
         end.
  destruct t; reflexivity.
Qed.

Lemma split_go_at_seed (cur t : string) :
  Py.split_go "seed" 0 cur ("seed" ++ t) = cur :: Py.split_go "seed" 0 "" t.
Proof.
  change ("seed" ++ t)
    with (String "s" (String "e" (String "e" (String "d" t)))).
  unfold Py.split_go at 1. fold Py.split_go.
  rewrite prefix_seed_true. reflexivity.
Qed.

Lemma last_split_seed_len (n : nat) :
  forall pre suf cur,
    String.length pre = n -> ~ occurs "seed" suf ->
    Py.last_piece (Py.split_go "seed" 0 cur (pre ++ "seed" ++ suf)) = suf.
Proof.
  induction n as [n IH] using lt_wf_ind. intros pre suf cur Hlen Hno.
  destruct pre as [|c pre].
  - change ("" ++ "seed" ++ suf) with ("seed" ++ suf).
    rewrite split_go_at_seed, last_piece_cons by apply split_go_nonempty.
    rewrite split_without_seed by exact Hno. reflexivity.
  - change (String c pre ++ "seed" ++ suf)
      with (String c (pre ++ "seed" ++ suf)).
    destruct (String.prefix "seed" (String c (pre ++ "seed" ++ suf))) eqn:Hp.
    + destruct (prefix_seed _ Hp) as [t Ht].
      destruct pre as [|c1 [|c2 [|c3 pre]]]; cbn [String.append] in Ht.
      * injection Ht as _ Ht. discriminate.
      * injection Ht as _ _ Ht. discriminate.
      * injection Ht as _ _ _ Ht. discriminate.
      * injection Ht as -> -> -> -> _.
        change (Py.last_piece
                  (Py.split_go "seed" 0 cur ("seed" ++ (pre ++ "seed" ++ suf)))
                = suf).
        rewrite split_go_at_seed, last_piece_cons by apply split_go_nonempty.
        apply (IH (String.length pre));
          [simpl in Hlen; lia | reflexivity | exact Hno].
    + cbn [Py.split_go]. rewrite Hp.
      apply (IH (String.length pre));
        [simpl in Hlen; lia | reflexivity | exact Hno].
Qed.

(** The text given to [int] is what follows the last occurrence of 'seed'
    in the stem of the file name. *)
Lemma seed_suffix_after_last_seed (file pre suf : string) :
  Py.stem file = pre ++ "seed" ++ suf -> ~ occurs "seed" suf ->
  plot_convergence.seed_suffix file = suf.
Proof.
  intros Hstem Hno. unfold plot_convergence.seed_suffix, Py.split.
  rewrite Hstem. apply (last_split_seed_len (String.length pre)); auto.
Qed.

(** ** Seeds that [int] rejects *)

Lemma for_each_raise {A} (body : A -> M unit) (l : list A) :
  (exists x, In x l /\ exists e, outcome (body x) = inl e) ->
  exists e, outcome (for_each l body) = inl e.
Proof.
  induction l as [|x l IH]; intros [y [Hy [e He]]].
  - destruct Hy.
  - simpl. destruct (outcome (body x)) as [e' | []] eqn:Hx.
    + exists e'. apply outcome_bind_raise. exact Hx.
    + destruct Hy as [-> | Hy]; [congruence|].
      destruct IH as [e' He'].
      * exists y. split; [exact Hy | exists e; exact He].
      * exists e'. rewrite (outcome_bind_ok _ _ tt) by exact Hx. exact He'.
Qed.

Lemma load_convergence_data_raises env self algorithm scale :
  (exists f,
     In f (glob env (plot_convergence.data_dir self)
                (plot_convergence.pattern_of algorithm scale)) /\
     Py.parse_int (plot_convergence.seed_suffix f) = None) ->
  exists msg,
    outcome (plot_convergence.load_convergence_data env self algorithm scale)
    = inl (Py.ValueError msg).
Proof.
  intros [f [Hf Hbad]].
  unfold plot_convergence.load_convergence_data.
  destruct (glob env (plot_convergence.data_dir self)
              (plot_convergence.pattern_of algorithm scale))
    as [|f0 fs] eqn:Hfiles; [destruct Hf|].
  destruct (map_M_raise (plot_convergence.load_file env self)
              (fun e => exists msg, e = Py.ValueError msg) (f0 :: fs))
    as [e [He [msg ->]]].
  - intros x e _ Hx.
    destruct (Py.parse_int (plot_convergence.seed_suffix x)) as [s|] eqn:Hs.
    + rewrite (load_file_ok env self x s Hs) in Hx. discriminate.
    + destruct (load_file_bad env self x Hs) as [msg Hmsg].
      rewrite Hmsg in Hx. simpl in Hx.
      injection Hx as <-. exists msg. reflexivity.
  - exists f. split; [exact Hf|].
    destruct (load_file_bad env self f Hbad) as [msg Hmsg].
    rewrite Hmsg. eexists. reflexivity.
  - exists msg. apply outcome_bind_raise. exact He.
Qed.

Lemma load_convergence_data_succeeds_iff env self algorithm scale :
  let files := glob env (plot_convergence.data_dir self)
                 (plot_convergence.pattern_of algorithm scale) in
  (exists table,
     outcome (plot_convergence.load_convergence_data env self algorithm scale)
     = inr (Some table)) <->
  files <> [] /\
  forall f, In f files -> Py.parse_int (plot_convergence.seed_suffix f) <> None.
Proof.
  intros files. split.
  - intros [table H]. split.
    + intros Hnil.
      rewrite (load_convergence_data_absent env self algorithm scale Hnil) in H.
      discriminate.
    + intros f Hf Hbad.
      destruct (load_convergence_data_raises env self algorithm scale)
        as [msg Hmsg].
      * exists f. split; assumption.
      * rewrite Hmsg in H. discriminate.
  - intros [Hne Hparse]. eexists.
    apply load_convergence_data_ok; assumption.
Qed.

(** C10, as the code has it.  If some matched file has a suffix after
    'seed' that [int] rejects, [load_convergence_data] raises [ValueError];
    no consumer catches it, and when the algorithm is one of the
    configured ones [main] ends with an uncaught exception.  The load
    succeeds exactly when files match and [int] accepts every suffix.  The
    suffix is the text after the last occurrence of 'seed' in the stem of
    the file name.  [int] accepts more than digits: a sign, an underscore
    between digits, white space around the number, digits of other scripts;
    it rejects an underscore at either end or doubled, the empty text, and
    the control character U+001C before the number. *)
Theorem load_convergence_data_seed_errors env self algorithm scale :
  let files := glob env (plot_convergence.data_dir self)
                 (plot_convergence.pattern_of algorithm scale) in
  ((exists f, In f files /\
              Py.parse_int (plot_convergence.seed_suffix f) = None) ->
   (exists msg,
      outcome (plot_convergence.load_convergence_data env self algorithm scale)
      = inl (Py.ValueError msg) /\
      outcome (plot_convergence.plot_single_algorithm env self algorithm scale)
      = inl (Py.ValueError msg) /\
      outcome (plot_convergence.compare_one env self scale algorithm)
      = inl (Py.ValueError msg) /\
      forall report_lines,
        outcome (plot_convergence.report_one env self scale report_lines
                   algorithm)
        = inl (Py.ValueError msg)) /\
   (self = cbo_plotter -> scale = plot_convergence.scale ->
    In algorithm plot_convergence.algorithms ->
    exit_status (plot_convergence.main env) <> 0)) /\
  ((exists table,
      outcome (plot_convergence.load_convergence_data env self algorithm scale)
      = inr (Some table)) <->
   files <> [] /\
   forall f, In f files ->
             Py.parse_int (plot_convergence.seed_suffix f) <> None) /\
  (forall f before after,
     Py.stem f = before ++ "seed" ++ after -> ~ occurs "seed" after ->
     plot_convergence.seed_suffix f = after) /\
  map Py.parse_int ["7"; "-3"; "+3"; "1_0"; " 3"; "３"; "007"]
  = [Some 7; Some (-3); Some 3; Some 10; Some 3; Some 3; Some 7] /\
  map Py.parse_int
    ["_final"; "3_"; "_3"; "1__0"; ""; String (ascii_of_nat 28) "3"; "3.0"]
  = [None; None; None; None; None; None; None].
Proof.
  intros files.
  split; [|split; [apply load_convergence_data_succeeds_iff
                  | split; [apply seed_suffix_after_last_seed
                           | split; vm_compute; reflexivity]]].
  intros Hbad.
  destruct (load_convergence_data_raises env self algorithm scale Hbad)
    as [msg Hmsg].
  assert (Hsingle :
            outcome (plot_convergence.plot_single_algorithm env self
                       algorithm scale) = inl (Py.ValueError msg))
    by (apply outcome_bind_raise; exact Hmsg).
  split.
  - exists msg. split; [exact Hmsg|]. split; [exact Hsingle|].
    split; [|intros report_lines]; apply outcome_bind_raise; exact Hmsg.
  - intros -> -> Hin.
    destruct (for_each_raise
                (fun a => plot_convergence.plot_single_algorithm env
                            cbo_plotter a plot_convergence.scale)
                plot_convergence.algorithms) as [e He].
    { exists algorithm. split; [exact Hin|]. eexists. exact Hsingle. }
    unfold exit_status, plot_convergence.main.
    rewrite (outcome_bind_ok _ _ tt) by reflexivity.
    rewrite (outcome_bind_ok _ _ cbo_plotter) by reflexivity.
    rewrite (outcome_bind_ok _ _ tt) by reflexivity.
    rewrite (outcome_bind_ok _ _ tt) by reflexivity.
    rewrite (outcome_bind_ok _ _ tt) by reflexivity.
    rewrite (outcome_bind_raise _ _ e) by exact He.
    destruct e; discriminate.
Qed.

Lemma load_convergence_data_seed_errors_witness :
  exit_status (plot_convergence.main env_bad_seed) <> 0 /\
  exists msg,
    outcome (plot_convergence.load_convergence_data env_bad_seed cbo_plotter
               "CBO" "M100") = inl (Py.ValueError msg).
Proof.
  destruct (load_convergence_data_seed_errors env_bad_seed cbo_plotter
              "CBO" "M100") as [H _].
  destruct H as [[msg [Hmsg _]] Hmain].
  - exists "convergence_CBO_M100_seed_final.csv". split.
    + vm_compute. right. left. reflexivity.
    + vm_compute. reflexivity.
  - split.
    + apply Hmain; [reflexivity | reflexivity |].
      simpl. right. right. right. left. reflexivity.
    + exists msg. exact Hmsg.
Defined.

(** C10, as stated, fails: the file [convergence_CBO_M100_seed-3.csv] is
    loaded, with seed -3, although its suffix [-3] is not purely numeric.
    So are files with the suffixes [+3], [1_0], [ 3] (a space before the
    digit) and the full-width digit three, with seeds 3, 10, 3 and 3.
    A suffix that ends or starts with an underscore, holds two underscores
    in a row, is empty, or starts with the control character U+001C is
    rejected. *)
Lemma signed_suffix_is_loaded :
  plot_convergence.seed_suffix "convergence_CBO_M100_seed-3.csv" = "-3" /\
  purely_numeric "-3" = false /\
  outcome (plot_convergence.load_convergence_data env_signed_seed cbo_plotter
             "CBO" "M100")
  = inr (Some [ {| Iteration := 0; BestFitness := F.of_Z 100; Seed := -3 |};
                {| Iteration := 1; BestFitness := F.of_Z 80; Seed := -3 |} ]) /\
  ~ ((exists table,
        outcome (plot_convergence.load_convergence_data env_signed_seed
                   cbo_plotter "CBO" "M100") = inr (Some table)) ->
     forall f,
       In f (glob env_signed_seed "." (plot_convergence.pattern_of "CBO" "M100")) ->
       purely_numeric (plot_convergence.seed_suffix f) = true) /\
  map plot_convergence.seed_suffix
    (glob env_odd_seeds "." (plot_convergence.pattern_of "CBO" "M100"))
  = ["+3"; "1_0"; " 3"; "３"] /\
  map purely_numeric ["+3"; "1_0"; " 3"; "３"] = [false; false; false; false] /\
  outcome (plot_convergence.load_convergence_data env_odd_seeds cbo_plotter
             "CBO" "M100")
  = inr (Some [ {| Iteration := 0; BestFitness := F.of_Z 100; Seed := 3 |};
                {| Iteration := 0; BestFitness := F.of_Z 90; Seed := 10 |};
                {| Iteration := 0; BestFitness := F.of_Z 80; Seed := 3 |};
                {| Iteration := 0; BestFitness := F.of_Z 70; Seed := 3 |} ]) /\
  map Py.parse_int
    ["3_"; "_3"; "1__0"; ""; String (ascii_of_nat 28) "3"; "3.0"; "0x3"]
  = [None; None; None; None; None; None; None].
Proof.
  split; [vm_compute; reflexivity|]. split; [vm_compute; reflexivity|].
  split; [vm_compute; reflexivity|].
  split.
  - intros H.
    assert (Hload : exists table,
               outcome (plot_convergence.load_convergence_data env_signed_seed
                          cbo_plotter "CBO" "M100") = inr (Some table))
      by (eexists; vm_compute; reflexivity).
    specialize (H Hload "convergence_CBO_M100_seed-3.csv").
    assert (Hin : In "convergence_CBO_M100_seed-3.csv"
                     (glob env_signed_seed "."
                        (plot_convergence.pattern_of "CBO" "M100")))
      by (vm_compute; left; reflexivity).
    specialize (H Hin). vm_compute in H. discriminate.
  - repeat split; vm_compute; reflexivity.
Qed.

(** ** The order of floats *)

Lemma leb_rank (a b : float) :
  F.leb a b = true <->
  F.is_nan a = false /\ F.is_nan b = false /\ lex_le (frank a) (frank b).
Proof.
  unfold F.leb, SFleb, SFcompare, lex_le.
  destruct a as [[]|[]| |[] m1 e1], b as [[]|[]| |[] m2 e2]; simpl;
    try (split; [intros H; try discriminate; repeat split; lia
                | intros [H1 [H2 H3]]; try discriminate; try reflexivity; lia]).
  - change (Pos.compare_cont Eq m1 m2) with (Pos.compare m1 m2).
    destruct (Z.compare_spec e1 e2); destruct (Pos.compare_spec m1 m2); simpl;
      (split; [intros H1; try discriminate; repeat split; lia
              | intros [H1 [H2 H3]]; try reflexivity; lia]).
  - change (Pos.compare_cont Eq m1 m2) with (Pos.compare m1 m2).
    destruct (Z.compare_spec e1 e2); destruct (Pos.compare_spec m1 m2); simpl;
      (split; [intros H1; try discriminate; repeat split; lia
              | intros [H1 [H2 H3]]; try reflexivity; lia]).
Qed.

Lemma key_eqb_rank (a b : float) :
  F.key_eqb a b = true <-> frank a = frank b.
Proof.
  unfold F.key_eqb, F.eqb, SFeqb, SFcompare.
  destruct a as [[]|[]| |[] m1 e1], b as [[]|[]| |[] m2 e2]; simpl;
    try (split; intros H; try discriminate; try reflexivity; congruence).
  - change (Pos.compare_cont Eq m1 m2) with (Pos.compare m1 m2).
    destruct (Z.compare_spec e1 e2); destruct (Pos.compare_spec m1 m2); simpl;
      (split; intros H1; try discriminate; try reflexivity;
       try (f_equal; f_equal; lia); try (injection H1; lia)).
  - change (Pos.compare_cont Eq m1 m2) with (Pos.compare m1 m2).
    destruct (Z.compare_spec e1 e2); destruct (Pos.compare_spec m1 m2); simpl;
      (split; intros H1; try discriminate; try reflexivity;
       try (f_equal; f_equal; lia); try (injection H1; lia)).
Qed.

Lemma lex_le_trans a b c : lex_le a b -> lex_le b c -> lex_le a c.
Proof.
  destruct a as [[a1 a2] a3], b as [[b1 b2] b3], c as [[c1 c2] c3].
  unfold lex_le. lia.
Qed.

Lemma lex_le_total a b : lex_le a b \/ lex_le b a.
Proof.
  destruct a as [[a1 a2] a3], b as [[b1 b2] b3]. unfold lex_le. lia.
Qed.

Lemma leb_trans (a b c : float) :
  F.leb a b = true -> F.leb b c = true -> F.leb a c = true.
Proof.
  rewrite !leb_rank. intros [Ha [Hb Hab]] [_ [Hc Hbc]].
  repeat split; try assumption. eapply lex_le_trans; eassumption.
Qed.

Lemma leb_total (a b : float) :
  F.is_nan a = false -> F.is_nan b = false ->
  F.leb a b = true \/ F.leb b a = true.
Proof.
  intros Ha Hb. rewrite !leb_rank.
  destruct (lex_le_total (frank a) (frank b)); [left | right]; auto.
Qed.

(** ** Sorting *)

Lemma insert_by_perm {A} (leb : A -> A -> bool) (x : A) (l : list A) :
  Permutation (Pandas.insert_by leb x l) (x :: l).
Proof.
  induction l as [|y l IH]; simpl.
  - apply Permutation_refl.
  - destruct (leb x y).
    + apply Permutation_refl.
    + eapply Permutation_trans; [apply perm_skip; exact IH | apply perm_swap].
Qed.

Lemma sort_by_perm {A} (leb : A -> A -> bool) (l : list A) :
  Permutation (Pandas.sort_by leb l) l.
Proof.
  induction l as [|x l IH]; simpl.
  - apply Permutation_refl.
  - eapply Permutation_trans; [apply insert_by_perm|].
    apply perm_skip. exact IH.
Qed.

Lemma insert_by_sorted {A} (leb : A -> A -> bool) (x : A) (l : list A) :
  (forall a b c, leb a b = true -> leb b c = true -> leb a c = true) ->
  (forall y, In y l -> leb x y = true \/ leb y x = true) ->
  StronglySorted (fun a b => leb a b = true) l ->
  StronglySorted (fun a b => leb a b = true) (Pandas.insert_by leb x l).
Proof.
  intros Htrans Htot Hs. induction Hs as [|y l Hs IH Hy]; simpl.
  - constructor; [constructor | constructor].
  - destruct (leb x y) eqn:Hxy.
    + constructor.
      * constructor; assumption.
      * constructor; [exact Hxy|].
        rewrite Forall_forall in *. intros z Hz.
        apply (Htrans x y z); [exact Hxy | apply Hy; exact Hz].
    + constructor.
      * apply IH. intros z Hz. apply Htot. right. exact Hz.
      * assert (Hyx : leb y x = true).
        { destruct (Htot y (or_introl eq_refl)); congruence. }
        rewrite Forall_forall in *. intros z Hz.
        apply (Permutation_in _ (insert_by_perm leb x l)) in Hz.
        destruct Hz as [<- | Hz]; [exact Hyx | apply Hy; exact Hz].
Qed.

Lemma sort_by_sorted {A} (leb : A -> A -> bool) (l : list A) :
  (forall a b c, leb a b = true -> leb b c = true -> leb a c = true) ->
  (forall a b, In a l -> In b l -> leb a b = true \/ leb b a = true) ->
  StronglySorted (fun a b => leb a b = true) (Pandas.sort_by leb l).
Proof.
  intros Htrans Htot. induction l as [|x l IH]; simpl.
  - constructor.
  - apply insert_by_sorted.
    + exact Htrans.
    + intros y Hy. apply Htot; [left; reflexivity | right].
      exact (Permutation_in _ (sort_by_perm leb l) Hy).
    + apply IH. intros a b Ha Hb. apply Htot; right; assumption.
Qed.

(** A list already in order is left as it is. *)
Lemma sort_by_sorted_id {A} (leb : A -> A -> bool) (l : list A) :
  StronglySorted (fun a b => leb a b = true) l -> Pandas.sort_by leb l = l.
Proof.
  induction 1 as [|x l Hs IH Hx]; simpl.
  - reflexivity.
  - rewrite IH. destruct l as [|y l]; simpl.
    + reflexivity.
    + inversion Hx as [|? ? Hxy _]; subst. rewrite Hxy. reflexivity.
Qed.

(** ** Distinct values *)

Lemma unique_by_incl {A} (eqb : A -> A -> bool) (l : list A) (x : A) :
  In x (Pandas.unique_by eqb l) -> In x l.
Proof.
  induction l as [|y l IH]; simpl; [tauto|].
  intros [-> | H]; [left; reflexivity|].
  apply filter_In in H. right. apply IH. apply H.
Qed.

Section UniqueByKey.

Context {A B : Type} (eqb : A -> A -> bool) (key : A -> B).
Hypothesis eqb_key : forall a b, eqb a b = true <-> key a = key b.

(** Every value has a representative with the same key. *)
Lemma unique_by_covers (l : list A) (x : A) :
  In x l -> exists y, In y (Pandas.unique_by eqb l) /\ key y = key x.
Proof.
  induction l as [|z l IH]; simpl; [tauto|].
  intros [-> | H].
  - exists x. split; [left; reflexivity | reflexivity].
  - destruct (IH H) as [y [Hy Hk]].
    destruct (eqb z y) eqn:Hzy.
    + exists z. split; [left; reflexivity|].
      apply eqb_key in Hzy. congruence.
    + exists y. split; [|exact Hk]. right. apply filter_In.
      split; [exact Hy | rewrite Hzy; reflexivity].
Qed.

Lemma NoDup_map_filter (p : A -> bool) (l : list A) :
  NoDup (map key l) -> NoDup (map key (filter p l)).
Proof.
  induction l as [|x l IH]; simpl; intros H; [constructor|].
  inversion H as [|? ? Hx Hl]; subst.
  destruct (p x); simpl; [constructor|]; auto.
  intros Hin. apply Hx. apply in_map_iff in Hin.
  destruct Hin as [y [Hy Hin]]. apply filter_In in Hin.
  apply in_map_iff. exists y. tauto.
Qed.

(** No two of the values kept have the same key. *)
Lemma unique_by_NoDup (l : list A) : NoDup (map key (Pandas.unique_by eqb l)).
Proof.
  induction l as [|x l IH]; simpl; constructor.
  - intros Hin. apply in_map_iff in Hin. destruct Hin as [y [Hy Hin]].
    apply filter_In in Hin. destruct Hin as [_ Hneq].
    assert (Heq : eqb x y = true) by (apply eqb_key; congruence).
    rewrite Heq in Hneq. discriminate.
  - apply NoDup_map_filter. exact IH.
Qed.

End UniqueByKey.

Lemma Z_eqb_key (a b : Z) : Z.eqb a b = true <-> (fun x : Z => x) a = b.
Proof. apply Z.eqb_eq. Qed.

Lemma Z_leb_trans (a b c : Z) :
  Z.leb a b = true -> Z.leb b c = true -> Z.leb a c = true.
Proof. rewrite !Z.leb_le. lia. Qed.

Lemma sorted_unique_Z_In (l : list Z) (x : Z) :
  In x (Pandas.sorted_unique_Z l) <-> In x l.
Proof.
  unfold Pandas.sorted_unique_Z. split; intros H.
  - apply (Permutation_in _ (sort_by_perm _ _)) in H.
    apply unique_by_incl in H. exact H.
  - destruct (unique_by_covers Z.eqb (fun x => x) Z_eqb_key l x H)
      as [y [Hy ->]].
    apply (Permutation_in _ (Permutation_sym (sort_by_perm _ _))). exact Hy.
Qed.

Lemma sorted_unique_Z_NoDup (l : list Z) : NoDup (Pandas.sorted_unique_Z l).
Proof.
  unfold Pandas.sorted_unique_Z.
  apply (Permutation_NoDup (Permutation_sym (sort_by_perm _ _))).
  pose proof (unique_by_NoDup Z.eqb (fun x => x) Z_eqb_key l) as H.
  rewrite map_id in H. exact H.
Qed.

Lemma sorted_unique_Z_sorted (l : list Z) :
  StronglySorted (fun a b => Z.leb a b = true) (Pandas.sorted_unique_Z l).
Proof.
  apply sort_by_sorted.
  - exact Z_leb_trans.
  - intros a b _ _. rewrite !Z.leb_le. lia.
Qed.

(** The first of the sorted distinct values is the least value, the last
    one the greatest. *)
Lemma sorted_unique_Z_hd (l : list Z) (least : Z) :
  In least l -> (forall x, In x l -> least <= x) ->
  exists rest, Pandas.sorted_unique_Z l = least :: rest.
Proof.
  intros Hin Hmin.
  pose proof (sorted_unique_Z_sorted l) as Hs.
  pose proof (sorted_unique_Z_In l) as HIn.
  destruct (Pandas.sorted_unique_Z l) as [|h t].
  - apply HIn in Hin. destruct Hin.
  - exists t. f_equal.
    assert (Hh : least <= h) by (apply Hmin, HIn; left; reflexivity).
    apply HIn in Hin. destruct Hin as [-> | Hin]; [reflexivity|].
    inversion Hs as [|? ? _ Hall]; subst.
    rewrite Forall_forall in Hall. apply Hall, Z.leb_le in Hin. lia.
Qed.

Lemma sorted_last_max (l : list Z) :
  StronglySorted (fun a b => Z.leb a b = true) l ->
  forall x, In x l -> x <= List.last l 0.
Proof.
  induction 1 as [|y l Hs IH Hy]; intros x Hin; [destruct Hin|].
  destruct l as [|z l].
  - destruct Hin as [-> | []]. simpl. lia.
  - change (List.last (y :: z :: l) 0) with (List.last (z :: l) 0).
    destruct Hin as [<- | Hin]; [|apply IH; exact Hin].
    rewrite Forall_forall in Hy.
    assert (Hyz : y <= z) by (apply Z.leb_le, Hy; left; reflexivity).
    assert (z <= List.last (z :: l) 0) by (apply IH; left; reflexivity).
    lia.
Qed.

Lemma last_In {A} (l : list A) (d : A) : l <> [] -> In (List.last l d) l.
Proof.
  induction l as [|x l IH]; [congruence|]. intros _.
  destruct l as [|y l]; [left; reflexivity|].
  right. apply IH. discriminate.
Qed.

Lemma sorted_unique_Z_last (l : list Z) (greatest : Z) :
  In greatest l -> (forall x, In x l -> x <= greatest) ->
  List.last (Pandas.sorted_unique_Z l) 0 = greatest.
Proof.
  intros Hin Hmax.
  pose proof (sorted_unique_Z_sorted l) as Hs.
  pose proof (sorted_unique_Z_In l) as HIn.
  assert (Hne : Pandas.sorted_unique_Z l <> []).
  { intros Hnil. apply HIn in Hin. rewrite Hnil in Hin. destruct Hin. }
  assert (H1 : greatest <= List.last (Pandas.sorted_unique_Z l) 0)
    by (apply sorted_last_max; [exact Hs | apply HIn; exact Hin]).
  assert (H2 : List.last (Pandas.sorted_unique_Z l) 0 <= greatest)
    by (apply Hmax, HIn, last_In; exact Hne).
  lia.
Qed.

Lemma last_map {A B} (f : A -> B) (l : list A) (d : A) :
  List.last (map f l) (f d) = f (List.last l d).
Proof.
  induction l as [|x l IH]; [reflexivity|].
  destruct l as [|y l]; [reflexivity|]. exact IH.
Qed.

Lemma nth_pred_last {A} (l : list A) (d : A) :
  nth (Nat.pred (List.length l)) l d = List.last l d.
Proof.
  induction l as [|x l IH]; [reflexivity|].
  destruct l as [|y l]; [reflexivity|]. exact IH.
Qed.

(** ** Positional access *)

Lemma iloc_nth (s : list float) (i : nat) :
  (i < List.length s)%nat -> iloc s (Z.of_nat i) = ([], inr (nth i s F.nan)).
Proof.
  intros H. unfold iloc.
  assert (H1 : (Z.of_nat i <? 0) = false) by (apply Z.ltb_ge; lia).
  rewrite H1.
  assert (H2 : ((0 <=? Z.of_nat i) && (Z.of_nat i <? Z.of_nat (List.length s)))%bool
               = true).
  { apply andb_true_iff. split; [apply Z.leb_le | apply Z.ltb_lt]; lia. }
  rewrite H2, Nat2Z.id. reflexivity.
Qed.

Lemma iloc_last (s : list float) :
  s <> [] -> iloc s (-1) = ([], inr (List.last s F.nan)).
Proof.
  intros H. unfold iloc.
  assert (Hlen : (0 < List.length s)%nat)
    by (destruct s; [congruence | simpl; lia]).
  change (-1 <? 0) with true. cbv iota.
  assert (H2 : ((0 <=? Z.of_nat (List.length s) + -1)
                && (Z.of_nat (List.length s) + -1 <? Z.of_nat (List.length s)))%bool
               = true).
  { apply andb_true_iff. split; [apply Z.leb_le | apply Z.ltb_lt]; lia. }
  rewrite H2.
  replace (Z.to_nat (Z.of_nat (List.length s) + -1))
    with (Nat.pred (List.length s)) by lia.
  rewrite nth_pred_last. reflexivity.
Qed.

Lemma mean_series_keys env data :
  mean_series env data
  = map (mean_at env data) (Pandas.sorted_unique_Z (map Iteration data)).
Proof.
  unfold mean_series, Pandas.groupby_Iteration. rewrite map_map. reflexivity.
Qed.

(** ** The rows of the convergence report *)

(** The row written for an algorithm with data: the first and the last
    mean, and the mean at position [K / 2] for the speed. *)
Lemma report_one_row env self scale report_lines algorithm out data :
  plot_convergence.load_convergence_data env self algorithm scale
  = (out, inr (Some data)) ->
  mean_series env data <> [] ->
  let means := mean_series env data in
  let initial := nth 0 means F.nan in
  let final := List.last means F.nan in
  let mid := nth (List.length means / 2) means F.nan in
  plot_convergence.report_one env self scale report_lines algorithm
  = (out,
     inr (report_lines ++
          [plot_convergence.report_row algorithm initial final
             (plot_convergence.improvement initial final)
             (plot_convergence.half_improvement initial mid final)])%list).
Proof.
  intros Hload Hne means initial final mid.
  unfold plot_convergence.report_one. rewrite Hload.
  unfold bind at 1. cbv beta iota.
  change (map snd (Pandas.groupby_Iteration (groupby_mean env) data))
    with means.
  assert (Hlen : (0 < List.length means)%nat).
  { unfold means. destruct (mean_series env data); [congruence | simpl; lia]. }
  pose proof (iloc_nth means 0 Hlen) as H0.
  change (Z.of_nat 0) with 0 in H0.
  rewrite H0, (iloc_last means Hne).
  replace (Z.of_nat (List.length means) / 2)
    with (Z.of_nat (List.length means / 2))
    by (rewrite Nat2Z.inj_div; reflexivity).
  rewrite (iloc_nth means (List.length means / 2))
    by (apply Nat.div_lt; lia).
  cbv beta iota delta [bind ret].
  simpl. rewrite app_nil_r. reflexivity.
Qed.

Lemma last_default {A} (l : list A) (d d' : A) :
  l <> [] -> List.last l d = List.last l d'.
Proof.
  induction l as [|x l IH]; [congruence|]. intros _.
  destruct l as [|y l]; [reflexivity|]. apply IH. discriminate.
Qed.

(** The first mean is the mean of the least iteration, the last mean that
    of the greatest. *)
Lemma mean_series_ends env data first last_it :
  In first (map Iteration data) ->
  (forall r, In r data -> first <= Iteration r) ->
  In last_it (map Iteration data) ->
  (forall r, In r data -> Iteration r <= last_it) ->
  mean_series env data <> [] /\
  nth 0 (mean_series env data) F.nan = mean_at env data first /\
  List.last (mean_series env data) F.nan = mean_at env data last_it.
Proof.
  intros Hf Hmin Hl Hmax. rewrite mean_series_keys.
  assert (Hmin' : forall x, In x (map Iteration data) -> first <= x).
  { intros x Hx. apply in_map_iff in Hx. destruct Hx as [r [<- Hr]]. auto. }
  assert (Hmax' : forall x, In x (map Iteration data) -> x <= last_it).
  { intros x Hx. apply in_map_iff in Hx. destruct Hx as [r [<- Hr]]. auto. }
  destruct (sorted_unique_Z_hd _ first Hf Hmin') as [rest Hkeys].
  pose proof (sorted_unique_Z_last _ last_it Hl Hmax') as Hlast.
  split; [|split].
  - rewrite Hkeys. discriminate.
  - rewrite Hkeys. reflexivity.
  - rewrite (last_default _ F.nan (mean_at env data 0))
      by (rewrite Hkeys; discriminate).
    rewrite last_map, Hlast. reflexivity.
Qed.

(** *** The report as it is written *)

Lemma map_M_output {A B} (f : A -> M B) (l : list A) :
  (forall x, In x l -> output (f x) = []) -> output (map_M f l) = [].
Proof.
  induction l as [|x l IH]; intros H; simpl; [reflexivity|].
  assert (Hx : output (f x) = []) by (apply H; left; reflexivity).
  assert (Hl : output (map_M f l) = [])
    by (apply IH; intros y Hy; apply H; right; exact Hy).
  destruct (f x) as [ox [ex | y]]; simpl in *; subst; [reflexivity|].
  destruct (map_M f l) as [ol [el | ys]]; simpl in *; subst; reflexivity.
Qed.

Lemma load_file_output env self file :
  output (plot_convergence.load_file env self file) = [].
Proof.
  unfold plot_convergence.load_file, int_of_str.
  destruct (Py.int (plot_convergence.seed_suffix file)); reflexivity.
Qed.

(** A successful load prints one line. *)
Lemma load_convergence_data_output env self algorithm scale out data :
  plot_convergence.load_convergence_data env self algorithm scale
  = (out, inr (Some data)) ->
  exists text, out = [Print (Text text)].
Proof.
  unfold plot_convergence.load_convergence_data.
  destruct (glob env (plot_convergence.data_dir self)
              (plot_convergence.pattern_of algorithm scale)) as [|f fs] eqn:Hf.
  - discriminate.
  - pose proof (map_M_output (plot_convergence.load_file env self) (f :: fs)
                  (fun x _ => load_file_output env self x)) as Hout.
    destruct (map_M (plot_convergence.load_file env self) (f :: fs))
      as [o [e | all_data]]; simpl in Hout; subst o.
    + discriminate.
    + simpl. intros H. injection H as <- _. eexists. reflexivity.
Qed.

(** A load that does not raise either finds no file and returns [None],
    or finds files and returns a table. *)
Lemma load_convergence_data_cases env self algorithm scale :
  (forall e,
     outcome (plot_convergence.load_convergence_data env self algorithm scale)
     <> inl e) ->
  (has_files env self scale algorithm = false /\
   plot_convergence.load_convergence_data env self algorithm scale
   = ([no_file_warning algorithm scale], inr None)) \/
  (has_files env self scale algorithm = true /\
   exists text data,
     plot_convergence.load_convergence_data env self algorithm scale
     = ([Print (Text text)], inr (Some data))).
Proof.
  intros Hok. unfold has_files.
  destruct (glob env (plot_convergence.data_dir self)
              (plot_convergence.pattern_of algorithm scale)) as [|f fs] eqn:Hf.
  - left. split; [reflexivity|].
    apply load_convergence_data_absent. exact Hf.
  - right. split; [reflexivity|].
    destruct (plot_convergence.load_convergence_data env self algorithm scale)
      as [o [e | [data|]]] eqn:Hload.
    + exfalso. apply (Hok e). reflexivity.
    + destruct (load_convergence_data_output _ _ _ _ _ _ Hload) as [text ->].
      exists text, data. reflexivity.
    + exfalso.
      unfold plot_convergence.load_convergence_data in Hload.
      rewrite Hf in Hload.
      destruct (map_M (plot_convergence.load_file env self) (f :: fs))
        as [o' [e | all_data]]; simpl in Hload; discriminate.
Qed.

Lemma mean_series_nonempty env data :
  data <> [] -> mean_series env data <> [].
Proof.
  intros Hne. rewrite mean_series_keys.
  destruct data as [|r data]; [congruence|].
  assert (Hin : In (Iteration r)
                   (Pandas.sorted_unique_Z (map Iteration (r :: data))))
    by (apply sorted_unique_Z_In; left; reflexivity).
  destruct (Pandas.sorted_unique_Z (map Iteration (r :: data)));
    [destruct Hin | discriminate].
Qed.

Lemma report_one_result env self scale report_lines algorithm :
  (forall e,
     outcome (plot_convergence.load_convergence_data env self algorithm scale)
     <> inl e) ->
  (forall data,
     outcome (plot_convergence.load_convergence_data env self algorithm scale)
     = inr (Some data) -> data <> []) ->
  exists out,
    plot_convergence.report_one env self scale report_lines algorithm
    = (out, inr (report_lines ++ report_rows env self scale algorithm)%list) /\
    artifacts out = [].
Proof.
  intros Hok Hrows.
  destruct (load_convergence_data_cases env self algorithm scale Hok)
    as [[_ Hload] | [_ [text [data Hload]]]].
  - exists [no_file_warning algorithm scale]. split; [|reflexivity].
    unfold plot_convergence.report_one, report_rows. rewrite Hload. simpl.
    rewrite app_nil_r. reflexivity.
  - exists [Print (Text text)]. split; [|reflexivity].
    assert (Hne : data <> []) by (apply Hrows; rewrite Hload; reflexivity).
    rewrite (report_one_row env self scale report_lines algorithm _ data Hload
               (mean_series_nonempty env data Hne)).
    unfold report_rows. rewrite Hload. reflexivity.
Qed.

Lemma fold_report_result env self scale (algorithms : list string) :
  (forall a, In a algorithms ->
     forall e,
       outcome (plot_convergence.load_convergence_data env self a scale)
       <> inl e) ->
  (forall a, In a algorithms ->
     forall data,
       outcome (plot_convergence.load_convergence_data env self a scale)
       = inr (Some data) -> data <> []) ->
  forall report_lines,
  exists out,
    fold_M (plot_convergence.report_one env self scale) algorithms report_lines
    = (out, inr (report_lines
                 ++ flat_map (report_rows env self scale) algorithms)%list) /\
    artifacts out = [].
Proof.
  induction algorithms as [|a l IH]; intros Hok Hrows report_lines.
  - exists []. simpl. rewrite app_nil_r. split; reflexivity.
  - destruct (report_one_result env self scale report_lines a
                (Hok a (or_introl eq_refl)) (Hrows a (or_introl eq_refl)))
      as [o1 [H1 Ha1]].
    destruct (IH (fun x Hx => Hok x (or_intror Hx))
                 (fun x Hx => Hrows x (or_intror Hx))
                 (report_lines ++ report_rows env self scale a)%list)
      as [o2 [H2 Ha2]].
    exists (o1 ++ o2)%list. split.
    + simpl. rewrite H1. simpl. rewrite H2. rewrite <- app_assoc. reflexivity.
    + rewrite artifacts_app, Ha1, Ha2. reflexivity.
Qed.

Lemma report_rows_count env self scale (algorithms : list string) :
  (forall a, In a algorithms ->
     forall e,
       outcome (plot_convergence.load_convergence_data env self a scale)
       <> inl e) ->
  List.length (flat_map (report_rows env self scale) algorithms)
  = List.length (filter (has_files env self scale) algorithms).
Proof.
  induction algorithms as [|a l IH]; intros Hok; [reflexivity|].
  simpl. rewrite List.length_app.
  rewrite (IH (fun x Hx => Hok x (or_intror Hx))).
  destruct (load_convergence_data_cases env self a scale
              (Hok a (or_introl eq_refl)))
    as [[Hf Hload] | [Hf [text [data Hload]]]];
    rewrite Hf; unfold report_rows; rewrite Hload; reflexivity.
Qed.

(** When no load raises and no loaded table is empty, the report is
    written: the header, one row for each algorithm that has files, in the
    order of the list, and the footer. *)
Lemma convergence_report_written env self (algorithms : list string) scale :
  (forall a, In a algorithms ->
     forall e,
       outcome (plot_convergence.load_convergence_data env self a scale)
       <> inl e) ->
  (forall a, In a algorithms ->
     forall data,
       outcome (plot_convergence.load_convergence_data env self a scale)
       = inr (Some data) -> data <> []) ->
  let report_file :=
    joinpath (plot_convergence.output_dir self)
      ("convergence_report_" ++ scale ++ ".md") in
  write_outcome env report_file = None ->
  outcome (plot_convergence.generate_convergence_report env self algorithms scale)
  = inr tt /\
  artifacts
    (output (plot_convergence.generate_convergence_report env self
               algorithms scale))
  = [ WriteLines report_file
        (plot_convergence.report_header env scale
         ++ flat_map (report_rows env self scale) algorithms
         ++ plot_convergence.report_footer)%list ].
Proof.
  intros Hok Hrows report_file Hwrite.
  destruct (fold_report_result env self scale algorithms Hok Hrows
              (plot_convergence.report_header env scale)) as [out [Hfold Hart]].
  unfold plot_convergence.generate_convergence_report.
  rewrite Hfold. fold report_file.
  unfold bind at 1. cbv beta iota.
  unfold writelines. rewrite Hwrite.
  split; [reflexivity|].
  rewrite (output_bind_ok _ _
             (plot_convergence.report_header env scale
              ++ flat_map (report_rows env self scale) algorithms)%list)
    by reflexivity.
  rewrite artifacts_app.
  change (output (out, ?r)) with out. rewrite Hart, <- app_assoc.
  reflexivity.
Qed.

(** The report with the row of one algorithm of the list set apart. *)
Lemma convergence_report_row env self (before after : list string)
    algorithm scale out data :
  let algorithms := (before ++ algorithm :: after)%list in
  let report_file :=
    joinpath (plot_convergence.output_dir self)
      ("convergence_report_" ++ scale ++ ".md") in
  (forall a, In a algorithms ->
     forall e,
       outcome (plot_convergence.load_convergence_data env self a scale)
       <> inl e) ->
  (forall a, In a algorithms ->
     forall d,
       outcome (plot_convergence.load_convergence_data env self a scale)
       = inr (Some d) -> d <> []) ->
  write_outcome env report_file = None ->
  plot_convergence.load_convergence_data env self algorithm scale
  = (out, inr (Some data)) ->
  let means := mean_series env data in
  let initial := nth 0 means F.nan in
  let final := List.last means F.nan in
  let mid := nth (List.length means / 2) means F.nan in
  means <> [] /\
  exists rows_before rows_after,
    outcome (plot_convergence.generate_convergence_report env self
               algorithms scale) = inr tt /\
    artifacts
      (output (plot_convergence.generate_convergence_report env self
                 algorithms scale))
    = [ WriteLines report_file
          (plot_convergence.report_header env scale ++ rows_before
           ++ [plot_convergence.report_row algorithm initial final
                 (plot_convergence.improvement initial final)
                 (plot_convergence.half_improvement initial mid final)]
           ++ rows_after ++ plot_convergence.report_footer)%list ] /\
    List.length rows_before
    = List.length (filter (has_files env self scale) before).
Proof.
  intros algorithms report_file Hok Hrows Hwrite Hload means initial final mid.
  split.
  { apply mean_series_nonempty. apply (Hrows algorithm).
    - unfold algorithms. apply in_or_app. right. left. reflexivity.
    - rewrite Hload. reflexivity. }
  destruct (convergence_report_written env self algorithms scale Hok Hrows Hwrite)
    as [Hout Hart].
  exists (flat_map (report_rows env self scale) before),
         (flat_map (report_rows env self scale) after).
  split; [exact Hout|]. split.
  - rewrite Hart. unfold algorithms.
    rewrite flat_map_app. cbn [flat_map].
    unfold report_rows at 2. rewrite Hload. cbn [outcome snd].
    rewrite <- !app_assoc. reflexivity.
  - apply report_rows_count. intros a Ha. apply Hok.
    unfold algorithms. apply in_or_app. left. exact Ha.
Qed.

(** C8. When the convergence report is written (no load raises, no loaded
    table is empty, the file can be created), the row of an algorithm with
    data shows, in its fourth cell, the total improvement
    [(initial - final) / initial * 100] with two decimals and a percent
    sign, [initial] being the mean over the seeds at the first iteration
    and [final] the mean at the last one; for means 100.0 and 80.0 the
    row reads [| <algorithm> | 100.00 | 80.00 | 20.00% | ...].  The row
    comes after the rows of the algorithms listed before it that have
    files. *)
Theorem total_improvement_cell env self scale (before after : list string)
    algorithm out data first last_it :
  let algorithms := (before ++ algorithm :: after)%list in
  let report_file :=
    joinpath (plot_convergence.output_dir self)
      ("convergence_report_" ++ scale ++ ".md") in
  (forall a, In a algorithms ->
     forall e,
       outcome (plot_convergence.load_convergence_data env self a scale)
       <> inl e) ->
  (forall a, In a algorithms ->
     forall d,
       outcome (plot_convergence.load_convergence_data env self a scale)
       = inr (Some d) -> d <> []) ->
  write_outcome env report_file = None ->
  plot_convergence.load_convergence_data env self algorithm scale
  = (out, inr (Some data)) ->
  In first (map Iteration data) ->
  (forall r, In r data -> first <= Iteration r) ->
  In last_it (map Iteration data) ->
  (forall r, In r data -> Iteration r <= last_it) ->
  let initial := mean_at env data first in
  let final := mean_at env data last_it in
  let total := F.mul (F.div (F.sub initial final) initial) (F.of_Z 100) in
  exists rows_before speed rows_after,
    outcome (plot_convergence.generate_convergence_report env self
               algorithms scale) = inr tt /\
    artifacts
      (output (plot_convergence.generate_convergence_report env self
                 algorithms scale))
    = [ WriteLines report_file
          (plot_convergence.report_header env scale ++ rows_before
           ++ [Text ("| " ++ algorithm ++ " | " ++ F.format_f 2 initial ++ " | "
                     ++ F.format_f 2 final ++ " | "
                     ++ F.format_f 2 total ++ "% | "
                     ++ speed ++ "% |" ++ Py.nl)]
           ++ rows_after ++ plot_convergence.report_footer)%list ] /\
    List.length rows_before
    = List.length (filter (has_files env self scale) before) /\
    (initial = F.of_Z 100 -> final = F.of_Z 80 ->
     F.format_f 2 initial = "100.00" /\ F.format_f 2 final = "80.00" /\
     F.format_f 2 total = "20.00").
Proof.
  intros algorithms report_file Hok Hrows Hwrite Hload Hf Hmin Hl Hmax
    initial final total.
  destruct (mean_series_ends env data first last_it Hf Hmin Hl Hmax)
    as [_ [Hfirst Hlast]].
  destruct (convergence_report_row env self before after algorithm scale out
              data Hok Hrows Hwrite Hload)
    as [_ [rows_before [rows_after [Hout [Hart Hlen]]]]].
  rewrite Hfirst, Hlast in Hart. fold initial final in Hart.
  exists rows_before. eexists. exists rows_after.
  split; [exact Hout|]. split; [exact Hart|]. split; [exact Hlen|].
  intros Hi Hfin. unfold total. rewrite Hi, Hfin.
  repeat split; vm_compute; reflexivity.
Qed.

Lemma total_improvement_cell_witness :
  exists rows_before speed rows_after,
    artifacts
      (output (plot_convergence.generate_convergence_report env_two_seeds
                 cbo_plotter ["Random"; "CBO"; "GWO"] "M100"))
    = [ WriteLines "results/convergence_report_M100.md"
          (plot_convergence.report_header env_two_seeds "M100" ++ rows_before
           ++ [Text ("| CBO | 100.00 | 80.00 | 20.00% | " ++ speed ++ "% |"
                     ++ Py.nl)]
           ++ rows_after ++ plot_convergence.report_footer)%list ] /\
    rows_before = [].
Proof.
  assert (Hok : forall a, In a ["Random"; "CBO"; "GWO"] -> forall e,
             outcome (plot_convergence.load_convergence_data env_two_seeds
                        cbo_plotter a "M100") <> inl e)
    by (intros a [<- | [<- | [<- | []]]] e; vm_compute; discriminate).
  assert (Hrows : forall a, In a ["Random"; "CBO"; "GWO"] -> forall d,
             outcome (plot_convergence.load_convergence_data env_two_seeds
                        cbo_plotter a "M100") = inr (Some d) -> d <> []).
  { intros a [<- | [<- | [<- | []]]] d H; vm_compute in H; try discriminate.
    injection H as <-. discriminate. }
  pose proof (total_improvement_cell env_two_seeds cbo_plotter "M100"
                ["Random"] ["GWO"] "CBO" _ _ 0 2 Hok Hrows eq_refl eq_refl)
    as Hcell.
  destruct Hcell as [rows_before [speed [rows_after [_ [Hart [Hlen _]]]]]].
  - vm_compute. left. reflexivity.
  - intros r Hr. vm_compute in Hr.
    repeat (destruct Hr as [<- | Hr]; [vm_compute; discriminate|]).
    destruct Hr.
  - vm_compute. right. right. left. reflexivity.
  - intros r Hr. vm_compute in Hr.
    repeat (destruct Hr as [<- | Hr]; [vm_compute; discriminate|]).
    destruct Hr.
  - exists rows_before, speed, rows_after. cbn [app] in Hart. split.
    + rewrite Hart. vm_compute. reflexivity.
    + destruct rows_before; [reflexivity | discriminate Hlen].
Defined.

(** ** Division by a zero improvement *)

Lemma sub_of_equal (a c : float) :
  F.eqb a c = true ->
  (exists s, F.sub a c = S754_zero s) \/ F.sub a c = S754_nan.
Proof.
  intros H.
  assert (Hk : frank a = frank c).
  { apply key_eqb_rank. unfold F.key_eqb. rewrite H. reflexivity. }
  destruct a as [sa|sa| |sa ma ea], c as [sc|sc| |sc mc ec];
    try (destruct sa; discriminate); try (destruct sc; discriminate);
    try discriminate.
  - left. destruct sa, sc; eexists; reflexivity.
  - right. destruct sa, sc; try discriminate; reflexivity.
  - left. exists false.
    assert (Heq : sa = sc /\ ma = mc /\ ea = ec).
    { destruct sa, sc; simpl in Hk; try discriminate;
        injection Hk; intros; repeat split; try lia; congruence. }
    destruct Heq as [-> [-> ->]].
    unfold F.sub, SFsub. rewrite Z.sub_diag. reflexivity.
Qed.

Lemma div_by_zero_not_finite (n : float) (s : bool) :
  F.is_finite (F.div n (S754_zero s)) = false.
Proof. destruct n; reflexivity. Qed.

Lemma div_by_nan_not_finite (n : float) :
  F.is_finite (F.div n S754_nan) = false.
Proof. destruct n; reflexivity. Qed.

Lemma mul_100_not_finite (v : float) :
  F.is_finite v = false -> F.is_finite (F.mul v (F.of_Z 100)) = false.
Proof.
  destruct v as [s|s| |s m e]; try discriminate; intros _;
    [destruct s|]; reflexivity.
Qed.

(** With equal first and last means the speed is a quotient by zero: an
    infinity or NaN. *)
Lemma half_improvement_by_zero (initial mid final : float) :
  F.eqb initial final = true ->
  F.is_finite (plot_convergence.half_improvement initial mid final) = false.
Proof.
  intros H. unfold plot_convergence.half_improvement.
  apply mul_100_not_finite.
  destruct (sub_of_equal initial final H) as [[s ->] | ->].
  - apply div_by_zero_not_finite.
  - apply div_by_nan_not_finite.
Qed.

(** The text of a value that is not finite. *)
Lemma format_not_finite (d : nat) (x : float) :
  F.is_finite x = false ->
  F.format_f d x = "nan" \/ F.format_f d x = "inf" \/ F.format_f d x = "-inf".
Proof.
  destruct x as [s|s| |s m e]; try discriminate; intros _.
  - destruct s; [right; right | right; left]; reflexivity.
  - left. reflexivity.
Qed.

(** C2. When the convergence report is written, the row of an algorithm
    whose series of per-iteration means has K entries shows, in its last
    cell, the speed [(initial - mean[K / 2]) / (initial - final) * 100] with
    two decimals and a percent sign, [K / 2] rounded down.  Nothing guards
    the division: when the first and last means are equal the divisor is
    zero, the value is not a finite number, no exception is raised and the
    cell reads [nan%], [inf%] or [-inf%]. *)
Theorem convergence_speed_cell env self scale (before after : list string)
    algorithm out data :
  let algorithms := (before ++ algorithm :: after)%list in
  let report_file :=
    joinpath (plot_convergence.output_dir self)
      ("convergence_report_" ++ scale ++ ".md") in
  (forall a, In a algorithms ->
     forall e,
       outcome (plot_convergence.load_convergence_data env self a scale)
       <> inl e) ->
  (forall a, In a algorithms ->
     forall d,
       outcome (plot_convergence.load_convergence_data env self a scale)
       = inr (Some d) -> d <> []) ->
  write_outcome env report_file = None ->
  plot_convergence.load_convergence_data env self algorithm scale
  = (out, inr (Some data)) ->
  let means := mean_series env data in
  let K := List.length means in
  let initial := nth 0 means F.nan in
  let final := nth (K - 1) means F.nan in
  let mid := nth (K / 2) means F.nan in
  let speed :=
    F.mul (F.div (F.sub initial mid) (F.sub initial final)) (F.of_Z 100) in
  (1 <= K)%nat /\
  exists rows_before rows_after,
    outcome (plot_convergence.generate_convergence_report env self
               algorithms scale) = inr tt /\
    artifacts
      (output (plot_convergence.generate_convergence_report env self
                 algorithms scale))
    = [ WriteLines report_file
          (plot_convergence.report_header env scale ++ rows_before
           ++ [Text ("| " ++ algorithm ++ " | " ++ F.format_f 2 initial ++ " | "
                     ++ F.format_f 2 final ++ " | "
                     ++ F.format_f 2
                          (F.mul (F.div (F.sub initial final) initial)
                                 (F.of_Z 100))
                     ++ "% | " ++ F.format_f 2 speed ++ "% |" ++ Py.nl)]
           ++ rows_after ++ plot_convergence.report_footer)%list ] /\
    List.length rows_before
    = List.length (filter (has_files env self scale) before) /\
    (F.eqb initial final = true ->
     F.is_finite speed = false /\
     (F.format_f 2 speed = "nan" \/ F.format_f 2 speed = "inf" \/
      F.format_f 2 speed = "-inf")).
Proof.
  intros algorithms report_file Hok Hrows Hwrite Hload means K initial final
    mid speed.
  destruct (convergence_report_row env self before after algorithm scale out
              data Hok Hrows Hwrite Hload)
    as [Hne [rows_before [rows_after [Hout [Hart Hlen]]]]].
  fold means in Hne, Hart.
  rewrite <- (nth_pred_last means F.nan) in Hart.
  replace (Nat.pred (List.length means)) with (K - 1)%nat in Hart
    by (unfold K; lia).
  split.
  { unfold K. destruct means; [congruence | simpl; lia]. }
  exists rows_before, rows_after.
  split; [exact Hout|]. split; [exact Hart|]. split; [exact Hlen|].
  intros Heq.
  assert (Hinf : F.is_finite speed = false)
    by (apply half_improvement_by_zero; exact Heq).
  split; [exact Hinf | apply format_not_finite; exact Hinf].
Qed.

Lemma convergence_speed_cell_witness :
  (exists rows_before rows_after,
     artifacts
       (output (plot_convergence.generate_convergence_report env_flat
                  cbo_plotter ["CBO"] "M100"))
     = [ WriteLines "results/convergence_report_M100.md"
           (plot_convergence.report_header env_flat "M100" ++ rows_before
            ++ [Text ("| CBO | 50.00 | 50.00 | 0.00% | nan% |" ++ Py.nl)]
            ++ rows_after ++ plot_convergence.report_footer)%list ]) /\
  (exists rows_before rows_after,
     artifacts
       (output (plot_convergence.generate_convergence_report env_two_seeds
                  cbo_plotter ["CBO"] "M100"))
     = [ WriteLines "results/convergence_report_M100.md"
           (plot_convergence.report_header env_two_seeds "M100" ++ rows_before
            ++ [Text ("| CBO | 100.00 | 80.00 | 20.00% | 40.00% |" ++ Py.nl)]
            ++ rows_after ++ plot_convergence.report_footer)%list ]).
Proof.
  split.
  - assert (Hok : forall a, In a ["CBO"] -> forall e,
               outcome (plot_convergence.load_convergence_data env_flat
                          cbo_plotter a "M100") <> inl e)
      by (intros a [<- | []] e; vm_compute; discriminate).
    assert (Hrows : forall a, In a ["CBO"] -> forall d,
               outcome (plot_convergence.load_convergence_data env_flat
                          cbo_plotter a "M100") = inr (Some d) -> d <> []).
    { intros a [<- | []] d H; vm_compute in H.
      injection H as <-. discriminate. }
    destruct (convergence_speed_cell env_flat cbo_plotter "M100" [] []
                "CBO" _ _ Hok Hrows eq_refl eq_refl)
      as [_ [rows_before [rows_after [_ [Hart _]]]]].
    exists rows_before, rows_after. cbn [app] in Hart.
    rewrite Hart. vm_compute. reflexivity.
  - assert (Hok : forall a, In a ["CBO"] -> forall e,
               outcome (plot_convergence.load_convergence_data env_two_seeds
                          cbo_plotter a "M100") <> inl e)
      by (intros a [<- | []] e; vm_compute; discriminate).
    assert (Hrows : forall a, In a ["CBO"] -> forall d,
               outcome (plot_convergence.load_convergence_data env_two_seeds
                          cbo_plotter a "M100") = inr (Some d) -> d <> []).
    { intros a [<- | []] d H; vm_compute in H.
      injection H as <-. discriminate. }
    destruct (convergence_speed_cell env_two_seeds cbo_plotter "M100" [] []
                "CBO" _ _ Hok Hrows eq_refl eq_refl)
      as [_ [rows_before [rows_after [_ [Hart _]]]]].
    exists rows_before, rows_after. cbn [app] in Hart.
    rewrite Hart. vm_compute. reflexivity.
Defined.

(** ** Choosing the most recent sensitivity file *)














(** ** Exceptions at the top level of the scripts *)

Lemma try_except_handled {A} (body : M A) (clauses : list (clause A))
    (e : Py.exn) (handler : Py.exn -> M A) :
  outcome body = inl e ->
  select_clause clauses e = Some handler ->
  try_except body clauses
  = ((output body ++ output (handler e))%list, outcome (handler e)).
Proof.
  destruct body as [out [e' | a]]; simpl; intros H Hsel; inversion H; subst.
  rewrite Hsel. destruct (handler e). reflexivity.
Qed.

Lemma try_except_unhandled {A} (body : M A) (clauses : list (clause A))
    (e : Py.exn) :
  outcome body = inl e ->
  select_clause clauses e = None ->
  try_except body clauses = body.
Proof.
  destruct body as [out [e' | a]]; simpl; intros H Hsel; inversion H; subst.
  rewrite Hsel. reflexivity.
Qed.

(** C5, as the code has it.  In the sensitivity script an exception of
    class [Exception] other than [FileNotFoundError] raised in the [try]
    block of [main] is caught there: the message and the trace are
    printed, [main] returns normally and the exit status is 0.  The
    convergence script has no handler: an exception raised by any of its
    three generation steps is the outcome of [main], and the exit status
    is not 0. *)
Theorem exceptions_at_top_level env e :
  (outcome (plot_sensitivity.main_body env) = inl e ->
   Py.isinstance_FileNotFoundError e = false ->
   Py.isinstance_Exception e = true ->
   plot_sensitivity.main env
   = ((output (banner 29 "参数敏感性热力图绘制工具" 29)
       ++ output (plot_sensitivity.main_body env)
       ++ [Print (Text ("❌ 发生错误: " ++ Py.str_of_exn e)); PrintExc e])%list,
      inr tt) /\
   exit_status (plot_sensitivity.main env) = 0) /\
  (let single :=
     for_each plot_convergence.algorithms
       (fun a => plot_convergence.plot_single_algorithm env cbo_plotter a
                   plot_convergence.scale) in
   let comparison :=
     plot_convergence.plot_comparison env cbo_plotter
       plot_convergence.algorithms plot_convergence.scale in
   let report :=
     plot_convergence.generate_convergence_report env cbo_plotter
       plot_convergence.algorithms plot_convergence.scale in
   outcome single = inl e \/
   (outcome single = inr tt /\ outcome comparison = inl e) \/
   (outcome single = inr tt /\ outcome comparison = inr tt /\
    outcome report = inl e) ->
   outcome (plot_convergence.main env) = inl e /\
   exit_status (plot_convergence.main env) <> 0).
Proof.
  split.
  - intros Hbody Hfnf Hexc.
    assert (Hmain :
              plot_sensitivity.main env
              = ((output (banner 29 "参数敏感性热力图绘制工具" 29)
                  ++ output (plot_sensitivity.main_body env)
                  ++ [Print (Text ("❌ 发生错误: " ++ Py.str_of_exn e));
                      PrintExc e])%list,
                 inr tt)).
    { unfold plot_sensitivity.main.
      rewrite (try_except_handled _ _ e plot_sensitivity.on_exception Hbody).
      - reflexivity.
      - simpl. rewrite Hfnf, Hexc. reflexivity. }
    split; [exact Hmain | rewrite Hmain; reflexivity].
  - intros single comparison report H.
    assert (Hmain : outcome (plot_convergence.main env) = inl e).
    { unfold plot_convergence.main.
      rewrite (outcome_bind_ok _ _ tt) by reflexivity.
      rewrite (outcome_bind_ok _ _ cbo_plotter) by reflexivity.
      rewrite (outcome_bind_ok _ _ tt) by reflexivity.
      rewrite (outcome_bind_ok _ _ tt) by reflexivity.
      rewrite (outcome_bind_ok _ _ tt) by reflexivity.
      fold single.
      destruct H as [H1 | [[H1 H2] | [H1 [H2 H3]]]].
      - apply outcome_bind_raise. exact H1.
      - rewrite (outcome_bind_ok _ _ tt) by exact H1.
        rewrite (outcome_bind_ok _ _ tt) by reflexivity.
        apply outcome_bind_raise. exact H2.
      - rewrite (outcome_bind_ok _ _ tt) by exact H1.
        rewrite (outcome_bind_ok _ _ tt) by reflexivity.
        rewrite (outcome_bind_ok _ _ tt) by exact H2.
        rewrite (outcome_bind_ok _ _ tt) by reflexivity.
        apply outcome_bind_raise. exact H3. }
    split; [exact Hmain|]. unfold exit_status. rewrite Hmain.
    destruct e; discriminate.
Qed.

Lemma exceptions_at_top_level_witness :
  exit_status (plot_sensitivity.main env_duplicated) = 0 /\
  exit_status (plot_convergence.main env_bad_seed) <> 0.
Proof.
  split.
  - refine (proj2 (proj1 (exceptions_at_top_level env_duplicated
              (Py.ValueError "Index contains duplicate entries, cannot reshape"))
              _ _ _)).
    + vm_compute. reflexivity.
    + reflexivity.
    + reflexivity.
  - refine (proj2 (proj2 (exceptions_at_top_level env_bad_seed
              (Py.ValueError "invalid literal for int() with base 10: '_final'"))
              _)).
    left. vm_compute. reflexivity.
Defined.

(** C5, as stated, fails: with a (k, lambda) pair recorded twice the pivot
    raises [ValueError], the handler of [main] prints the trace, and the
    sensitivity script exits with status 0. *)
Lemma sensitivity_main_exits_zero :
  outcome (plot_sensitivity.main_body env_duplicated)
  = inl (Py.ValueError "Index contains duplicate entries, cannot reshape") /\
  In (PrintExc (Py.ValueError "Index contains duplicate entries, cannot reshape"))
     (output (plot_sensitivity.main env_duplicated)) /\
  ~ exit_status (plot_sensitivity.main env_duplicated) <> 0.
Proof.
  split; [vm_compute; reflexivity|]. split.
  - vm_compute. do 13 right. left. reflexivity.
  - intros H. apply H. vm_compute. reflexivity.
Qed.

(** ** The sensitivity report as it is written *)

(** Making sure the table is loaded prints at most, and keeps the
    directory and the file of the plotter. *)
Lemma ensure_data_result env self self' df :
  outcome (plot_sensitivity.ensure_data env self) = inr (self', df) ->
  plot_sensitivity.output_dir self' = plot_sensitivity.output_dir self /\
  plot_sensitivity.data_file self' = plot_sensitivity.data_file self /\
  artifacts (output (plot_sensitivity.ensure_data env self)) = [].
Proof.
  unfold plot_sensitivity.ensure_data.
  destruct (plot_sensitivity.data self) as [d|].
  - simpl. intros H. injection H as <- _. repeat split.
  - unfold plot_sensitivity.load_data, read_csv.
    destruct (read_sensitivity_csv env (plot_sensitivity.data_file self));
      simpl; intros H; [|discriminate].
    injection H as <- _. repeat split.
Qed.

Lemma generate_analysis_report_written env self self' df :
  outcome (plot_sensitivity.ensure_data env self) = inr (self', df) ->
  let report_file :=
    joinpath (plot_sensitivity.output_dir self')
      "sensitivity_analysis_report.md" in
  write_outcome env report_file = None ->
  outcome (plot_sensitivity.generate_analysis_report env self) = inr self' /\
  artifacts (output (plot_sensitivity.generate_analysis_report env self))
  = [WriteLines report_file (plot_sensitivity.report_lines env self' df)].
Proof.
  intros Hdata report_file Hwrite. subst report_file.
  destruct (ensure_data_result env self self' df Hdata) as [_ [_ Hart]].
  unfold plot_sensitivity.generate_analysis_report.
  destruct (plot_sensitivity.ensure_data env self) as [o [e | [s d]]];
    simpl in Hdata; [discriminate|].
  injection Hdata as -> ->. simpl in Hart.
  split.
  - rewrite (outcome_bind_ok _ _ (self', df)) by reflexivity.
    cbv beta iota. unfold writelines. rewrite Hwrite. reflexivity.
  - rewrite (output_bind_ok _ _ (self', df)) by reflexivity.
    cbv beta iota. unfold writelines. rewrite Hwrite.
    rewrite artifacts_app. change (output (o, ?r)) with o.
    rewrite Hart. reflexivity.
Qed.

(** The lines of the report around the section on the default
    configuration. *)
Lemma report_lines_around_default env self df :
  exists head tail,
    plot_sensitivity.report_lines env self df
    = (head
       ++ plot_sensitivity.default_section df
            (Pandas.sort_values_MeanMakespan env df)
       ++ Text ("## 4. 参数影响分析" ++ Py.nl ++ Py.nl) :: tail)%list.
Proof.
  unfold plot_sensitivity.report_lines.
  eexists (_ ++ _)%list. eexists.
  rewrite <- app_assoc. reflexivity.
Qed.

(** ** The reference configuration *)

Lemma default_config_In (df : DataFrame) (lr : Z * SensRow) :
  In lr (plot_sensitivity.default_config df) <->
  In lr df /\ k (snd lr) = 3 /\
  F.leb (F.dec 39 2) (lambda (snd lr)) = true /\
  F.leb (lambda (snd lr)) (F.dec 41 2) = true.
Proof.
  unfold plot_sensitivity.default_config, plot_sensitivity.is_default,
    Pandas.between.
  rewrite filter_In, !andb_true_iff, Z.eqb_eq. tauto.
Qed.

Lemma is_default_41 (row : SensRow) :
  k row = 3 -> lambda row = F.dec 41 2 -> plot_sensitivity.is_default row = true.
Proof.
  intros Hk Hl. unfold plot_sensitivity.is_default. rewrite Hk, Hl.
  vm_compute. reflexivity.
Qed.

(** C3, as the code has it.  The reference configuration is looked up
    among the rows with k = 3 and lambda in the closed window from 0.39 to
    0.41, both ends included.  The report [generate_analysis_report] writes
    holds the section on the default configuration, before the section on
    the influence of the parameters, exactly when a row is selected, and
    the section describes the first selected row of the table.  When the
    table has a row with k = 3 and lambda = 0.41, with or without a row at
    0.40, that row is selected, so the section is written; it describes
    that row when no row before it is selected. *)
Theorem default_lookup_closed_window env self self' (df : DataFrame) :
  outcome (plot_sensitivity.ensure_data env self) = inr (self', df) ->
  let report_file :=
    joinpath (plot_sensitivity.output_dir self')
      "sensitivity_analysis_report.md" in
  write_outcome env report_file = None ->
  let sorted_data := Pandas.sort_values_MeanMakespan env df in
  let section label row :=
    [ Text (Py.nl ++ "## 3. 默认配置 (k=3, λ=0.4) 分析" ++ Py.nl);
      Text ("- 排名: "
            ++ Py.str_of_Z (plot_sensitivity.rank_of label sorted_data) ++ "/"
            ++ Py.str_of_nat (List.length df) ++ Py.nl);
      Text ("- Mean Makespan: " ++ F.format_f 2 (MeanMakespan row) ++ Py.nl);
      Text ("- Std Makespan: " ++ F.format_f 2 (StdMakespan row) ++ Py.nl);
      Text ("- CV: " ++ F.format_f 2 (CV row) ++ "%" ++ Py.nl);
      Text ("- Min: " ++ F.format_f 2 (MinMakespan row) ++ Py.nl);
      Text ("- Max: " ++ F.format_f 2 (MaxMakespan row) ++ Py.nl ++ Py.nl) ] in
  let written lines :=
    artifacts (output (plot_sensitivity.generate_analysis_report env self))
    = [WriteLines report_file lines] in
  (forall lr,
     In lr (plot_sensitivity.default_config df) <->
     In lr df /\ k (snd lr) = 3 /\
     F.leb (F.dec 39 2) (lambda (snd lr)) = true /\
     F.leb (lambda (snd lr)) (F.dec 41 2) = true) /\
  outcome (plot_sensitivity.generate_analysis_report env self) = inr self' /\
  exists head tail,
    (plot_sensitivity.default_config df = [] ->
     written (head ++ Text ("## 4. 参数影响分析" ++ Py.nl ++ Py.nl) :: tail)%list) /\
    (forall label row others,
       plot_sensitivity.default_config df = (label, row) :: others ->
       written (head ++ section label row
                ++ Text ("## 4. 参数影响分析" ++ Py.nl ++ Py.nl) :: tail)%list) /\
    (forall label row,
       In (label, row) df -> k row = 3 -> lambda row = F.dec 41 2 ->
       In (label, row) (plot_sensitivity.default_config df) /\
       exists label' row' others,
         plot_sensitivity.default_config df = (label', row') :: others /\
         written (head ++ section label' row'
                  ++ Text ("## 4. 参数影响分析" ++ Py.nl ++ Py.nl) :: tail)%list) /\
    (forall before label row after,
       df = (before ++ (label, row) :: after)%list ->
       k row = 3 -> lambda row = F.dec 41 2 ->
       plot_sensitivity.default_config before = [] ->
       written (head ++ section label row
                ++ Text ("## 4. 参数影响分析" ++ Py.nl ++ Py.nl) :: tail)%list).
Proof.
  intros Hdata report_file Hwrite sorted_data section written.
  destruct (generate_analysis_report_written env self self' df Hdata Hwrite)
    as [Hout Hart].
  fold report_file in Hart.
  destruct (report_lines_around_default env self' df) as [head [tail Hlines]].
  fold sorted_data in Hlines. rewrite Hlines in Hart. clear Hlines.
  split; [apply default_config_In|]. split; [exact Hout|].
  exists head, tail.
  assert (Hfirst : forall label row others,
             plot_sensitivity.default_config df = (label, row) :: others ->
             written (head ++ section label row
                      ++ Text ("## 4. 参数影响分析" ++ Py.nl ++ Py.nl) :: tail)%list).
  { intros label row others Hsel. unfold written. rewrite Hart.
    unfold plot_sensitivity.default_section. rewrite Hsel. reflexivity. }
  split; [|split; [exact Hfirst|split]].
  - intros Hnone. unfold written. rewrite Hart.
    unfold plot_sensitivity.default_section. rewrite Hnone. reflexivity.
  - intros label row Hin Hk Hl.
    assert (Hsel : In (label, row) (plot_sensitivity.default_config df)).
    { apply filter_In. split; [exact Hin | apply is_default_41; assumption]. }
    split; [exact Hsel|].
    destruct (plot_sensitivity.default_config df) as [|[label' row'] others]
      eqn:Hconfig; [destruct Hsel|].
    exists label', row', others. split; [reflexivity|].
    apply (Hfirst label' row' others). reflexivity.
  - intros before label row after Hdf Hk Hl Hbefore.
    apply (Hfirst label row
             (plot_sensitivity.default_config after)).
    rewrite Hdf. unfold plot_sensitivity.default_config.
    rewrite filter_app. fold (plot_sensitivity.default_config before).
    rewrite Hbefore. simpl. rewrite (is_default_41 row Hk Hl). reflexivity.
Qed.

Lemma default_lookup_closed_window_witness :
  exists head tail,
    artifacts
      (output (plot_sensitivity.generate_analysis_report env_only_41 plotter_1))
    = [ WriteLines "results/sensitivity_analysis_report.md"
          (head
           ++ [ Text (Py.nl ++ "## 3. 默认配置 (k=3, λ=0.4) 分析" ++ Py.nl);
                Text ("- 排名: 3/3" ++ Py.nl);
                Text ("- Mean Makespan: 101.00" ++ Py.nl);
                Text ("- Std Makespan: 1.00" ++ Py.nl);
                Text ("- CV: 1.00%" ++ Py.nl);
                Text ("- Min: 1.00" ++ Py.nl);
                Text ("- Max: 1.00" ++ Py.nl ++ Py.nl) ]
           ++ Text ("## 4. 参数影响分析" ++ Py.nl ++ Py.nl) :: tail)%list ].
Proof.
  destruct (default_lookup_closed_window env_only_41 plotter_1 _ _
              eq_refl eq_refl)
    as [_ [_ [head [tail [_ [_ [_ H41]]]]]]].
  exists head, tail.
  exact (H41 [(0, sens_row 1 40 90)] 1 (sens_row 3 41 101)
           [(2, sens_row 3 50 95)] eq_refl eq_refl eq_refl eq_refl).
Defined.

(** C3, as stated, fails: the window is not half-open.  Rows at 0.39 and
    at 0.41 are both selected, so the selection is neither that of the
    window closed at 0.39 and open at 0.41 nor that of the window open at
    0.39 and closed at 0.41; and in this table, which has a row at 0.41 and
    none at 0.40, the section is written for the row at 0.39. *)
Lemma default_window_not_half_open :
  plot_sensitivity.default_config window_ends = window_ends /\
  plot_sensitivity.default_section window_ends
    (Pandas.sort_values_MeanMakespan env_window_ends window_ends)
  = plot_sensitivity.default_lines 1 2 (sens_row 3 39 100) /\
  ~ (forall df,
       plot_sensitivity.default_config df
       = filter (fun r => (Z.eqb (k (snd r)) 3
                           && in_window_right_open (lambda (snd r)))%bool) df) /\
  ~ (forall df,
       plot_sensitivity.default_config df
       = filter (fun r => (Z.eqb (k (snd r)) 3
                           && in_window_left_open (lambda (snd r)))%bool) df) /\
  exists head tail,
    artifacts
      (output (plot_sensitivity.generate_analysis_report env_window_ends
                 plotter_1))
    = [ WriteLines "results/sensitivity_analysis_report.md"
          (head
           ++ [ Text (Py.nl ++ "## 3. 默认配置 (k=3, λ=0.4) 分析" ++ Py.nl);
                Text ("- 排名: 1/2" ++ Py.nl);
                Text ("- Mean Makespan: 100.00" ++ Py.nl);
                Text ("- Std Makespan: 1.00" ++ Py.nl);
                Text ("- CV: 1.00%" ++ Py.nl);
                Text ("- Min: 1.00" ++ Py.nl);
                Text ("- Max: 1.00" ++ Py.nl ++ Py.nl) ]
           ++ Text ("## 4. 参数影响分析" ++ Py.nl ++ Py.nl) :: tail)%list ].
Proof.
  split; [vm_compute; reflexivity|]. split; [vm_compute; reflexivity|].
  split; [|split];
    try (intros H; specialize (H window_ends); vm_compute in H; discriminate).
  exists (firstn 12 (plot_sensitivity.report_lines env_window_ends plotter_1
                       window_ends)),
         (skipn 20 (plot_sensitivity.report_lines env_window_ends plotter_1
                      window_ends)).
  vm_compute. reflexivity.
Qed.

(** ** Sorting the table *)

Lemma filter_split_perm {A} (p : A -> bool) (l : list A) :
  Permutation (filter (fun a => negb (p a)) l ++ filter p l) l.
Proof.
  induction l as [|x l IH]; simpl; [constructor|].
  destruct (p x); simpl.
  - eapply Permutation_trans; [apply Permutation_sym, Permutation_middle|].
    apply perm_skip. exact IH.
  - apply perm_skip. exact IH.
Qed.

Lemma sort_floats_by_perm {A} (key : A -> float) (l : list A) :
  Permutation (Pandas.sort_floats_by key l) l.
Proof.
  unfold Pandas.sort_floats_by.
  eapply Permutation_trans; [|apply (filter_split_perm (fun a => F.is_nan (key a)))].
  apply Permutation_app_tail. apply sort_by_perm.
Qed.

Lemma StronglySorted_app {A} (R : A -> A -> Prop) (l1 l2 : list A) :
  StronglySorted R l1 -> StronglySorted R l2 ->
  (forall x y, In x l1 -> In y l2 -> R x y) ->
  StronglySorted R (l1 ++ l2).
Proof.
  intros H1 H2 H. induction H1 as [|x l1 Hs IH Hx]; simpl; [exact H2|].
  constructor.
  - apply IH. intros a b Ha Hb. apply H; [right|]; assumption.
  - apply Forall_app. split; [exact Hx|].
    apply Forall_forall. intros y Hy. apply H; [left; reflexivity | exact Hy].
Qed.

(** In the sorted table every row is followed only by rows that are not
    smaller, the rows without a value (NaN) coming last. *)
Lemma sort_floats_by_sorted {A} (key : A -> float) (l : list A) :
  StronglySorted
    (fun x y => F.leb (key x) (key y) = true \/ F.is_nan (key y) = true)
    (Pandas.sort_floats_by key l).
Proof.
  unfold Pandas.sort_floats_by. apply StronglySorted_app.
  - eapply StronglySorted_ind with
      (P := StronglySorted
              (fun x y => F.leb (key x) (key y) = true \/ F.is_nan (key y) = true)).
    + constructor.
    + intros a l' _ IH Ha. constructor; [exact IH|].
      eapply Forall_impl; [|exact Ha]. intros b Hb. left. exact Hb.
    + apply (sort_by_sorted (fun a b => F.leb (key a) (key b))).
      * intros a b c. apply leb_trans.
      * intros a b Ha Hb. apply filter_In in Ha, Hb.
        apply leb_total; apply negb_true_iff; tauto.
  - induction l as [|x l IH]; simpl; [constructor|].
    destruct (F.is_nan (key x)) eqn:Hx; [|exact IH].
    constructor; [exact IH|].
    apply Forall_forall. intros y Hy. apply filter_In in Hy. right. tauto.
  - intros x y _ Hy. apply filter_In in Hy. right. tauto.
Qed.

Lemma StronglySorted_firstn_skipn {A} (R : A -> A -> Prop) (n : nat)
    (l : list A) :
  StronglySorted R l ->
  forall x y, In x (firstn n l) -> In y (skipn n l) -> R x y.
Proof.
  intros Hs. revert n. induction Hs as [|a l Hs IH Ha]; intros n x y Hx Hy.
  - destruct n; destruct Hx.
  - destruct n as [|n]; [destruct Hx|]. simpl in Hx, Hy.
    destruct Hx as [<- | Hx].
    + rewrite Forall_forall in Ha. apply Ha.
      rewrite <- (firstn_skipn n l). apply in_or_app. right. exact Hy.
    + apply (IH n); assumption.
Qed.

Lemma In_firstn_In {A} (n : nat) (l : list A) (x : A) :
  In x (firstn n l) -> In x l.
Proof.
  intros H. rewrite <- (firstn_skipn n l). apply in_or_app. left. exact H.
Qed.

Lemma range_index_from {A} (rows : list A) (s : nat) (i : Z) (row : A) :
  In (i, row) (combine (map Z.of_nat (seq s (List.length rows))) rows) ->
  exists pos, i = Z.of_nat (s + pos) /\ nth_error rows pos = Some row.
Proof.
  revert s. induction rows as [|r rows IH]; intros s H; simpl in H.
  - destruct H.
  - destruct H as [H | H].
    + injection H as <- <-. exists 0%nat.
      split; [f_equal; lia | reflexivity].
    + destruct (IH (S s) H) as [pos [-> Hpos]].
      exists (S pos). split; [f_equal; lia | exact Hpos].
Qed.

(** A label of the table read from the file is the position of its row. *)
Lemma range_index_In {A} (rows : list A) (i : Z) (row : A) :
  In (i, row) (Pandas.range_index rows) ->
  exists pos, i = Z.of_nat pos /\ nth_error rows pos = Some row.
Proof. intros H. apply (range_index_from rows 0 i row H). Qed.

Lemma filter_all {A} (p : A -> bool) (l : list A) :
  (forall x, In x l -> p x = true) -> filter p l = l.
Proof.
  induction l as [|x l IH]; intros H; simpl; [reflexivity|].
  rewrite (H x) by (left; reflexivity). f_equal.
  apply IH. intros y Hy. apply H. right. exact Hy.
Qed.

Lemma filter_none {A} (p : A -> bool) (l : list A) :
  (forall x, In x l -> p x = false) -> filter p l = [].
Proof.
  induction l as [|x l IH]; intros H; simpl; [reflexivity|].
  rewrite (H x) by (left; reflexivity).
  apply IH. intros y Hy. apply H. right. exact Hy.
Qed.

Lemma range_index_firstn5 (r0 r1 r2 r3 r4 : SensRow) (rest : list SensRow) :
  firstn 5 (Pandas.range_index (r0 :: r1 :: r2 :: r3 :: r4 :: rest))
  = [(0, r0); (1, r1); (2, r2); (3, r3); (4, r4)].
Proof. reflexivity. Qed.

Lemma map_fst_range_index {A} (rows : list A) :
  map fst (Pandas.range_index rows)
  = map Z.of_nat (seq 0 (List.length rows)).
Proof.
  unfold Pandas.range_index. generalize 0%nat.
  induction rows as [|r rows IH]; intros s; simpl; [reflexivity|].
  f_equal. apply IH.
Qed.

Lemma firstn_seq_min (n start len : nat) :
  firstn n (seq start len) = seq start (Nat.min n len).
Proof.
  revert start len. induction n as [|n IH]; intros start len; [reflexivity|].
  destruct len as [|len]; [reflexivity|]. simpl. f_equal. apply IH.
Qed.

Lemma nth_error_label (rows : list SensRow) (n : nat) (label : Z)
    (row : SensRow) :
  label + 1 = Z.of_nat n + 1 ->
  (exists pos, label = Z.of_nat pos /\ nth_error rows pos = Some row) ->
  label = Z.of_nat n /\ nth_error rows n = Some row.
Proof.
  intros Hl [pos [Hpos Hrow]].
  assert (pos = n) by lia. subst pos. split; [lia | exact Hrow].
Qed.

Lemma take_incl {A} (l : list A) (indexer : list nat) (x : A) :
  In x (Pandas.take l indexer) -> In x l.
Proof.
  unfold Pandas.take. intros H. apply in_flat_map in H.
  destruct H as [i [_ Hi]].
  destruct (nth_error l i) as [y|] eqn:Hy; [|destruct Hi].
  destruct Hi as [<- | []]. apply (nth_error_In _ _ Hy).
Qed.

Lemma take_seq_from {A} (l pre : list A) :
  Pandas.take (pre ++ l) (seq (List.length pre) (List.length l)) = l.
Proof.
  revert pre. induction l as [|x l IH]; intros pre; [reflexivity|].
  cbn [List.length seq Pandas.take flat_map].
  rewrite nth_error_app2 by lia. rewrite Nat.sub_diag. cbn [nth_error app].
  f_equal.
  replace (pre ++ x :: l)%list with ((pre ++ [x]) ++ l)%list
    by (rewrite <- app_assoc; reflexivity).
  replace (S (List.length pre)) with (List.length (pre ++ [x])%list)
    by (rewrite List.length_app; simpl; lia).
  apply IH.
Qed.

Lemma take_all {A} (l : list A) :
  Pandas.take l (seq 0 (List.length l)) = l.
Proof. apply (take_seq_from l []). Qed.

Lemma take_perm {A} (l : list A) (indexer : list nat) :
  Permutation indexer (seq 0 (List.length l)) ->
  Permutation (Pandas.take l indexer) l.
Proof.
  intros H. rewrite <- (take_all l) at 2.
  unfold Pandas.take. apply Permutation_flat_map. exact H.
Qed.

Lemma nth_map_key {A} (key : A -> float) (l : list A) (i : nat) (x : A) :
  nth_error l i = Some x -> nth i (map key l) F.nan = key x.
Proof.
  intros H. apply nth_error_nth. rewrite nth_error_map, H. reflexivity.
Qed.

Lemma take_sorted {A} (key : A -> float) (l : list A) (indexer : list nat) :
  StronglySorted
    (fun i j => F.leb (nth i (map key l) F.nan) (nth j (map key l) F.nan) = true)
    indexer ->
  StronglySorted (fun x y => F.leb (key x) (key y) = true)
    (Pandas.take l indexer).
Proof.
  induction 1 as [|i indexer Hs IH Hi]; [constructor|].
  cbn [Pandas.take flat_map]. fold (Pandas.take l indexer).
  destruct (nth_error l i) as [x|] eqn:Hx; [|exact IH].
  cbn [app]. constructor; [exact IH|].
  apply Forall_forall. intros y Hy.
  unfold Pandas.take in Hy. apply in_flat_map in Hy.
  destruct Hy as [j [Hj Hy]].
  destruct (nth_error l j) as [z|] eqn:Hz; [|destruct Hy].
  destruct Hy as [<- | []].
  rewrite Forall_forall in Hi. specialize (Hi j Hj).
  rewrite (nth_map_key key l i x Hx), (nth_map_key key l j z Hz) in Hi.
  exact Hi.
Qed.

Lemma sort_values_incl env (df : DataFrame) (x : Z * SensRow) :
  In x (Pandas.sort_values_MeanMakespan env df) -> In x df.
Proof.
  unfold Pandas.sort_values_MeanMakespan. intros H. apply in_app_or in H.
  destruct H as [H | H].
  - apply take_incl in H. apply filter_In in H. tauto.
  - apply filter_In in H. tauto.
Qed.

Lemma no_nan_keys (df : DataFrame) (x : float) :
  In x (map (fun r : Z * SensRow => MeanMakespan (snd r))
          (filter (fun r => negb (F.is_nan (MeanMakespan (snd r)))) df)) ->
  F.is_nan x = false.
Proof.
  intros H. apply in_map_iff in H. destruct H as [r [<- Hr]].
  apply filter_In in Hr. apply negb_true_iff. tauto.
Qed.

(** With an [argsort] that sorts, the sorted table holds the rows of the
    table, every row is followed only by rows that are not smaller, and
    the rows without a mean come last. *)
Lemma sort_values_perm env (df : DataFrame) :
  argsort_sorts env ->
  Permutation (Pandas.sort_values_MeanMakespan env df) df.
Proof.
  intros Hsort. unfold Pandas.sort_values_MeanMakespan.
  eapply Permutation_trans;
    [|apply (filter_split_perm (fun r => F.is_nan (MeanMakespan (snd r))))].
  apply Permutation_app_tail. apply take_perm.
  destruct (Hsort _ (no_nan_keys df)) as [Hperm _].
  rewrite List.length_map in Hperm. exact Hperm.
Qed.

Lemma sort_values_sorted env (df : DataFrame) :
  argsort_sorts env ->
  StronglySorted
    (fun x y =>
       F.leb (MeanMakespan (snd x)) (MeanMakespan (snd y)) = true \/
       F.is_nan (MeanMakespan (snd y)) = true)
    (Pandas.sort_values_MeanMakespan env df).
Proof.
  intros Hsort. unfold Pandas.sort_values_MeanMakespan.
  apply StronglySorted_app.
  - destruct (Hsort _ (no_nan_keys df)) as [_ Hsorted].
    apply (take_sorted (fun r : Z * SensRow => MeanMakespan (snd r))) in Hsorted.
    induction Hsorted as [|a l' _ IH Ha]; constructor; [exact IH|].
    eapply Forall_impl; [|exact Ha]. intros b Hb. left. exact Hb.
  - induction df as [|x l IH]; simpl; [constructor|].
    destruct (F.is_nan (MeanMakespan (snd x))) eqn:Hx; [|exact IH].
    constructor; [exact IH|].
    apply Forall_forall. intros y Hy. apply filter_In in Hy. right. tauto.
  - intros x y _ Hy. apply filter_In in Hy. right. tauto.
Qed.

(** *** The insertion [argsort] of the examples sorts *)

Lemma map_fst_combine {A B} (a : list A) (b : list B) :
  List.length a = List.length b -> map fst (combine a b) = a.
Proof.
  revert b. induction a as [|x a IH]; intros [|y b] H; try discriminate;
    [reflexivity|].
  simpl. f_equal. apply IH. simpl in H. lia.
Qed.

Lemma combine_seq_nth {A} (l : list A) (s i : nat) (x d : A) :
  In (i, x) (combine (seq s (List.length l)) l) ->
  (s <= i)%nat /\ nth (i - s) l d = x.
Proof.
  revert s. induction l as [|y l IH]; intros s H; [destruct H|].
  simpl in H. destruct H as [H | H].
  - injection H as <- <-. rewrite Nat.sub_diag. split; [lia | reflexivity].
  - destruct (IH (S s) H) as [Hs Hn]. split; [lia|].
    replace (i - s)%nat with (S (i - S s)) by lia. exact Hn.
Qed.

Lemma StronglySorted_map_in {A B} (f : A -> B) (R : A -> A -> Prop)
    (R' : B -> B -> Prop) (l : list A) :
  (forall a b, In a l -> In b l -> R a b -> R' (f a) (f b)) ->
  StronglySorted R l -> StronglySorted R' (map f l).
Proof.
  intros H Hs. induction Hs as [|a l Hs IH Ha]; [constructor|].
  simpl. constructor.
  - apply IH. intros x y Hx Hy. apply H; right; assumption.
  - apply Forall_forall. intros y Hy. apply in_map_iff in Hy.
    destruct Hy as [b [<- Hb]]. rewrite Forall_forall in Ha.
    apply H; [left; reflexivity | right; exact Hb | apply Ha; exact Hb].
Qed.

Lemma insertion_argsort_sorts (l : list float) :
  (forall x, In x l -> F.is_nan x = false) -> sorts l (insertion_argsort l).
Proof.
  intros Hnan. unfold sorts, insertion_argsort.
  set (pairs := combine (seq 0 (List.length l)) l).
  set (leb_snd := fun a b : nat * float => F.leb (snd a) (snd b)).
  assert (Hperm : Permutation (Pandas.sort_by leb_snd pairs) pairs)
    by apply sort_by_perm.
  split.
  - rewrite <- (map_fst_combine (seq 0 (List.length l)) l)
      by (rewrite length_seq; reflexivity).
    apply Permutation_map. exact Hperm.
  - apply (StronglySorted_map_in fst (fun a b => leb_snd a b = true)).
    + intros [i x] [j y] Hi Hj Hxy.
      apply (Permutation_in _ Hperm) in Hi, Hj.
      destruct (combine_seq_nth l 0 i x F.nan Hi) as [_ Hx].
      destruct (combine_seq_nth l 0 j y F.nan Hj) as [_ Hy].
      rewrite Nat.sub_0_r in Hx, Hy. simpl. rewrite Hx, Hy. exact Hxy.
    + apply sort_by_sorted.
      * intros a b c. apply leb_trans.
      * intros [i x] [j y] Hi Hj. unfold leb_snd. simpl.
        apply leb_total; apply Hnan.
        -- apply (in_combine_r _ _ _ _ Hi).
        -- apply (in_combine_r _ _ _ _ Hj).
Qed.

Lemma example_env_sorts conv sens unwritable :
  argsort_sorts (example_env conv sens unwritable).
Proof. intros l H. apply insertion_argsort_sorts. exact H. Qed.

(** ** The table of best configurations *)

Lemma top_rows_in_input env (rows : list SensRow) (label : Z) (row : SensRow) :
  In (label, row)
     (Pandas.head 5
        (Pandas.sort_values_MeanMakespan env (Pandas.range_index rows))) ->
  exists pos, label = Z.of_nat pos /\ nth_error rows pos = Some row.
Proof.
  intros H. apply In_firstn_In in H. apply sort_values_incl in H.
  apply range_index_In. exact H.
Qed.

(** *** The text of an integer determines it *)

Lemma string_of_uint_inj (d d' : Decimal.uint) :
  d <> Decimal.Nil -> d' <> Decimal.Nil ->
  NilZero.string_of_uint d = NilZero.string_of_uint d' -> d = d'.
Proof.
  intros Hd Hd' H.
  apply (f_equal NilZero.uint_of_string) in H.
  rewrite !NilZero.usu in H by assumption. congruence.
Qed.

Lemma string_of_uint_head (d : Decimal.uint) (rest : string) :
  NilZero.string_of_uint d <> String "-" rest.
Proof. destruct d; simpl; intros H; discriminate H. Qed.

Lemma str_of_Z_inj (a b : Z) : Py.str_of_Z a = Py.str_of_Z b -> a = b.
Proof.
  destruct a as [|p|p], b as [|q|q]; simpl; intros H;
    try reflexivity; try discriminate H.
  - exfalso. apply (DecimalPos.Unsigned.to_uint_nonzero q).
    symmetry. apply string_of_uint_inj;
      [discriminate | apply DecimalPos.Unsigned.to_uint_nonnil | exact H].
  - exfalso. apply (DecimalPos.Unsigned.to_uint_nonzero p).
    symmetry. apply string_of_uint_inj;
      [discriminate | apply DecimalPos.Unsigned.to_uint_nonnil |].
    symmetry. exact H.
  - f_equal. apply DecimalPos.Unsigned.to_uint_inj.
    apply string_of_uint_inj;
      [apply DecimalPos.Unsigned.to_uint_nonnil
      | apply DecimalPos.Unsigned.to_uint_nonnil | exact H].
  - exfalso. apply (string_of_uint_head _ _ H).
  - exfalso. symmetry in H. apply (string_of_uint_head _ _ H).
  - f_equal. apply DecimalPos.Unsigned.to_uint_inj.
    injection H as H.
    apply string_of_uint_inj;
      [apply DecimalPos.Unsigned.to_uint_nonnil
      | apply DecimalPos.Unsigned.to_uint_nonnil | exact H].
Qed.

(** *** Tables in strictly ascending order *)

Lemma ltb_rank (a b : float) :
  SFltb a b = true <->
  F.is_nan a = false /\ F.is_nan b = false /\ ~ lex_le (frank b) (frank a).
Proof.
  unfold SFltb, SFcompare, lex_le.
  destruct a as [[]|[]| |[] m1 e1], b as [[]|[]| |[] m2 e2]; simpl;
    try (split; [intros H; try discriminate; repeat split; lia
                | intros [H1 [H2 H3]]; try discriminate; try reflexivity; lia]).
  - change (Pos.compare_cont Eq m1 m2) with (Pos.compare m1 m2).
    destruct (Z.compare_spec e1 e2); destruct (Pos.compare_spec m1 m2); simpl;
      (split; [intros H1; try discriminate; repeat split; lia
              | intros [H1 [H2 H3]]; try reflexivity; lia]).
  - change (Pos.compare_cont Eq m1 m2) with (Pos.compare m1 m2).
    destruct (Z.compare_spec e1 e2); destruct (Pos.compare_spec m1 m2); simpl;
      (split; [intros H1; try discriminate; repeat split; lia
              | intros [H1 [H2 H3]]; try reflexivity; lia]).
Qed.

Lemma ltb_not_leb (a b : float) : SFltb a b = true -> F.leb b a = false.
Proof.
  intros H. apply ltb_rank in H. destruct H as [_ [_ H]].
  destruct (F.leb b a) eqn:Hle; [|reflexivity].
  apply leb_rank in Hle. tauto.
Qed.

Lemma ltb_trans (a b c : float) :
  SFltb a b = true -> SFltb b c = true -> SFltb a c = true.
Proof.
  rewrite !ltb_rank. unfold lex_le.
  destruct (frank a) as [[a1 a2] a3], (frank b) as [[b1 b2] b3],
           (frank c) as [[c1 c2] c3].
  intros [Ha [Hb H1]] [_ [Hc H2]]. repeat split; try assumption. lia.
Qed.

Lemma strictly_ascending_sorted (df : DataFrame) :
  is_strictly_ascending df = true ->
  StronglySorted
    (fun a b => SFltb (MeanMakespan (snd a)) (MeanMakespan (snd b)) = true) df /\
  (forall x, In x df -> F.is_nan (MeanMakespan (snd x)) = false).
Proof.
  induction df as [|r df IH]; intros H.
  - split; [constructor | intros x []].
  - simpl in H. apply andb_true_iff in H. destruct H as [H1 H2].
    destruct (IH H2) as [Hs Hnan].
    destruct df as [|r' df].
    + split.
      * constructor; [constructor | constructor].
      * intros x [<- | []]. apply negb_true_iff. exact H1.
    + split.
      * constructor; [exact Hs|]. constructor; [exact H1|].
        inversion Hs as [|? ? _ Hall]; subst.
        eapply Forall_impl; [|exact Hall].
        intros b Hb. apply (ltb_trans _ _ _ H1 Hb).
      * intros x [<- | Hx]; [|apply Hnan; exact Hx].
        apply ltb_rank in H1. tauto.
Qed.

Lemma StronglySorted_nth {A} (R : A -> A -> Prop) (l : list A) (d : A)
    (i j : nat) :
  StronglySorted R l -> (i < j)%nat -> (j < List.length l)%nat ->
  R (nth i l d) (nth j l d).
Proof.
  intros Hs. revert i j. induction Hs as [|a l Hs IH Hall]; intros i j Hij Hj.
  - simpl in Hj. lia.
  - destruct j as [|j]; [lia|]. simpl in Hj.
    destruct i as [|i].
    + simpl. rewrite Forall_forall in Hall. apply Hall. apply nth_In. lia.
    + simpl. apply IH; lia.
Qed.

Lemma StronglySorted_seq (s n : nat) : StronglySorted lt (seq s n).
Proof.
  revert s. induction n as [|n IH]; intros s; simpl; constructor.
  - apply IH.
  - apply Forall_forall. intros x Hx. apply in_seq in Hx. lia.
Qed.

(** Two lists in strictly ascending order with the same elements are
    equal. *)
Lemma sorted_perm_eq (l l' : list nat) :
  StronglySorted lt l -> StronglySorted lt l' -> Permutation l l' -> l = l'.
Proof.
  intros Hs. revert l'. induction Hs as [|x l Hs IH Hx]; intros l' Hs' Hp.
  - apply Permutation_nil in Hp. congruence.
  - destruct l' as [|y l'];
      [apply Permutation_sym, Permutation_nil in Hp; discriminate|].
    inversion Hs' as [|? ? Hs'' Hy]; subst.
    rewrite Forall_forall in Hx, Hy.
    assert (x = y).
    { assert (Hxin : In x (y :: l'))
        by (apply (Permutation_in _ Hp); left; reflexivity).
      assert (Hyin : In y (x :: l))
        by (apply (Permutation_in _ (Permutation_sym Hp)); left; reflexivity).
      destruct Hxin as [Hxy | Hxin]; [congruence|].
      destruct Hyin as [Hyx | Hyin]; [congruence|].
      specialize (Hx y Hyin). specialize (Hy x Hxin). lia. }
    subst y. f_equal. apply IH; [exact Hs''|].
    apply (Permutation_cons_inv Hp).
Qed.

(** The only positions that sort values in strictly ascending order are
    0, 1, 2, ... *)
Lemma sorted_indexer_is_seq (keys : list float) (indexer : list nat) :
  StronglySorted (fun a b => SFltb a b = true) keys ->
  sorts keys indexer -> indexer = seq 0 (List.length keys).
Proof.
  intros Hkeys [Hperm Hsorted].
  apply sorted_perm_eq; [|apply StronglySorted_seq | exact Hperm].
  assert (Hnd : NoDup indexer)
    by (apply (Permutation_NoDup (Permutation_sym Hperm)), seq_NoDup).
  assert (Hrange : forall i, In i indexer -> (i < List.length keys)%nat).
  { intros i Hi. apply (Permutation_in _ Hperm) in Hi.
    apply in_seq in Hi. lia. }
  clear Hperm.
  induction Hsorted as [|i rest Hs IH Hi]; [constructor|].
  inversion Hnd as [|? ? Hnotin Hnd']; subst.
  constructor.
  - apply IH; [exact Hnd'|]. intros j Hj. apply Hrange. right. exact Hj.
  - apply Forall_forall. intros j Hj.
    rewrite Forall_forall in Hi. specialize (Hi j Hj).
    destruct (Nat.lt_trichotomy i j) as [Hlt | [Heq | Hgt]].
    + exact Hlt.
    + subst j. contradiction.
    + exfalso.
      assert (Hji : SFltb (nth j keys F.nan) (nth i keys F.nan) = true).
      { apply (StronglySorted_nth _ keys F.nan j i Hkeys Hgt).
        apply Hrange. left. reflexivity. }
      apply ltb_not_leb in Hji. congruence.
Qed.

(** A table in strictly ascending order is its own sorted table. *)
Lemma sort_values_strictly_ascending env (df : DataFrame) :
  argsort_sorts env -> is_strictly_ascending df = true ->
  Pandas.sort_values_MeanMakespan env df = df.
Proof.
  intros Hsort Hasc.
  destruct (strictly_ascending_sorted df Hasc) as [Hs Hnan].
  unfold Pandas.sort_values_MeanMakespan.
  rewrite filter_all, filter_none.
  - rewrite app_nil_r.
    rewrite (sorted_indexer_is_seq
               (map (fun r : Z * SensRow => MeanMakespan (snd r)) df)
               (argsort env (map (fun r => MeanMakespan (snd r)) df))).
    + rewrite List.length_map. apply take_all.
    + apply (StronglySorted_map_in
               (fun r : Z * SensRow => MeanMakespan (snd r))
               (fun a b => SFltb (MeanMakespan (snd a)) (MeanMakespan (snd b))
                           = true)).
      * intros a b _ _ H. exact H.
      * exact Hs.
    + apply Hsort. intros x Hx. apply in_map_iff in Hx.
      destruct Hx as [r [<- Hr]]. apply Hnan. exact Hr.
  - exact Hnan.
  - intros x Hx. rewrite (Hnan x Hx). reflexivity.
Qed.

(** C9, as the code has it.  The report [generate_analysis_report] writes
    holds, after its ten opening lines, one line for each of the first
    five rows of the table sorted by MeanMakespan.  The number in the rank
    cell of such a line is one more than the position of that row in the
    input file: the label of the row, plus one.  So the rank cells read 1
    to 5 exactly when the table has five rows or more and the five rows
    shown are its first five rows, in their order.  With an [argsort] that
    sorts, the sorted table holds the rows of the table, no row left out
    of the five is smaller than a row shown, and for an input in strictly
    ascending order the rank cells read 1, 2, ... *)
Theorem rank_column_is_input_position env self self' (rows : list SensRow) :
  outcome (plot_sensitivity.ensure_data env self)
  = inr (self', Pandas.range_index rows) ->
  let report_file :=
    joinpath (plot_sensitivity.output_dir self')
      "sensitivity_analysis_report.md" in
  write_outcome env report_file = None ->
  let df := Pandas.range_index rows in
  let sorted_data := Pandas.sort_values_MeanMakespan env df in
  let top := Pandas.head 5 sorted_data in
  let rank_cell (r : Z * SensRow) := Py.str_of_Z (fst r + 1) in
  exists lines,
    outcome (plot_sensitivity.generate_analysis_report env self) = inr self' /\
    artifacts (output (plot_sensitivity.generate_analysis_report env self))
    = [WriteLines report_file lines] /\
    (exists rest,
       skipn 10 lines
       = (map (fun r =>
                 Text ("| " ++ rank_cell r ++ " | "
                       ++ Py.str_of_Z (F.trunc (F.of_Z (k (snd r)))) ++ " | "
                       ++ F.format_f 1 (lambda (snd r)) ++ " | "
                       ++ F.format_f 2 (MeanMakespan (snd r)) ++ " | "
                       ++ F.format_f 2 (StdMakespan (snd r)) ++ " | "
                       ++ F.format_f 2 (CV (snd r)) ++ "% |" ++ Py.nl))
              top
          ++ rest)%list) /\
    (forall label row,
       In (label, row) top ->
       exists pos, label = Z.of_nat pos /\ nth_error rows pos = Some row) /\
    (map rank_cell top = ["1"; "2"; "3"; "4"; "5"] <->
     (5 <= List.length rows)%nat /\ top = firstn 5 df) /\
    (argsort_sorts env ->
     Permutation sorted_data df /\
     (forall x y,
        In x top -> In y (skipn 5 sorted_data) ->
        F.leb (MeanMakespan (snd x)) (MeanMakespan (snd y)) = true \/
        F.is_nan (MeanMakespan (snd y)) = true) /\
     (is_strictly_ascending df = true ->
      map rank_cell top
      = map (fun pos => Py.str_of_Z (Z.of_nat pos + 1))
            (seq 0 (Nat.min 5 (List.length rows))))).
Proof.
  intros Hdata report_file Hwrite df sorted_data top rank_cell.
  destruct (generate_analysis_report_written env self self' df Hdata Hwrite)
    as [Hout Hart].
  exists (plot_sensitivity.report_lines env self' df).
  split; [exact Hout|]. split; [exact Hart|].
  split; [|split; [|split]].
  - eexists. unfold plot_sensitivity.report_lines.
    cbn [skipn app]. reflexivity.
  - intros label row. apply top_rows_in_input.
  - split.
    + intros H.
      pose proof (top_rows_in_input env rows) as Hin.
      fold df sorted_data top in Hin.
      destruct top as [|[l0 a0] [|[l1 a1] [|[l2 a2] [|[l3 a3] [|[l4 a4] [|]]]]]];
        try discriminate.
      unfold rank_cell in H. cbn [map fst] in H.
      injection H as H0 H1 H2 H3 H4.
      apply (str_of_Z_inj _ 1) in H0. apply (str_of_Z_inj _ 2) in H1.
      apply (str_of_Z_inj _ 3) in H2. apply (str_of_Z_inj _ 4) in H3.
      apply (str_of_Z_inj _ 5) in H4.
      destruct (nth_error_label rows 0 l0 a0 H0) as [-> E0];
        [apply Hin; simpl; tauto|].
      destruct (nth_error_label rows 1 l1 a1 H1) as [-> E1];
        [apply Hin; simpl; tauto|].
      destruct (nth_error_label rows 2 l2 a2 H2) as [-> E2];
        [apply Hin; simpl; tauto|].
      destruct (nth_error_label rows 3 l3 a3 H3) as [-> E3];
        [apply Hin; simpl; tauto|].
      destruct (nth_error_label rows 4 l4 a4 H4) as [-> E4];
        [apply Hin; simpl; tauto|].
      unfold df.
      destruct rows as [|r0 [|r1 [|r2 [|r3 [|r4 rest]]]]]; try discriminate.
      simpl in E0, E1, E2, E3, E4.
      injection E0 as ->. injection E1 as ->. injection E2 as ->.
      injection E3 as ->. injection E4 as ->.
      split; [simpl; lia | rewrite range_index_firstn5; reflexivity].
    + intros [Hlen Htop]. rewrite Htop. unfold df.
      destruct rows as [|r0 [|r1 [|r2 [|r3 [|r4 rest]]]]];
        try (simpl in Hlen; lia).
      rewrite range_index_firstn5. reflexivity.
  - intros Hsort. split; [apply sort_values_perm; exact Hsort|]. split.
    + intros x y. unfold top, Pandas.head.
      apply (StronglySorted_firstn_skipn
               (fun x y =>
                  F.leb (MeanMakespan (snd x)) (MeanMakespan (snd y)) = true \/
                  F.is_nan (MeanMakespan (snd y)) = true)).
      apply sort_values_sorted. exact Hsort.
    + intros Hasc. unfold top, sorted_data.
      rewrite (sort_values_strictly_ascending env df Hsort Hasc).
      unfold Pandas.head, rank_cell.
      rewrite <- (map_map fst (fun i => Py.str_of_Z (i + 1))).
      rewrite <- firstn_map.
      unfold df. rewrite map_fst_range_index, firstn_map, firstn_seq_min, map_map.
      reflexivity.
Qed.

Lemma rank_column_is_input_position_witness :
  exists lines rest,
    artifacts
      (output (plot_sensitivity.generate_analysis_report env_descending
                 plotter_1))
    = [WriteLines "results/sensitivity_analysis_report.md" lines] /\
    skipn 10 lines
    = ([ Text ("| 6 | 1 | 0.6 | 10.00 | 1.00 | 1.00% |" ++ Py.nl);
         Text ("| 5 | 1 | 0.5 | 20.00 | 1.00 | 1.00% |" ++ Py.nl);
         Text ("| 4 | 1 | 0.4 | 30.00 | 1.00 | 1.00% |" ++ Py.nl);
         Text ("| 3 | 1 | 0.3 | 40.00 | 1.00 | 1.00% |" ++ Py.nl);
         Text ("| 2 | 1 | 0.2 | 50.00 | 1.00 | 1.00% |" ++ Py.nl) ]
       ++ rest)%list.
Proof.
  destruct (rank_column_is_input_position env_descending plotter_1 _
              (map snd descending_rows) eq_refl eq_refl)
    as [lines [_ [Hart [[rest Hskip] _]]]].
  exists lines, rest. split; [exact Hart|].
  rewrite Hskip. f_equal.
Defined.

(** C9, as stated, fails: the seven configurations below are not in
    ascending order of MeanMakespan (the last two are exchanged), and the
    rank cells of the five lines of their report read 1 to 5. *)
Lemma rank_column_of_unsorted_table :
  read_sensitivity_csv env_seven "sensitivity_results_1.csv"
  = Some (map snd seven_rows) /\
  map (fun r => MeanMakespan (snd r)) seven_rows
  = map F.of_Z [1; 2; 3; 4; 5; 7; 6] /\
  is_ascending seven_rows = false /\
  exists lines,
    artifacts
      (output (plot_sensitivity.generate_analysis_report env_seven plotter_1))
    = [WriteLines "results/sensitivity_analysis_report.md" lines] /\
    firstn 5 (skipn 10 lines)
    = [ Text ("| 1 | 1 | 0.1 | 1.00 | 1.00 | 1.00% |" ++ Py.nl);
        Text ("| 2 | 1 | 0.2 | 2.00 | 1.00 | 1.00% |" ++ Py.nl);
        Text ("| 3 | 1 | 0.3 | 3.00 | 1.00 | 1.00% |" ++ Py.nl);
        Text ("| 4 | 1 | 0.4 | 4.00 | 1.00 | 1.00% |" ++ Py.nl);
        Text ("| 5 | 1 | 0.5 | 5.00 | 1.00 | 1.00% |" ++ Py.nl) ].
Proof.
  split; [vm_compute; reflexivity|]. split; [vm_compute; reflexivity|].
  split; [vm_compute; reflexivity|].
  exists (plot_sensitivity.report_lines env_seven plotter_1 seven_rows).
  split; vm_compute; reflexivity.
Qed.


(** ** The pivot of the heatmaps *)

Lemma key_eqb_sym (a b : float) : F.key_eqb a b = true -> F.key_eqb b a = true.
Proof. rewrite !key_eqb_rank. congruence. Qed.

Lemma key_eqb_trans (a b c : float) :
  F.key_eqb a b = true -> F.key_eqb b c = true -> F.key_eqb a c = true.
Proof. rewrite !key_eqb_rank. congruence. Qed.

Lemma has_duplicates_spec (rows : list SensRow) :
  Pandas.has_duplicates rows = false <-> pairs_distinct rows.
Proof.
  induction rows as [|r0 rows IH]; simpl.
  - split; [|reflexivity]. intros _ i j r r' Hi. destruct i; discriminate.
  - rewrite orb_false_iff, IH. split.
    + intros [Hex Hd] i j r r' Hi Hj Hk Hl.
      destruct i as [|i], j as [|j]; simpl in Hi, Hj.
      * reflexivity.
      * injection Hi as <-. exfalso.
        assert (Hin : existsb (Pandas.same_pair r0) rows = true).
        { apply existsb_exists. exists r'.
          split; [eapply nth_error_In; exact Hj|].
          unfold Pandas.same_pair. rewrite Hl. apply Z.eqb_eq. exact Hk. }
        congruence.
      * injection Hj as <-. exfalso.
        assert (Hin : existsb (Pandas.same_pair r0) rows = true).
        { apply existsb_exists. exists r.
          split; [eapply nth_error_In; exact Hi|].
          unfold Pandas.same_pair. rewrite (key_eqb_sym _ _ Hl).
          apply Z.eqb_eq. congruence. }
        congruence.
      * f_equal. apply (Hd i j r r'); assumption.
    + intros Hd. split.
      * destruct (existsb (Pandas.same_pair r0) rows) eqn:Hex; [|reflexivity].
        apply existsb_exists in Hex. destruct Hex as [r' [Hin Hsame]].
        apply In_nth_error in Hin. destruct Hin as [j Hj].
        unfold Pandas.same_pair in Hsame. apply andb_true_iff in Hsame.
        destruct Hsame as [Hl Hk]. apply Z.eqb_eq in Hk.
        discriminate (Hd 0%nat (S j) r0 r' eq_refl Hj Hk Hl).
      * intros i j r r' Hi Hj Hk Hl.
        assert (S i = S j) by (apply (Hd (S i) (S j) r r'); assumption).
        lia.
Qed.

(** The cell of a pair that occurs once is the metric of its row. *)
Lemma cell_found (m : SensRow -> float) (rows : list SensRow) (r : SensRow)
    (l : float) :
  Pandas.has_duplicates rows = false ->
  In r rows -> F.key_eqb l (lambda r) = true ->
  Pandas.cell m rows l (k r) = m r.
Proof.
  intros Hdup Hin Hl. unfold Pandas.cell.
  induction rows as [|r0 rows IH]; [destruct Hin|].
  simpl in Hdup. apply orb_false_iff in Hdup. destruct Hdup as [Hex Hdup].
  simpl.
  destruct (F.key_eqb (lambda r0) l && (k r0 =? k r))%bool eqn:Hr0.
  - destruct Hin as [-> | Hin]; [reflexivity|]. exfalso.
    apply andb_true_iff in Hr0. destruct Hr0 as [Hl0 Hk0].
    assert (Hsame : existsb (Pandas.same_pair r0) rows = true).
    { apply existsb_exists. exists r. split; [exact Hin|].
      unfold Pandas.same_pair.
      rewrite (key_eqb_trans _ _ _ Hl0 Hl), Hk0. reflexivity. }
    congruence.
  - destruct Hin as [-> | Hin]; [|apply IH; assumption]. exfalso.
    rewrite (key_eqb_sym _ _ Hl), Z.eqb_refl in Hr0. discriminate.
Qed.

Lemma sorted_unique_float_perm (l : list float) :
  Permutation (Pandas.sorted_unique_float l) (Pandas.unique_by F.key_eqb l).
Proof. apply (sort_floats_by_perm (fun x => x)). Qed.

Lemma NoDup_nth_error_key {A B} (key : A -> B) (l : list A) (i j : nat)
    (x y : A) :
  NoDup (map key l) ->
  nth_error l i = Some x -> nth_error l j = Some y -> key x = key y -> i = j.
Proof.
  intros Hnd Hi Hj Hk.
  apply (proj1 (NoDup_nth_error (map key l)) Hnd).
  - rewrite List.length_map. apply nth_error_Some. congruence.
  - rewrite !nth_error_map, Hi, Hj. simpl. congruence.
Qed.

Lemma pivot_raises (metric : string) (m : SensRow -> float) (df : DataFrame) :
  Pandas.column metric = Some m ->
  Pandas.has_duplicates (map snd df) = true ->
  Pandas.pivot metric df
  = ([], inl (Py.ValueError "Index contains duplicate entries, cannot reshape")).
Proof.
  intros Hm Hdup. unfold Pandas.pivot. rewrite Hm, Hdup. reflexivity.
Qed.

Lemma pivot_returns (metric : string) (m : SensRow -> float) (df : DataFrame) :
  Pandas.column metric = Some m ->
  Pandas.has_duplicates (map snd df) = false ->
  Pandas.pivot metric df
  = ([], inr {| index := Pandas.sorted_unique_float (map lambda (map snd df));
                columns := Pandas.sorted_unique_Z (map k (map snd df));
                values :=
                  map (fun l =>
                         map (Pandas.cell m (map snd df) l)
                             (Pandas.sorted_unique_Z (map k (map snd df))))
                      (Pandas.sorted_unique_float (map lambda (map snd df))) |}).
Proof.
  intros Hm Hdup. unfold Pandas.pivot. rewrite Hm, Hdup. reflexivity.
Qed.

(** C4. For a table in which every (k, lambda) pair appears at most once,
    the pivot has one row label per distinct lambda of the table and one
    column label per distinct k, and the cell at the labels of a row of
    the table is that row's metric; this is the pivot both heatmap
    plotters draw.  For a table with a repeated pair the pivot fails with
    [ValueError], and so do both plotters. *)
Theorem pivot_shape (metric : string) (m : SensRow -> float) (df : DataFrame) :
  Pandas.column metric = Some m ->
  let rows := map snd df in
  (pairs_distinct rows ->
   exists p,
     Pandas.pivot metric df = ([], inr p) /\
     (forall i j l l',
        nth_error (index p) i = Some l -> nth_error (index p) j = Some l' ->
        F.key_eqb l l' = true -> i = j) /\
     (forall r, In r rows ->
        exists l, In l (index p) /\ F.key_eqb l (lambda r) = true) /\
     (forall l, In l (index p) -> exists r, In r rows /\ lambda r = l) /\
     NoDup (columns p) /\
     (forall c, In c (columns p) <-> exists r, In r rows /\ k r = c) /\
     (forall r i j l,
        In r rows ->
        nth_error (index p) i = Some l -> F.key_eqb l (lambda r) = true ->
        nth_error (columns p) j = Some (k r) ->
        exists cells,
          nth_error (values p) i = Some cells /\
          nth_error cells j = Some (m r)) /\
     (forall env self title filename,
        plot_sensitivity.data self = Some df ->
        exists shown rest,
          output (plot_sensitivity.plot_heatmap env self metric title filename)
          = Heatmap shown p :: rest) /\
     (forall env csv_file lang content,
        read_sensitivity_csv env csv_file = Some content ->
        df = Pandas.range_index content -> metric = "MeanMakespan" ->
        exists before shown rest,
          output (plot_sensitivity_simple.plot_sensitivity_heatmap env csv_file
                    lang)
          = (before ++ Heatmap shown p :: rest)%list)) /\
  (~ pairs_distinct rows ->
   let error :=
     Py.ValueError "Index contains duplicate entries, cannot reshape" in
   Pandas.pivot metric df = ([], inl error) /\
   (forall env self title filename,
      plot_sensitivity.data self = Some df ->
      plot_sensitivity.plot_heatmap env self metric title filename
      = ([], inl error)) /\
   (forall env csv_file lang content,
      read_sensitivity_csv env csv_file = Some content ->
      df = Pandas.range_index content -> metric = "MeanMakespan" ->
      outcome (plot_sensitivity_simple.plot_sensitivity_heatmap env csv_file lang)
      = inl error)).
Proof.
  intros Hm rows. split.
  - intros Hdist. apply has_duplicates_spec in Hdist.
    pose proof (pivot_returns metric m df Hm Hdist) as Hpivot.
    fold rows in Hpivot.
    eexists. split; [exact Hpivot|]. cbn [index columns values].
    pose proof (sorted_unique_float_perm (map lambda rows)) as Hperm.
    assert (Hnd : NoDup (map frank (Pandas.sorted_unique_float (map lambda rows)))).
    { apply (Permutation_NoDup
               (Permutation_sym (Permutation_map frank Hperm))).
      apply (unique_by_NoDup F.key_eqb frank key_eqb_rank). }
    split; [|split; [|split; [|split; [|split; [|split; [|split]]]]]].
    + intros i j l l' Hi Hj Hl.
      apply (NoDup_nth_error_key frank _ i j l l' Hnd Hi Hj).
      apply key_eqb_rank. exact Hl.
    + intros r Hr.
      destruct (unique_by_covers F.key_eqb frank key_eqb_rank
                  (map lambda rows) (lambda r) (in_map lambda rows r Hr))
        as [y [Hy Hk]].
      exists y. split.
      * apply (Permutation_in _ (Permutation_sym Hperm)). exact Hy.
      * apply key_eqb_rank. exact Hk.
    + intros l Hl. apply (Permutation_in _ Hperm) in Hl.
      apply unique_by_incl in Hl. apply in_map_iff in Hl.
      destruct Hl as [r [Hr Hin]]. exists r. tauto.
    + apply sorted_unique_Z_NoDup.
    + intros c. rewrite sorted_unique_Z_In, in_map_iff.
      split; intros [r Hr]; exists r; tauto.
    + intros r i j l Hr Hi Hl Hj.
      exists (map (Pandas.cell m rows l) (Pandas.sorted_unique_Z (map k rows))).
      split.
      * rewrite nth_error_map, Hi. reflexivity.
      * rewrite nth_error_map, Hj. simpl. f_equal.
        apply cell_found; assumption.
    + intros env self title filename Hdata.
      unfold plot_sensitivity.plot_heatmap, plot_sensitivity.ensure_data.
      rewrite Hdata.
      rewrite (output_bind_ok _ _ (self, df)) by reflexivity.
      cbv beta iota zeta.
      rewrite (output_bind_ok _ _ _ (f_equal snd Hpivot)).
      rewrite Hpivot.
      rewrite (output_bind_ok _ _ tt) by reflexivity.
      eexists. eexists. reflexivity.
    + intros env csv_file lang content Hread Hdf Hmetric.
      unfold plot_sensitivity_simple.plot_sensitivity_heatmap, read_csv.
      rewrite Hread, <- Hdf, <- Hmetric.
      rewrite (output_bind_ok _ _ df) by reflexivity.
      rewrite (output_bind_ok _ _ tt) by reflexivity.
      rewrite (output_bind_ok _ _ tt) by reflexivity.
      rewrite (output_bind_ok _ _ tt) by reflexivity.
      rewrite (output_bind_ok _ _ _ (f_equal snd Hpivot)).
      rewrite Hpivot.
      rewrite (output_bind_ok _ _ tt) by reflexivity.
      cbn [output ret print emit fst app].
      eexists [_; _; _]. eexists. eexists. reflexivity.
  - intros Hdist error.
    assert (Hdup : Pandas.has_duplicates rows = true).
    { destruct (Pandas.has_duplicates rows) eqn:Hd; [reflexivity|].
      exfalso. apply Hdist, has_duplicates_spec. exact Hd. }
    pose proof (pivot_raises metric m df Hm Hdup) as Hpivot.
    split; [exact Hpivot|]. split.
    + intros env self title filename Hdata.
      unfold plot_sensitivity.plot_heatmap, plot_sensitivity.ensure_data.
      rewrite Hdata. cbv beta iota zeta delta [bind ret].
      rewrite Hpivot. reflexivity.
    + intros env csv_file lang content Hread Hdf Hmetric.
      unfold plot_sensitivity_simple.plot_sensitivity_heatmap, read_csv.
      rewrite Hread, <- Hdf, <- Hmetric.
      rewrite (outcome_bind_ok _ _ df) by reflexivity.
      rewrite (outcome_bind_ok _ _ tt) by reflexivity.
      rewrite (outcome_bind_ok _ _ tt) by reflexivity.
      rewrite (outcome_bind_ok _ _ tt) by reflexivity.
      apply outcome_bind_raise. rewrite Hpivot. reflexivity.
Qed.

Lemma pivot_shape_witness :
  (exists p,
     Pandas.pivot "MeanMakespan" (Pandas.range_index grid_rows) = ([], inr p) /\
     NoDup (columns p)) /\
  Pandas.pivot "MeanMakespan" (Pandas.range_index duplicated_rows)
  = ([], inl (Py.ValueError "Index contains duplicate entries, cannot reshape")).
Proof.
  split.
  - destruct (proj1 (pivot_shape "MeanMakespan" MeanMakespan
                       (Pandas.range_index grid_rows) eq_refl))
      as [p [Hp [_ [_ [_ [Hnd _]]]]]].
    + apply has_duplicates_spec. vm_compute. reflexivity.
    + exists p. split; [exact Hp | exact Hnd].
  - refine (proj1 (proj2 (pivot_shape "MeanMakespan" MeanMakespan
                            (Pandas.range_index duplicated_rows) eq_refl) _)).
    intros H. apply has_duplicates_spec in H. vm_compute in H. discriminate.
Defined.

(* ================================================================== *)
(** * Further properties of the scripts *)
(* ================================================================== *)

(** ** Grouping rows by a key *)

Lemma partition_step {A V} (m : V -> bool) (f : V -> list A) (x : A)
    (vs : list V) :
  List.length (filter m vs) = 1%nat ->
  Permutation
    (List.concat (map (fun v => if m v then x :: f v else f v) vs))
    (x :: List.concat (map f vs)).
Proof.
  induction vs as [|v vs IH]; simpl; [discriminate|].
  destruct (m v) eqn:Hv; simpl; intros H.
  - apply perm_skip. apply Permutation_app_head.
    assert (Hnone : forall w, In w vs -> m w = false).
    { intros w Hw. destruct (m w) eqn:Hmw; [|reflexivity].
      assert (Hin : In w (filter m vs)) by (apply filter_In; auto).
      destruct (filter m vs); [destruct Hin | discriminate]. }
    clear -Hnone. induction vs as [|w vs IH]; simpl; [apply perm_nil|].
    rewrite (Hnone w) by (left; reflexivity).
    apply Permutation_app_head. apply IH.
    intros u Hu. apply Hnone. right. exact Hu.
  - eapply Permutation_trans;
      [apply Permutation_app_head, IH; exact H|].
    apply Permutation_sym, Permutation_middle.
Qed.

(** When every element matches exactly one of the values, selecting the
    elements value by value gives every element once. *)
Lemma partition_perm {A V} (m : A -> V -> bool) (vs : list V) (l : list A) :
  (forall r, In r l -> List.length (filter (m r) vs) = 1%nat) ->
  Permutation (List.concat (map (fun v => filter (fun r => m r v) l) vs)) l.
Proof.
  induction l as [|x l IH]; intros H.
  - clear H. simpl.
    induction vs as [|v vs IHv]; simpl; [apply perm_nil | exact IHv].
  - apply Permutation_trans
      with (l' := x :: List.concat (map (fun v => filter (fun r => m r v) l) vs)).
    + apply (partition_step (m x) (fun v => filter (fun r => m r v) l) x vs).
      apply H. left. reflexivity.
    + apply perm_skip, IH. intros r Hr. apply H. right. exact Hr.
Qed.

Lemma count_one_key {V K} (key : V -> K) (test : V -> bool) (y : V)
    (vs : list V) :
  NoDup (map key vs) -> In y vs ->
  (forall v, In v vs -> (test v = true <-> key v = key y)) ->
  List.length (filter test vs) = 1%nat.
Proof.
  induction vs as [|v vs IH]; intros Hnd Hin Htest; [destruct Hin|].
  inversion Hnd as [|? ? Hv Hnd']; subst. simpl.
  destruct (test v) eqn:Hv'.
  - simpl. f_equal.
    assert (Hk : key v = key y) by (apply Htest; [left; reflexivity | exact Hv']).
    rewrite filter_none; [reflexivity|].
    intros w Hw. destruct (test w) eqn:Hw'; [|reflexivity]. exfalso.
    apply Hv. apply in_map_iff. exists w. split; [|exact Hw].
    rewrite Hk. apply Htest; [right; exact Hw | exact Hw'].
  - destruct Hin as [-> | Hin].
    + assert (test y = true) by (apply Htest; [left|]; reflexivity). congruence.
    + apply IH; [exact Hnd' | exact Hin |].
      intros w Hw. apply Htest. right. exact Hw.
Qed.

Lemma partition_by_Z {A} (key : A -> Z) (vs : list Z) (l : list A) :
  NoDup vs -> (forall r, In r l -> In (key r) vs) ->
  Permutation
    (List.concat (map (fun v => filter (fun r => Z.eqb (key r) v) l) vs)) l.
Proof.
  intros Hnd Hin. apply (partition_perm (fun r v => Z.eqb (key r) v)).
  intros r Hr.
  apply (count_one_key (fun v : Z => v) _ (key r)).
  - rewrite map_id. exact Hnd.
  - apply Hin. exact Hr.
  - intros v _. rewrite Z.eqb_eq. split; congruence.
Qed.

Lemma unique_Z_NoDup (l : list Z) : NoDup (Pandas.unique_by Z.eqb l).
Proof.
  pose proof (unique_by_NoDup Z.eqb (fun x => x) Z_eqb_key l) as H.
  rewrite map_id in H. exact H.
Qed.

Lemma unique_Z_In (l : list Z) (x : Z) :
  In x (Pandas.unique_by Z.eqb l) <-> In x l.
Proof.
  split; [apply unique_by_incl|]. intros H.
  destruct (unique_by_covers Z.eqb (fun x => x) Z_eqb_key l x H) as [y [Hy ->]].
  exact Hy.
Qed.

(** ** The curves of the single-algorithm plot *)

Lemma for_each_emit {A} (f : A -> event) (l : list A) :
  for_each l (fun x => emit (f x)) = (map f l, inr tt).
Proof.
  induction l as [|x l IH]; simpl; [reflexivity|]. rewrite IH. reflexivity.
Qed.

Lemma seed_curves_app (o1 o2 : list event) :
  seed_curves (o1 ++ o2) = (seed_curves o1 ++ seed_curves o2)%list.
Proof. apply flat_map_app. Qed.

Lemma seed_curves_map_plot (data : list ConvRow) (seeds : list Z) :
  seed_curves
    (map (fun seed =>
            PlotZ None (map Iteration (filter (fun r => Z.eqb (Seed r) seed) data))
                  (map BestFitness (filter (fun r => Z.eqb (Seed r) seed) data)))
         seeds)
  = map (fun seed => (map Iteration (rows_of_seed data seed),
                      map BestFitness (rows_of_seed data seed))) seeds.
Proof.
  induction seeds as [|s seeds IH]; simpl; [reflexivity|].
  rewrite IH. reflexivity.
Qed.

Lemma savefig_then_print_curves env path text :
  seed_curves (output (savefig env path ;; print text)) = [].
Proof.
  unfold savefig. destruct (write_outcome env path); reflexivity.
Qed.

(** X1. The single-algorithm plot draws one unlabelled curve for each
    distinct [Seed] value of the loaded table, in order of first
    appearance, made of the rows carrying that seed; every row of the
    table lies on exactly one of these curves.  Files whose names give
    the same seed (such as [seed7] and [seed07]) therefore share one
    curve. *)
Theorem per_seed_curves env self algorithm scale out data :
  plot_convergence.load_convergence_data env self algorithm scale
  = (out, inr (Some data)) ->
  let seeds := Pandas.unique_by Z.eqb (map Seed data) in
  seed_curves
    (output (plot_convergence.plot_single_algorithm env self algorithm scale))
  = map (fun seed => (map Iteration (rows_of_seed data seed),
                      map BestFitness (rows_of_seed data seed))) seeds /\
  NoDup seeds /\
  (forall s, In s seeds <-> exists r, In r data /\ Seed r = s) /\
  Permutation (List.concat (map (rows_of_seed data) seeds)) data.
Proof.
  intros Hload seeds. split; [|split; [|split]].
  - destruct (load_convergence_data_output _ _ _ _ _ _ Hload) as [text ->].
    unfold plot_convergence.plot_single_algorithm. rewrite Hload.
    unfold bind at 1. cbv beta iota.
    rewrite for_each_emit. fold seeds.
    unfold bind at 1. cbv beta iota.
    unfold bind at 1, emit at 1. cbv beta iota.
    unfold bind at 1, emit at 1. cbv beta iota.
    match goal with
    | |- context [savefig env ?p ;; print ?t] =>
        pose proof (savefig_then_print_curves env p t) as Hrest;
        destruct (savefig env p ;; print t) as [o r]
    end.
    simpl output in *. cbn [fst].
    change (seed_curves (Print (Text text) :: ?l)) with (seed_curves l).
    rewrite seed_curves_app, seed_curves_map_plot.
    change (seed_curves (PlotZ (Some ?a) ?b ?c :: FillBetween ?d ?e ?f :: o))
      with (seed_curves o).
    rewrite Hrest, app_nil_r. reflexivity.
  - apply unique_Z_NoDup.
  - intros s. unfold seeds. rewrite unique_Z_In, in_map_iff.
    split; intros [r Hr]; exists r; tauto.
  - apply (partition_by_Z Seed).
    + apply unique_Z_NoDup.
    + intros r Hr. apply unique_Z_In. apply in_map. exact Hr.
Qed.

Lemma per_seed_curves_witness :
  seed_curves
    (output (plot_convergence.plot_single_algorithm env_same_seed cbo_plotter
               "CBO" "M100"))
  = [ ([0; 1; 0; 1], [F.of_Z 100; F.of_Z 80; F.of_Z 90; F.of_Z 70]) ].
Proof.
  refine (eq_trans
            (proj1 (per_seed_curves env_same_seed cbo_plotter "CBO" "M100"
                      _ _ eq_refl)) _).
  vm_compute. reflexivity.
Defined.

(** ** Tables without rows *)









(** ** The curves of the comparison plot *)







(** ** The rank of the default configuration *)

Lemma list_index_first {A} (eqb : A -> A -> bool) (x : A) (l : list A) :
  (forall a b, eqb a b = true <-> a = b) ->
  In x l ->
  exists p, Py.list_index eqb x l = Some p /\ nth_error l p = Some x.
Proof.
  intros Heq. induction l as [|y l IH]; intros Hin; [destruct Hin|].
  simpl. destruct (eqb y x) eqn:Hyx.
  - exists O. apply Heq in Hyx. subst y. split; reflexivity.
  - destruct Hin as [-> | Hin].
    + assert (eqb x x = true) by (apply Heq; reflexivity). congruence.
    + destruct (IH Hin) as [p [Hp Hn]]. exists (S p). rewrite Hp.
      split; [reflexivity | exact Hn].
Qed.

Lemma NoDup_range_labels {A} (rows : list A) :
  NoDup (map fst (Pandas.range_index rows)).
Proof.
  rewrite map_fst_range_index.
  apply Finite.Injective_map_NoDup; [|apply seq_NoDup].
  intros a b H. lia.
Qed.

Lemma StronglySorted_nth_error {A} (R : A -> A -> Prop) (l : list A)
    (i j : nat) (x y : A) :
  StronglySorted R l -> (i < j)%nat ->
  nth_error l i = Some x -> nth_error l j = Some y -> R x y.
Proof.
  intros Hs. revert i j. induction Hs as [|a l Hs IH Hall]; intros i j Hij Hi Hj.
  - destruct i; discriminate.
  - destruct j as [|j]; [lia|]. simpl in Hj.
    destruct i as [|i].
    + simpl in Hi. injection Hi as <-.
      rewrite Forall_forall in Hall. apply Hall.
      apply (nth_error_In _ _ Hj).
    + simpl in Hi. apply (IH i j); [lia | exact Hi | exact Hj].
Qed.

(** X4. Unlike the rank cells of the table of best configurations, the
    rank written in the section on the default configuration is a
    position in the sorted table: for a table read from a file and an
    [argsort] that sorts, it is one more than the position at which the
    first selected row stands in the table sorted by MeanMakespan, it is
    at most the number of configurations, and every row that stands
    before that row has a mean that is not greater (or the row itself has
    no mean). *)
Theorem default_rank_is_sorted_position env (rows : list SensRow)
    label row others :
  argsort_sorts env ->
  let df := Pandas.range_index rows in
  let sorted_data := Pandas.sort_values_MeanMakespan env df in
  plot_sensitivity.default_config df = (label, row) :: others ->
  exists p,
    plot_sensitivity.rank_of label sorted_data = Z.of_nat p + 1 /\
    nth_error sorted_data p = Some (label, row) /\
    (p < List.length rows)%nat /\
    (forall i other, (i < p)%nat -> nth_error sorted_data i = Some other ->
       F.leb (MeanMakespan (snd other)) (MeanMakespan row) = true \/
       F.is_nan (MeanMakespan row) = true).
Proof.
  intros Hsort df sorted_data Hdef.
  assert (Hin : In (label, row) df).
  { apply (proj1 (default_config_In df (label, row))). rewrite Hdef.
    left. reflexivity. }
  assert (Hperm : Permutation sorted_data df)
    by (apply sort_values_perm; exact Hsort).
  assert (Hnd : NoDup (map fst sorted_data)).
  { apply (Permutation_NoDup (l := map fst df)).
    - apply Permutation_map, Permutation_sym, Hperm.
    - apply NoDup_range_labels. }
  assert (Hins : In (label, row) sorted_data)
    by (apply (Permutation_in _ (Permutation_sym Hperm)), Hin).
  destruct (list_index_first Z.eqb label (map fst sorted_data) Z.eqb_eq)
    as [p [Hp Hn]].
  { apply (in_map fst) in Hins. exact Hins. }
  exists p. unfold plot_sensitivity.rank_of. rewrite Hp.
  split; [reflexivity|].
  rewrite nth_error_map in Hn.
  destruct (nth_error sorted_data p) as [[label' row']|] eqn:Hnp;
    [|discriminate].
  simpl in Hn. injection Hn as ->.
  destruct (In_nth_error _ _ Hins) as [q Hq].
  assert (p = q)
    by (apply (NoDup_nth_error_key fst sorted_data p q _ _ Hnd Hnp Hq);
        reflexivity).
  subst q. rewrite Hq in Hnp. injection Hnp as <-.
  split; [reflexivity|]. split.
  - assert (Hlen : List.length sorted_data = List.length rows).
    { rewrite (Permutation_length Hperm). unfold df, Pandas.range_index.
      rewrite length_combine, length_map, length_seq. lia. }
    rewrite <- Hlen. apply nth_error_Some. congruence.
  - intros i other Hi Hio.
    apply (StronglySorted_nth_error
             (fun x y => F.leb (MeanMakespan (snd x)) (MeanMakespan (snd y)) = true
                         \/ F.is_nan (MeanMakespan (snd y)) = true)
             sorted_data i p other (label, row)
             (sort_values_sorted env df Hsort) Hi Hio Hq).
Qed.

Lemma default_rank_is_sorted_position_witness :
  exists p,
    plot_sensitivity.rank_of 0
      (Pandas.sort_values_MeanMakespan env_grid (Pandas.range_index grid_rows))
    = Z.of_nat p + 1 /\
    nth_error
      (Pandas.sort_values_MeanMakespan env_grid (Pandas.range_index grid_rows)) p
    = Some (0, sens_row 3 40 120) /\
    (p < 4)%nat.
Proof.
  destruct (default_rank_is_sorted_position env_grid grid_rows 0
              (sens_row 3 40 120) [] (example_env_sorts _ _ _) eq_refl)
    as [p [Hrank [Hnth [Hlt _]]]].
  exists p. split; [exact Hrank|]. split; [exact Hnth | exact Hlt].
Defined.

(** ** The sensitivity script without its data file *)

(** X5. When the statements of the [try] block of the sensitivity [main]
    raise [FileNotFoundError], the first handler reports it: the message
    and the advice to produce the data are printed, no trace is printed by
    the handler, [main] returns and the exit status is 0.  This is what
    happens when no result file is found: the output directory has been
    created by then, and nothing else is left behind. *)
Theorem missing_data_file_is_reported env e :
  outcome (plot_sensitivity.main_body env) = inl e ->
  Py.isinstance_FileNotFoundError e = true ->
  plot_sensitivity.main env
  = ((output (banner 29 "参数敏感性热力图绘制工具" 29)
      ++ output (plot_sensitivity.main_body env)
      ++ [ Print (Text ("❌ 错误: " ++ Py.str_of_exn e));
           Print (Text "请先运行ParameterSensitivityTest.java生成数据文件") ])%list,
     inr tt) /\
  exit_status (plot_sensitivity.main env) = 0 /\
  (glob env "." "sensitivity_results_*.csv" = [] ->
   e = Py.FileNotFoundError "未找到sensitivity_results_*.csv文件" /\
   artifacts (output (plot_sensitivity.main env)) = [Mkdir "results"]).
Proof.
  intros Hbody Hfnf.
  assert (Hmain :
            plot_sensitivity.main env
            = ((output (banner 29 "参数敏感性热力图绘制工具" 29)
                ++ output (plot_sensitivity.main_body env)
                ++ [ Print (Text ("❌ 错误: " ++ Py.str_of_exn e));
                     Print (Text "请先运行ParameterSensitivityTest.java生成数据文件") ])%list,
               inr tt)).
  { unfold plot_sensitivity.main.
    rewrite (try_except_handled _ _ e plot_sensitivity.on_missing_file Hbody).
    - reflexivity.
    - simpl. rewrite Hfnf. reflexivity. }
  split; [exact Hmain|]. split; [rewrite Hmain; reflexivity|].
  intros Hnone.
  assert (Hrun : plot_sensitivity.main_body env
                 = ([Mkdir "results"],
                    inl (Py.FileNotFoundError "未找到sensitivity_results_*.csv文件"))).
  { unfold plot_sensitivity.main_body, plot_sensitivity.init.
    rewrite Hnone. reflexivity. }
  rewrite Hrun in Hbody. simpl in Hbody. injection Hbody as <-.
  split; [reflexivity|].
  rewrite Hmain, Hrun. reflexivity.
Qed.

Lemma missing_data_file_is_reported_witness :
  exit_status (plot_sensitivity.main env_two_seeds) = 0 /\
  artifacts (output (plot_sensitivity.main env_two_seeds)) = [Mkdir "results"] /\
  exit_status (plot_sensitivity.main env_dangling) = 0.
Proof.
  destruct (missing_data_file_is_reported env_two_seeds _ eq_refl eq_refl)
    as [_ [Hexit Hnone]].
  destruct (Hnone eq_refl) as [_ Hart].
  destruct (missing_data_file_is_reported env_dangling _ eq_refl eq_refl)
    as [_ [Hexit' _]].
  split; [exact Hexit|]. split; [exact Hart | exact Hexit'].
Defined.

(** ** The marker of the default configuration *)

Lemma list_index_some {A} (eqb : A -> A -> bool) (x : A) (l : list A) (p : nat) :
  Py.list_index eqb x l = Some p ->
  exists y, nth_error l p = Some y /\ eqb y x = true.
Proof.
  revert p. induction l as [|z l IH]; intros p H; [discriminate|].
  simpl in H. destruct (eqb z x) eqn:Hzx.
  - injection H as <-. exists z. split; [reflexivity | exact Hzx].
  - destruct (Py.list_index eqb x l) as [q|]; [|discriminate].
    injection H as <-. apply (IH q eq_refl).
Qed.

Lemma list_index_none {A} (eqb : A -> A -> bool) (x : A) (l : list A) :
  Py.list_index eqb x l = None -> forall y, In y l -> eqb y x = false.
Proof.
  induction l as [|z l IH]; intros H y Hy; [destruct Hy|].
  simpl in H. destruct (eqb z x) eqn:Hzx; [discriminate|].
  destruct (Py.list_index eqb x l) as [q|]; [discriminate|].
  destruct Hy as [<- | Hy]; [exact Hzx | apply (IH eq_refl y Hy)].
Qed.

(** [x == 0.4] holds for the float 0.4 only. *)
Lemma key_eqb_default_lambda (x : float) :
  F.key_eqb x (F.dec 4 1) = true -> x = F.dec 4 1.
Proof.
  intros H. apply key_eqb_rank in H.
  assert (Hy : exists m e, F.dec 4 1 = S754_finite false m e)
    by (vm_compute; eauto).
  destruct Hy as [m [e Hy]]. rewrite Hy in *.
  destruct x as [s|s| |s m' e']; try (destruct s); simpl in H;
    try discriminate.
  injection H as -> ->. reflexivity.
Qed.

Lemma eqb_default_lambda (x : float) :
  F.eqb x (F.dec 4 1) = true -> x = F.dec 4 1.
Proof.
  intros H. apply key_eqb_default_lambda. unfold F.key_eqb. rewrite H.
  reflexivity.
Qed.

Lemma in_sorted_unique_float (l : list float) (x : float) :
  In x (Pandas.sorted_unique_float l) -> In x l.
Proof.
  intros H. apply (unique_by_incl F.key_eqb).
  apply (Permutation_in _ (sorted_unique_float_perm l) H).
Qed.

Lemma sorted_unique_float_covers (l : list float) (x : float) :
  In x l ->
  exists y, In y (Pandas.sorted_unique_float l) /\ F.key_eqb y x = true.
Proof.
  intros H.
  destruct (unique_by_covers F.key_eqb frank key_eqb_rank l x H) as [y [Hy Hk]].
  exists y. split.
  - apply (Permutation_in _ (Permutation_sym (sorted_unique_float_perm l)) Hy).
  - apply key_eqb_rank. exact Hk.
Qed.

(** X6. On the pivot of a table without repeated pair,
    [_mark_default_config] never raises.  It draws the marker exactly when
    some row has k = 3 and some row, the same or another, has lambda equal
    to the float 0.4; the window from 0.39 to 0.41 of the report is not
    used here.  The marker then stands on the column of k = 3 and the row
    of lambda = 0.4 of the pivot, whose cell holds the metric of the row
    with k = 3 and lambda = 0.4 when there is one and NaN otherwise. *)
Theorem default_marker (metric : string) (m : SensRow -> float) (df : DataFrame) :
  Pandas.column metric = Some m ->
  Pandas.has_duplicates (map snd df) = false ->
  let rows := map snd df in
  let k_present := exists r, In r rows /\ k r = 3 in
  let lambda_present :=
    exists r, In r rows /\ F.eqb (lambda r) (F.dec 4 1) = true in
  exists pivot_table,
    Pandas.pivot metric df = ([], inr pivot_table) /\
    outcome (plot_sensitivity._mark_default_config pivot_table) = inr tt /\
    (k_present /\ lambda_present ->
     exists k_index lambda_index cells,
       output (plot_sensitivity._mark_default_config pivot_table)
       = [Marker k_index lambda_index] /\
       nth_error (columns pivot_table) k_index = Some 3 /\
       nth_error (index pivot_table) lambda_index = Some (F.dec 4 1) /\
       nth_error (values pivot_table) lambda_index = Some cells /\
       nth_error cells k_index = Some (Pandas.cell m rows (F.dec 4 1) 3) /\
       (forall r, In r rows -> k r = 3 ->
          F.eqb (lambda r) (F.dec 4 1) = true ->
          Pandas.cell m rows (F.dec 4 1) 3 = m r) /\
       ((forall r, In r rows -> k r = 3 ->
           F.eqb (lambda r) (F.dec 4 1) = false) ->
        Pandas.cell m rows (F.dec 4 1) 3 = F.nan)) /\
    (~ (k_present /\ lambda_present) ->
     output (plot_sensitivity._mark_default_config pivot_table) = []).
Proof.
  intros Hm Hdup rows k_present lambda_present.
  eexists. split; [apply (pivot_returns metric m df Hm Hdup)|].
  fold rows.
  set (cols := Pandas.sorted_unique_Z (map k rows)).
  set (idx := Pandas.sorted_unique_float (map lambda rows)).
  unfold plot_sensitivity._mark_default_config, index_of.
  cbn [columns index values].
  assert (Hk : k_present -> Py.list_index Z.eqb 3 cols <> None).
  { intros [r [Hr Hr3]] Hnone.
    assert (Hin : In 3 cols).
    { apply sorted_unique_Z_In. rewrite <- Hr3. apply in_map. exact Hr. }
    pose proof (list_index_none _ _ _ Hnone 3 Hin) as H. discriminate H. }
  assert (Hl : lambda_present ->
               Py.list_index F.eqb (F.dec 4 1) idx <> None).
  { intros [r [Hr Hr4]] Hnone.
    destruct (sorted_unique_float_covers (map lambda rows) (lambda r))
      as [y [Hy Hyr]]; [apply in_map; exact Hr|].
    apply eqb_default_lambda in Hr4. rewrite Hr4 in Hyr.
    apply key_eqb_default_lambda in Hyr. subst y.
    pose proof (list_index_none _ _ _ Hnone (F.dec 4 1) Hy) as H.
    vm_compute in H. discriminate H. }
  destruct (Py.list_index Z.eqb 3 cols) as [i|] eqn:Hi.
  - destruct (Py.list_index F.eqb (F.dec 4 1) idx) as [j|] eqn:Hj.
    + split; [reflexivity|].
      destruct (list_index_some _ _ _ _ Hi) as [c [Hc Hc3]].
      apply Z.eqb_eq in Hc3. subst c.
      destruct (list_index_some _ _ _ _ Hj) as [l [Hlj Hl4]].
      apply eqb_default_lambda in Hl4. subst l.
      split.
      * intros _.
        exists i, j, (map (Pandas.cell m rows (F.dec 4 1)) cols).
        split; [reflexivity|]. split; [exact Hc|]. split; [exact Hlj|].
        split; [rewrite nth_error_map, Hlj; reflexivity|].
        split; [rewrite nth_error_map, Hc; reflexivity|].
        split.
        -- intros r Hr Hr3 Hlam. rewrite <- Hr3.
           apply cell_found; [exact Hdup | exact Hr|].
           apply key_eqb_sym. unfold F.key_eqb. rewrite Hlam. reflexivity.
        -- intros Hnone. unfold Pandas.cell.
           destruct (find _ rows) as [r|] eqn:Hfind; [|reflexivity].
           apply find_some in Hfind. destruct Hfind as [Hr Hmatch].
           apply andb_true_iff in Hmatch. destruct Hmatch as [Hlam Hr3].
           apply Z.eqb_eq in Hr3.
           apply key_eqb_default_lambda in Hlam.
           specialize (Hnone r Hr Hr3). rewrite Hlam in Hnone.
           vm_compute in Hnone. discriminate Hnone.
      * intros Hnot. exfalso. apply Hnot. split.
        -- apply nth_error_In in Hc. unfold cols in Hc.
           apply (proj1 (sorted_unique_Z_In _ _)) in Hc.
           apply in_map_iff in Hc. destruct Hc as [r [Hr3 Hr]].
           exists r. split; assumption.
        -- apply nth_error_In in Hlj. unfold idx in Hlj.
           apply in_sorted_unique_float in Hlj.
           apply in_map_iff in Hlj. destruct Hlj as [r [Hr4 Hr]].
           exists r. split; [exact Hr|]. rewrite Hr4. vm_compute. reflexivity.
    + split; [reflexivity|]. split.
      * intros [_ Hpresent]. exfalso. apply (Hl Hpresent). reflexivity.
      * intros _. reflexivity.
  - split; [reflexivity|]. split.
    + intros [Hpresent _]. exfalso. apply (Hk Hpresent). reflexivity.
    + intros _. reflexivity.
Qed.

Lemma default_marker_witness :
  exists pivot_table,
    Pandas.pivot "MeanMakespan" (Pandas.range_index split_default_rows)
    = ([], inr pivot_table) /\
    plot_sensitivity._mark_default_config pivot_table
    = ([Marker 1 0], inr tt) /\
    nth_error (values pivot_table) 0 = Some [F.of_Z 110; F.nan].
Proof.
  destruct (default_marker "MeanMakespan" MeanMakespan
              (Pandas.range_index split_default_rows) eq_refl eq_refl)
    as [pivot_table [Hpivot [Hout [Hmark _]]]].
  exists pivot_table. split; [exact Hpivot|].
  injection Hpivot as <-. split; vm_compute; reflexivity.
Defined.
